(** * Session lifecycle of the REST backend: stores, guards and handlers

    A shallow embedding of
    - [app/session_store.py]     (class [SessionStore], the volatile backend),
    - [app/models.py]            (class [Session], the persisted row),
    - [app/db_session_store.py]  (class [DatabaseSessionStore]),
    - [app/security.py]          (class [SecurityManager] and the request guard),
    - [app/routers/secure_auth.py] (the session-management handlers),
    followed by the properties of the session contract.

    Conventions of the embedding.
    - The clock is explicit: every call receives the instant [now] that its
      [datetime.now()] / [time.time()] readings return, in seconds counted from
      [datetime.min].  All readings made inside one call observe the same
      instant.  Instants and durations are integers without bound; the
      arithmetic of [datetime] raises [OverflowError] outside the years 1 to
      9999, so a property that depends on an expiry computed from minutes
      chosen by the caller assumes [representable] of it.
    - [uuid.uuid4()] is an input of [create_session]: the identifier drawn.
    - A Python [dict] is an association list in insertion order with unique
      keys.  A table is the list of its rows in insertion order.  A query
      without ORDER BY may hand its rows in any order; the functions list them
      in the order of the table, and [db_answers] adds every other order.
    - The functions of the persistent backend are given the database handle
      ([db] is not [None]), as every caller in the repository does.  The
      branch that opens a handle of its own runs the same statements, except
      in [get_session], whose call without a handle is
      [get_session_db_none].
    - Logging is not modelled. *)

From Stdlib Require Import ZArith List String Bool Lia Permutation.
Import ListNotations.
Open Scope string_scope.
Open Scope list_scope.
Open Scope Z_scope.

(** ** Python values shared by the layers *)

Definition time := Z.

(** [timedelta(minutes=m)], in seconds. *)
Definition timedelta_minutes (m : Z) : Z := 60 * m.

(** [datetime.max], 9999-12-31 23:59:59, in seconds from [datetime.min]:
    3652058 days and 86399 seconds. *)
Definition datetime_max : time := 3652058 * 86400 + 86399.

(** The instants a [datetime] can hold.  [datetime.now() + timedelta(...)]
    raises [OverflowError] when the sum is not one of them. *)
Definition representable (t : time) : bool :=
  (0 <=? t) && (t <=? datetime_max).

(** [not session_id] for an argument that is a [str] or [None]. *)
Definition falsy (s : option string) : bool :=
  match s with
  | None => true
  | Some s => String.eqb s ""
  end.

(** The string of a truthy argument. *)
Definition truthy (s : option string) : option string :=
  match s with
  | None => None
  | Some s => if String.eqb s "" then None else Some s
  end.

(** [a or b] on optional strings. *)
Definition py_or (a b : option string) : option string :=
  if falsy a then b else a.

Inductive exn :=
| HTTPException (status_code : Z) (detail : string)
| TypeError
| IntegrityError
| UnknownHashError.

Inductive outcome (A : Type) :=
| Return (a : A)
| Raise (e : exn).
Arguments Return {A} a.
Arguments Raise {A} e.

(** The summary dictionaries built by [get_user_sessions] in both backends
    (keys [session_id], [created_at], [expires_at], [last_accessed]). *)
Record SessionSummary := {
  sum_session_id : string;
  sum_created_at : time;
  sum_expires_at : time;
  sum_last_accessed : time
}.

(** ** app/session_store.py *)

Module SessionStore.

(** The value stored under a session id. *)
Record session := {
  user_email : string;
  created_at : time;
  expires_at : time;
  last_accessed : time
}.

Definition dict := list (string * session).

Fixpoint dict_get (k : string) (d : dict) : option session :=
  match d with
  | [] => None
  | (k', v) :: d' => if String.eqb k' k then Some v else dict_get k d'
  end.

(** [k in d] *)
Definition dict_in (k : string) (d : dict) : bool :=
  match dict_get k d with Some _ => true | None => false end.

(** [d[k] = v]: an existing key keeps its position, a new one goes last. *)
Fixpoint dict_set (k : string) (v : session) (d : dict) : dict :=
  match d with
  | [] => [(k, v)]
  | (k', v') :: d' =>
      if String.eqb k' k then (k, v) :: d' else (k', v') :: dict_set k v d'
  end.

(** [del d[k]] *)
Fixpoint dict_del (k : string) (d : dict) : dict :=
  match d with
  | [] => []
  | (k', v') :: d' =>
      if String.eqb k' k then d' else (k', v') :: dict_del k d'
  end.

Definition keys (d : dict) : list string := map fst d.

Record t := {
  _sessions : dict;
  _cleanup_interval : Z;
  _last_cleanup : time
}.

(** [__init__], run at instant [now]. *)
Definition init (now : time) : t :=
  {| _sessions := []; _cleanup_interval := 300; _last_cleanup := now |}.

Definition with_sessions (st : t) (d : dict) : t :=
  {| _sessions := d;
     _cleanup_interval := _cleanup_interval st;
     _last_cleanup := _last_cleanup st |}.

Definition _cleanup_expired_sessions (now : time) (st : t) : t :=
  if now - _last_cleanup st <? _cleanup_interval st then st
  else
    let expired_sessions :=
      map fst (filter (fun kv => now >? expires_at (snd kv)) (_sessions st)) in
    {| _sessions :=
         fold_left (fun d sid => dict_del sid d) expired_sessions (_sessions st);
       _cleanup_interval := _cleanup_interval st;
       _last_cleanup := now |}.

(** [session_id] is the identifier drawn by [uuid.uuid4()]; a caller that
    leaves [expires_in_minutes] out passes its default, 30. *)
Definition create_session (now : time) (session_id : string)
    (user_email : string) (expires_in_minutes : Z) (st : t) : t * string :=
  let expires_at := now + timedelta_minutes expires_in_minutes in
  let st1 :=
    with_sessions st
      (dict_set session_id
         {| user_email := user_email;
            created_at := now;
            expires_at := expires_at;
            last_accessed := now |}
         (_sessions st)) in
  (_cleanup_expired_sessions now st1, session_id).

Definition delete_session (session_id : option string) (st : t) : t * bool :=
  match session_id with
  | None => (st, false)
  | Some sid =>
      if dict_in sid (_sessions st)
      then (with_sessions st (dict_del sid (_sessions st)), true)
      else (st, false)
  end.

Definition get_session (now : time) (session_id : option string) (st : t)
  : t * option session :=
  match truthy session_id with
  | None => (st, None)
  | Some sid =>
      match dict_get sid (_sessions st) with
      | None => (st, None)
      | Some session =>
          if now >? expires_at session
          then (fst (delete_session (Some sid) st), None)
          else
            let session' :=
              {| user_email := user_email session;
                 created_at := created_at session;
                 expires_at := expires_at session;
                 last_accessed := now |} in
            (with_sessions st (dict_set sid session' (_sessions st)),
             Some session')
      end
  end.

Definition delete_user_sessions (email : string) (st : t) : t * Z :=
  let sessions_to_delete :=
    map fst
      (filter (fun kv => String.eqb (user_email (snd kv)) email)
         (_sessions st)) in
  (with_sessions st
     (fold_left (fun d sid => dict_del sid d) sessions_to_delete (_sessions st)),
   Z.of_nat (List.length sessions_to_delete)).

Definition extend_session (now : time) (session_id : option string)
    (additional_minutes : Z) (st : t) : t * bool :=
  match session_id with
  | None => (st, false)
  | Some sid =>
      match dict_get sid (_sessions st) with
      | None => (st, false)
      | Some session =>
          (with_sessions st
             (dict_set sid
                {| user_email := user_email session;
                   created_at := created_at session;
                   expires_at := now + timedelta_minutes additional_minutes;
                   last_accessed := now |}
                (_sessions st)),
           true)
      end
  end.

Definition get_session_count (now : time) (st : t) : t * Z :=
  let st' := _cleanup_expired_sessions now st in
  (st', Z.of_nat (List.length (_sessions st'))).

Definition get_user_sessions (now : time) (email : string) (st : t)
  : list SessionSummary :=
  map (fun kv =>
         {| sum_session_id := fst kv;
            sum_created_at := created_at (snd kv);
            sum_expires_at := expires_at (snd kv);
            sum_last_accessed := last_accessed (snd kv) |})
      (filter (fun kv => String.eqb (user_email (snd kv)) email
                         && (now <=? expires_at (snd kv)))
         (_sessions st)).

End SessionStore.

(** ** app/models.py *)

Module Session.

(** A row of the table [sessions].  The surrogate key [id] is read by no
    function of the session layer and is left out; the position of a row in
    the table plays its part.  [created_at] and [last_accessed] are filled by
    the database at insertion ([server_default=func.now()]), with the instant
    of the call. *)
Record t := {
  session_id : string;
  user_email : string;
  created_at : time;
  expires_at : time;
  last_accessed : time;
  is_active : bool
}.

Definition is_expired (now : time) (self : t) : bool :=
  now >? expires_at self.

Definition extend_session (now : time) (minutes : Z) (self : t) : t :=
  {| session_id := session_id self;
     user_email := user_email self;
     created_at := created_at self;
     expires_at := now + timedelta_minutes minutes;
     last_accessed := now;
     is_active := is_active self |}.

(** [self.is_active = False] *)
Definition deactivate (self : t) : t :=
  {| session_id := session_id self;
     user_email := user_email self;
     created_at := created_at self;
     expires_at := expires_at self;
     last_accessed := last_accessed self;
     is_active := false |}.

(** [self.last_accessed = now] *)
Definition touch (now : time) (self : t) : t :=
  {| session_id := session_id self;
     user_email := user_email self;
     created_at := created_at self;
     expires_at := expires_at self;
     last_accessed := now;
     is_active := is_active self |}.

End Session.

(** ** app/db_session_store.py *)

Module DatabaseSessionStore.

Definition table := list Session.t.

(** [db.query(Session).filter(p).first()] *)
Definition query_first (p : Session.t -> bool) (db : table) : option Session.t :=
  find p db.

(** [db.query(Session).filter(p).all()].  The query has no ORDER BY, so the
    database may hand the rows in any order; this is the order of the
    table.  What the callers compute from the rows ([len], an assignment to
    each, a list of summaries) depends on the order only in the order of the
    list returned by [get_user_sessions]. *)
Definition query_all (p : Session.t -> bool) (db : table) : list Session.t :=
  filter p db.

(** Assigning to the object returned by [.first()] and committing: the first
    row that satisfies [p] is rewritten in place. *)
Fixpoint update_first (p : Session.t -> bool) (f : Session.t -> Session.t)
    (db : table) : table :=
  match db with
  | [] => []
  | r :: db' => if p r then f r :: db' else r :: update_first p f db'
  end.

(** Assigning to each object returned by [.all()] and committing. *)
Definition update_all (p : Session.t -> bool) (f : Session.t -> Session.t)
    (db : table) : table :=
  map (fun r => if p r then f r else r) db.

Definition _default_expires_minutes : Z := 30.

Definition by_id (sid : string) (r : Session.t) : bool :=
  String.eqb (Session.session_id r) sid.

Definition active_by_id (sid : string) (r : Session.t) : bool :=
  String.eqb (Session.session_id r) sid && Session.is_active r.

Definition active_by_email (email : string) (r : Session.t) : bool :=
  String.eqb (Session.user_email r) email && Session.is_active r.

Definition expired_active (now : time) (r : Session.t) : bool :=
  (Session.expires_at r <? now) && Session.is_active r.

Definition _cleanup_expired_sessions (now : time) (db : table) : table :=
  let expired_sessions := query_all (expired_active now) db in
  if (0 <? Z.of_nat (List.length expired_sessions))
  then update_all (expired_active now) Session.deactivate db
  else db.

(** [session_id] is the identifier drawn by [uuid.uuid4()]; the column is
    declared [unique], so committing a second row with the same identifier
    fails and stores nothing. *)
Definition create_session (now : time) (session_id : string)
    (user_email : string) (expires_in_minutes : option Z) (db : table)
  : table * outcome string :=
  let expires_in_minutes :=
    match expires_in_minutes with
    | None => _default_expires_minutes
    | Some m => m
    end in
  let expires_at := now + timedelta_minutes expires_in_minutes in
  let db_session :=
    {| Session.session_id := session_id;
       Session.user_email := user_email;
       Session.created_at := now;
       Session.expires_at := expires_at;
       Session.last_accessed := now;
       Session.is_active := true |} in
  if existsb (by_id session_id) db then (db, Raise IntegrityError)
  else (_cleanup_expired_sessions now (db ++ [db_session]), Return session_id).

Definition delete_session (session_id : option string) (db : table)
  : table * bool :=
  match truthy session_id with
  | None => (db, false)
  | Some sid =>
      match query_first (by_id sid) db with
      | Some _ => (update_first (by_id sid) Session.deactivate db, true)
      | None => (db, false)
      end
  end.

(** The dictionary returned by [get_session]. *)
Record session_data := {
  user_email : string;
  created_at : time;
  expires_at : time;
  last_accessed : time;
  session_id : string
}.

(** [get_session(session_id, db=db)], the call with a handle, as
    [SecurityManager] and the guards make it. *)
Definition get_session (now : time) (session_id : option string) (db : table)
  : table * option session_data :=
  match truthy session_id with
  | None => (db, None)
  | Some sid =>
      match query_first (active_by_id sid) db with
      | None => (db, None)
      | Some db_session =>
          if Session.is_expired now db_session
          then (fst (delete_session (Some sid) db), None)
          else
            (update_first (active_by_id sid) (Session.touch now) db,
             Some {| user_email := Session.user_email db_session;
                     created_at := Session.created_at db_session;
                     expires_at := Session.expires_at db_session;
                     last_accessed := now;
                     session_id := Session.session_id db_session |})
      end
  end.

(** [get_session(session_id)], with [db] left at [None].  The function binds
    [db] to a handle of its own for the query and closes it, which detaches
    the row read.  The later test [if db is None] therefore fails: the
    assignment to [last_accessed] reaches the detached object only, and
    [db.commit()] has nothing to write.  The dictionary returned carries the
    new [last_accessed]; the table keeps the old one.  An expired row is
    made inactive as in the call with a handle. *)
Definition get_session_db_none (now : time) (session_id : option string)
    (db : table) : table * option session_data :=
  match truthy session_id with
  | None => (db, None)
  | Some sid =>
      match query_first (active_by_id sid) db with
      | None => (db, None)
      | Some db_session =>
          if Session.is_expired now db_session
          then (fst (delete_session (Some sid) db), None)
          else
            (db,
             Some {| user_email := Session.user_email db_session;
                     created_at := Session.created_at db_session;
                     expires_at := Session.expires_at db_session;
                     last_accessed := now;
                     session_id := Session.session_id db_session |})
      end
  end.

Definition extend_session (now : time) (session_id : option string)
    (minutes : Z) (db : table) : table * bool :=
  match truthy session_id with
  | None => (db, false)
  | Some sid =>
      match query_first (active_by_id sid) db with
      | Some db_session =>
          if negb (Session.is_expired now db_session)
          then (update_first (active_by_id sid)
                  (Session.extend_session now minutes) db, true)
          else (db, false)
      | None => (db, false)
      end
  end.

(** [get_user_sessions], with the rows in the order of the table (see
    [query_all]). *)
Definition get_user_sessions (now : time) (email : string) (db : table)
  : list SessionSummary :=
  map (fun s =>
         {| sum_session_id := Session.session_id s;
            sum_created_at := Session.created_at s;
            sum_expires_at := Session.expires_at s;
            sum_last_accessed := Session.last_accessed s |})
      (filter (fun s => negb (Session.is_expired now s))
         (query_all (active_by_email email) db)).

Definition delete_all_user_sessions (email : string) (db : table)
  : table * Z :=
  let sessions := query_all (active_by_email email) db in
  let count := Z.of_nat (List.length sessions) in
  (update_all (active_by_email email) Session.deactivate db, count).

End DatabaseSessionStore.

(** ** app/security.py *)

Module SecurityManager.

Definition ACCESS_TOKEN_EXPIRE_MINUTES : Z := 30.

(** [verify_password]: [return pwd_context.verify(plain_password,
    hashed_password)], with no handler around the call.  [pwd_context] is the
    [CryptContext] of passlib; its method [verify] is a parameter. *)
Definition verify_password
    (pwd_context_verify : string -> string -> outcome bool)
    (plain_password hashed_password : string) : outcome bool :=
  pwd_context_verify plain_password hashed_password.

Definition create_session (now : time) (session_id : string)
    (user_email : string) (db : DatabaseSessionStore.table) :=
  DatabaseSessionStore.create_session now session_id user_email
    (Some ACCESS_TOKEN_EXPIRE_MINUTES) db.

Definition get_session_data := DatabaseSessionStore.get_session.

Definition delete_session := DatabaseSessionStore.delete_session.

Definition get_user_sessions := DatabaseSessionStore.get_user_sessions.

Definition delete_all_user_sessions :=
  DatabaseSessionStore.delete_all_user_sessions.

(** The class body holds two [def extend_session] statements: the one of
    line 57, [extend_session(session_id, minutes=30, db=None)], and the one of
    line 74, [extend_session(session_id)]. *)
Inductive extend_session_def := Def57 | Def74.

Definition parameters (d : extend_session_def) : list string :=
  match d with
  | Def57 => ["session_id"; "minutes"; "db"]
  | Def74 => ["session_id"]
  end.

(** The bodies.  [minutes] is the argument bound to the parameter of that
    name, if the definition has one and the call supplies it. *)
Definition body (d : extend_session_def) (now : time)
    (session_id : option string) (minutes : option Z)
    (db : DatabaseSessionStore.table) : DatabaseSessionStore.table * bool :=
  match d with
  | Def57 =>
      DatabaseSessionStore.extend_session now session_id
        (match minutes with Some m => m | None => 30 end) db
  | Def74 =>
      DatabaseSessionStore.extend_session now session_id 30 db
  end.

(** A class body runs top to bottom and each [def] binds its name anew, so
    the attribute is the last definition. *)
Definition extend_session_defs : list extend_session_def := [Def57; Def74].

Definition extend_session_attr : extend_session_def :=
  last extend_session_defs Def57.

(** Binding the arguments of a call whose first argument is positional:
    the positional arguments must fit the parameter list and every keyword
    must name one of the remaining parameters. *)
Definition accepts (d : extend_session_def) (n_positional : nat)
    (keywords : list string) : bool :=
  (n_positional <=? List.length (parameters d))%nat
  && forallb
       (fun k => existsb (String.eqb k) (skipn n_positional (parameters d)))
       keywords.

(** [security_manager.extend_session(session_id)] *)
Definition extend_session (now : time) (session_id : option string)
    (db : DatabaseSessionStore.table)
  : DatabaseSessionStore.table * outcome bool :=
  if accepts extend_session_attr 1 []
  then let r := body extend_session_attr now session_id None db in
       (fst r, Return (snd r))
  else (db, Raise TypeError).

(** [security_manager.extend_session(session_id, minutes, db=db)] *)
Definition extend_session_minutes_db (now : time) (session_id : option string)
    (minutes : Z) (db : DatabaseSessionStore.table)
  : DatabaseSessionStore.table * outcome bool :=
  if accepts extend_session_attr 2 ["db"]
  then let r := body extend_session_attr now session_id (Some minutes) db in
       (fst r, Return (snd r))
  else (db, Raise TypeError).

End SecurityManager.

(** The dictionary handed to the handlers by the guards. *)
Module CurrentUser.
Record t := {
  email : string;
  session_id : string;
  session_data : DatabaseSessionStore.session_data
}.
End CurrentUser.

Definition current_user := CurrentUser.t.

Definition no_session : exn :=
  HTTPException 401 "No session found. Please login.".

Definition invalid_or_expired : exn :=
  HTTPException 401 "Invalid or expired session. Please login again.".

(** The lookup shared by the two guards, once the identifier is known to be
    truthy. *)
Definition resolve_session (now : time) (sid : string)
    (db : DatabaseSessionStore.table)
  : DatabaseSessionStore.table * outcome current_user :=
  match DatabaseSessionStore.get_session now (Some sid) db with
  | (db', None) => (db', Raise invalid_or_expired)
  | (db', Some data) =>
      (db', Return {| CurrentUser.email := DatabaseSessionStore.user_email data;
                      CurrentUser.session_id := sid;
                      CurrentUser.session_data := data |})
  end.

Definition get_current_user_session (now : time)
    (session_cookie session_header : option string)
    (db : DatabaseSessionStore.table)
  : DatabaseSessionStore.table * outcome current_user :=
  match truthy (py_or session_cookie session_header) with
  | None => (db, Raise no_session)
  | Some sid => resolve_session now sid db
  end.

(** ** app/routers/secure_auth.py *)

Definition get_current_user_for_session_ops (now : time)
    (user_session_cookie : option string) (db : DatabaseSessionStore.table)
  : DatabaseSessionStore.table * outcome current_user :=
  match truthy user_session_cookie with
  | None => (db, Raise no_session)
  | Some sid => resolve_session now sid db
  end.

(** The clauses [except HTTPException: raise] and [except Exception: ...] that
    close a handler. *)
Definition handler_except {A : Type} (r : outcome A) : outcome A :=
  match r with
  | Return a => Return a
  | Raise (HTTPException c d) => Raise (HTTPException c d)
  | Raise _ => Raise (HTTPException 500 "Internal server error")
  end.

Definition session_not_found : exn :=
  HTTPException 404 "Session not found or doesn't belong to you".

Definition cannot_terminate_current : exn :=
  HTTPException 400 "Cannot terminate current session. Use logout instead.".

Definition terminate_session (now : time) (session_id : string)
    (current_user_data : current_user) (db : DatabaseSessionStore.table)
  : DatabaseSessionStore.table * outcome string :=
  let user_sessions :=
    DatabaseSessionStore.get_user_sessions now
      (CurrentUser.email current_user_data) db in
  let target_session :=
    find (fun s => String.eqb (sum_session_id s) session_id) user_sessions in
  let r :=
    match target_session with
    | None => (db, Raise session_not_found)
    | Some _ =>
        if String.eqb session_id (CurrentUser.session_id current_user_data)
        then (db, Raise cannot_terminate_current)
        else
          let (db', success) :=
            SecurityManager.delete_session (Some session_id) db in
          if success
          then (db', Return "Session terminated successfully")
          else (db', Raise (HTTPException 500 "Failed to terminate session"))
    end in
  (fst r, handler_except (snd r)).

(** The values a JSON body can hold under a key, as far as
    [isinstance(minutes, int)] tells them apart: [bool] is a subclass of
    [int]. *)
Inductive json :=
| JInt (z : Z)
| JBool (b : bool)
| JOther.

Definition as_int (v : json) : option Z :=
  match v with
  | JInt z => Some z
  | JBool b => Some (if b then 1 else 0)
  | JOther => None
  end.

(** [extend_data.get("minutes", 30)] *)
Definition get_minutes (extend_data : list (string * json)) : json :=
  match find (fun kv => String.eqb (fst kv) "minutes") extend_data with
  | Some kv => snd kv
  | None => JInt 30
  end.

Definition minutes_out_of_range : exn :=
  HTTPException 400 "Minutes must be between 5 and 480".

Definition extend_failed : exn :=
  HTTPException 400
    "Failed to extend session. Session may be expired or invalid.".

(** The handler of line 314.  Its result is the [extended_minutes] of the
    response. *)
Definition extend_current_session (now : time)
    (extend_data : list (string * json)) (current_user_data : current_user)
    (db : DatabaseSessionStore.table)
  : DatabaseSessionStore.table * outcome Z :=
  let session_id := CurrentUser.session_id current_user_data in
  let r :=
    match as_int (get_minutes extend_data) with
    | None => (db, Raise minutes_out_of_range)
    | Some minutes =>
        if (minutes <? 5) || (minutes >? 480)
        then (db, Raise minutes_out_of_range)
        else
          match SecurityManager.extend_session_minutes_db now
                  (Some session_id) minutes db with
          | (db', Return true) => (db', Return minutes)
          | (db', Return false) => (db', Raise extend_failed)
          | (db', Raise e) => (db', Raise e)
          end
    end in
  (fst r, handler_except (snd r)).

(** The handler of line 169, registered first on the same route.  Its result
    is the [new_expires_in] of the response. *)
Definition extend_session (now : time) (current_user_data : current_user)
    (db : DatabaseSessionStore.table)
  : DatabaseSessionStore.table * outcome Z :=
  let session_id := CurrentUser.session_id current_user_data in
  let r :=
    match SecurityManager.extend_session now (Some session_id) db with
    | (db', Return true) => (db', Return 1800)
    | (db', Return false) =>
        (db', Raise (HTTPException 400 "Could not extend session"))
    | (db', Raise e) => (db', Raise e)
    end in
  (fst r, handler_except (snd r)).

(** ** Liveness *)

(** A stored record is live for the code when it is still held (volatile
    backend) or flagged active (persistent backend) and the expiry test of
    the code, [now > expires_at], fails. *)
Definition mem_live (now : time) (sid : string) (d : SessionStore.dict) : bool :=
  match SessionStore.dict_get sid d with
  | Some v => now <=? SessionStore.expires_at v
  | None => false
  end.

Definition live_row (now : time) (r : Session.t) : bool :=
  Session.is_active r && (now <=? Session.expires_at r).

Definition db_live (now : time) (sid : string)
    (db : DatabaseSessionStore.table) : bool :=
  existsb (fun r => DatabaseSessionStore.by_id sid r && live_row now r) db.

(** Liveness as the data model words it: active, and [now] strictly before
    [expires_at]. *)
Definition live_row_strict (now : time) (r : Session.t) : bool :=
  Session.is_active r && (now <? Session.expires_at r).

Definition db_live_strict (now : time) (sid : string)
    (db : DatabaseSessionStore.table) : bool :=
  existsb (fun r => DatabaseSessionStore.by_id sid r && live_row_strict now r) db.

Definition mem_live_strict (now : time) (sid : string)
    (d : SessionStore.dict) : bool :=
  match SessionStore.dict_get sid d with
  | Some v => now <? SessionStore.expires_at v
  | None => false
  end.

(** The identifiers of a table; the column is [unique]. *)
Definition sids (db : DatabaseSessionStore.table) : list string :=
  map Session.session_id db.

Definition db_wf (db : DatabaseSessionStore.table) : Prop := NoDup (sids db).

(** The keys of the volatile store are identifiers drawn by [uuid4]: unique
    (it is a dictionary) and never the empty string. *)
Definition mem_wf (d : SessionStore.dict) : Prop :=
  NoDup (SessionStore.keys d) /\ ~ In "" (SessionStore.keys d).

(** ** The two backends behind one interface *)

(** [Get] is the lookup as the application makes it, which hands the
    persistent backend its database handle; [GetNoHandle] is the lookup
    [get_session(session_id)], which the volatile backend cannot tell from
    the other and the persistent backend answers by [get_session_db_none]. *)
Inductive op :=
| Create (session_id : string) (user_email : string) (ttl_minutes : Z)
| Get (session_id : option string)
| Extend (session_id : option string) (minutes : Z)
| Revoke (session_id : option string)
| ListByPrincipal (user_email : string)
| RevokeAllByPrincipal (user_email : string)
| GetNoHandle (session_id : option string).

(** What a call hands back.  A lookup is observed through the four fields
    both backends return; the persistent backend adds the key [session_id]
    to its dictionary. *)
Inductive result :=
| Created (r : outcome string)
| Got (r : option SessionStore.session)
| Flag (b : bool)
| Listed (l : list SessionSummary)
| Count (n : Z).

Definition forget_session_id (d : DatabaseSessionStore.session_data)
  : SessionStore.session :=
  {| SessionStore.user_email := DatabaseSessionStore.user_email d;
     SessionStore.created_at := DatabaseSessionStore.created_at d;
     SessionStore.expires_at := DatabaseSessionStore.expires_at d;
     SessionStore.last_accessed := DatabaseSessionStore.last_accessed d |}.

Definition mem_step (now : time) (o : op) (st : SessionStore.t)
  : SessionStore.t * result :=
  match o with
  | Create sid email ttl =>
      let (st', r) := SessionStore.create_session now sid email ttl st in
      (st', Created (Return r))
  | Get sid =>
      let (st', r) := SessionStore.get_session now sid st in (st', Got r)
  | Extend sid m =>
      let (st', r) := SessionStore.extend_session now sid m st in (st', Flag r)
  | Revoke sid =>
      let (st', r) := SessionStore.delete_session sid st in (st', Flag r)
  | ListByPrincipal email =>
      (st, Listed (SessionStore.get_user_sessions now email st))
  | RevokeAllByPrincipal email =>
      let (st', n) := SessionStore.delete_user_sessions email st in
      (st', Count n)
  | GetNoHandle sid =>
      let (st', r) := SessionStore.get_session now sid st in (st', Got r)
  end.

Definition db_step (now : time) (o : op) (db : DatabaseSessionStore.table)
  : DatabaseSessionStore.table * result :=
  match o with
  | Create sid email ttl =>
      let (db', r) :=
        DatabaseSessionStore.create_session now sid email (Some ttl) db in
      (db', Created r)
  | Get sid =>
      let (db', r) := DatabaseSessionStore.get_session now sid db in
      (db', Got (option_map forget_session_id r))
  | Extend sid m =>
      let (db', r) := DatabaseSessionStore.extend_session now sid m db in
      (db', Flag r)
  | Revoke sid =>
      let (db', r) := DatabaseSessionStore.delete_session sid db in
      (db', Flag r)
  | ListByPrincipal email =>
      (db, Listed (DatabaseSessionStore.get_user_sessions now email db))
  | RevokeAllByPrincipal email =>
      let (db', n) := DatabaseSessionStore.delete_all_user_sessions email db in
      (db', Count n)
  | GetNoHandle sid =>
      let (db', r) := DatabaseSessionStore.get_session_db_none now sid db in
      (db', Got (option_map forget_session_id r))
  end.

(** A trace is a list of calls, each with the instant its clock readings
    return. *)
Definition trace := list (time * op).



(** The table a trace leaves behind. *)
Fixpoint db_exec (tr : trace) (db : DatabaseSessionStore.table)
  : DatabaseSessionStore.table :=
  match tr with
  | [] => db
  | (now, o) :: tr' => db_exec tr' (fst (db_step now o db))
  end.

(** The instants of a trace never decrease, starting from [last]. *)
Fixpoint clock_monotone (last : time) (tr : trace) : bool :=
  match tr with
  | [] => true
  | (now, _) :: tr' => (last <=? now) && clock_monotone now tr'
  end.

(** The last instant of a trace that starts at [last]. *)
Fixpoint final_instant (last : time) (tr : trace) : time :=
  match tr with
  | [] => last
  | (now, _) :: tr' => final_instant now tr'
  end.

(** The identifier has a row in the table, active or not: rows are never
    deleted, so it was issued at some point. *)
Definition issued (sid : string) (db : DatabaseSessionStore.table) : bool :=
  existsb (DatabaseSessionStore.by_id sid) db.








(** ** The relation kept between the two stores *)

(** The row that holds the volatile record [v] under the identifier [k]. *)
Definition row_of (k : string) (v : SessionStore.session) : Session.t :=
  {| Session.session_id := k;
     Session.user_email := SessionStore.user_email v;
     Session.created_at := SessionStore.created_at v;
     Session.expires_at := SessionStore.expires_at v;
     Session.last_accessed := SessionStore.last_accessed v;
     Session.is_active := true |}.




(** ** What a lookup leaves behind and hands back *)

(** The volatile record after [session["last_accessed"] = datetime.now()]. *)
Definition mem_touch (now : time) (v : SessionStore.session)
  : SessionStore.session :=
  {| SessionStore.user_email := SessionStore.user_email v;
     SessionStore.created_at := SessionStore.created_at v;
     SessionStore.expires_at := SessionStore.expires_at v;
     SessionStore.last_accessed := now |}.

(** The dictionary built from a row whose [last_accessed] was just set. *)
Definition session_data_of (now : time) (r : Session.t)
  : DatabaseSessionStore.session_data :=
  {| DatabaseSessionStore.user_email := Session.user_email r;
     DatabaseSessionStore.created_at := Session.created_at r;
     DatabaseSessionStore.expires_at := Session.expires_at r;
     DatabaseSessionStore.last_accessed := now;
     DatabaseSessionStore.session_id := Session.session_id r |}.

(** ** Ownership *)

(** The table holds a live record with this identifier for this principal. *)
Definition owned_live (now : time) (email sid : string)
    (db : DatabaseSessionStore.table) : bool :=
  existsb
    (fun r => DatabaseSessionStore.by_id sid r
              && DatabaseSessionStore.active_by_email email r
              && (now <=? Session.expires_at r))
    db.

(** ** app/models.py and app/crud.py: the accounts the login reads *)

Module User.
Record t := {
  id : Z;
  name : string;
  email : string;
  password_hash : string;
  age : option Z;
  bio : option string;
  created_at : time;
  updated_at : time
}.
End User.

Module UserCRUD.

Definition users := list User.t.

(** [db.query(models.User).filter(models.User.email == email).first()] *)
Definition get_user_by_email (db : users) (email : string) : option User.t :=
  find (fun u => String.eqb (User.email u) email) db.

End UserCRUD.

(** ** app/routers/secure_auth.py: the remaining handlers *)

(** What a handler does to the cookie of the response. *)
Inductive cookie :=
| SetCookie (key value : string) (max_age : Z) (httponly secure : bool)
    (samesite : string)
| DeleteCookie (key : string).

(** The clauses that close [secure_login]: an [HTTPException] passes, any
    other exception becomes the status 500 with the handler's own detail. *)
Definition handler_except_detail {A : Type} (detail : string) (r : outcome A)
  : outcome A :=
  match r with
  | Return a => Return a
  | Raise (HTTPException c d) => Raise (HTTPException c d)
  | Raise _ => Raise (HTTPException 500 detail)
  end.

Definition invalid_email_or_password : exn :=
  HTTPException 401 "Invalid email or password".

(** The body of the response of [secure_login]. *)
Record login_response := {
  login_message : string;
  login_user_email : string;
  login_user_name : string;
  session_expires_in : Z
}.

(** [secure_login].  [verify_password] stands for [pwd_context.verify] of the
    hashing library, which answers a boolean or raises; [uuid] is the
    identifier that [create_session] draws; [users] and [db] are the tables
    [users] and [sessions] of the one database. *)
Definition secure_login (verify_password : string -> string -> outcome bool)
    (now : time) (uuid : string) (email password : string)
    (users : UserCRUD.users) (db : DatabaseSessionStore.table)
  : DatabaseSessionStore.table * outcome (login_response * cookie) :=
  let r :=
    match UserCRUD.get_user_by_email users email with
    | None => (db, Raise invalid_email_or_password)
    | Some user =>
        match verify_password password (User.password_hash user) with
        | Raise e => (db, Raise e)
        | Return false => (db, Raise invalid_email_or_password)
        | Return true =>
            match SecurityManager.create_session now uuid (User.email user)
                    db with
            | (db', Raise e) => (db', Raise e)
            | (db', Return session_id) =>
                (db',
                 Return
                   ({| login_message := "Login successful";
                       login_user_email := User.email user;
                       login_user_name := User.name user;
                       session_expires_in := 1800 |},
                    SetCookie "session_id" session_id 1800 true false "lax"))
            end
        end
    end in
  (fst r, handler_except_detail "Internal server error during login" (snd r)).

(** [secure_logout]: the answer of [delete_session] is not read.  Nothing in
    the body raises, so the closing [except Exception] does not show. *)
Definition secure_logout (current_user_data : current_user)
    (db : DatabaseSessionStore.table)
  : DatabaseSessionStore.table * outcome (string * cookie) :=
  let session_id := CurrentUser.session_id current_user_data in
  let (db', _) := SecurityManager.delete_session (Some session_id) db in
  (db', Return ("Logout successful", DeleteCookie "session_id")).

Definition user_not_found : exn := HTTPException 404 "User not found".

(** [get_current_user_info_secure] *)
Definition get_current_user_info_secure (current_user_data : current_user)
    (users : UserCRUD.users) : outcome User.t :=
  handler_except
    (match UserCRUD.get_user_by_email users
             (CurrentUser.email current_user_data) with
     | None => Raise user_not_found
     | Some user => Return user
     end).

(** The handler [get_user_sessions] of line 201: [active_sessions] and
    [sessions]. *)
Definition get_user_sessions (now : time) (current_user_data : current_user)
    (db : DatabaseSessionStore.table) : outcome (Z * list SessionSummary) :=
  let sessions :=
    DatabaseSessionStore.get_user_sessions now
      (CurrentUser.email current_user_data) db in
  Return (Z.of_nat (List.length sessions), sessions).

(** [logout_all_devices]: the message, [terminated_sessions] and the cookie. *)
Definition logout_all_devices (current_user_data : current_user)
    (db : DatabaseSessionStore.table)
  : DatabaseSessionStore.table * outcome (string * Z * cookie) :=
  let user_email := CurrentUser.email current_user_data in
  let (db', terminated_count) :=
    SecurityManager.delete_all_user_sessions user_email db in
  (db',
   Return ("Successfully logged out from all devices", terminated_count,
           DeleteCookie "session_id")).

(** The volatile store a trace leaves behind. *)
Fixpoint mem_exec (tr : trace) (st : SessionStore.t) : SessionStore.t :=
  match tr with
  | [] => st
  | (now, o) :: tr' => mem_exec tr' (fst (mem_step now o st))
  end.

(** Every identifier drawn along the trace is non-empty. *)
Fixpoint draws_nonempty (tr : trace) : bool :=
  match tr with
  | [] => true
  | (_, Create sid _ _) :: tr' => negb (String.eqb sid "") && draws_nonempty tr'
  | _ :: tr' => draws_nonempty tr'
  end.

(** What the persistent backend keeps of a row from one call to the next:
    the identifier, the principal and the instant of creation are the ones
    it was stored with, and the flag [is_active], once false, stays false. *)
Definition row_kept (r r' : Session.t) : Prop :=
  Session.session_id r' = Session.session_id r
  /\ Session.user_email r' = Session.user_email r
  /\ Session.created_at r' = Session.created_at r
  /\ (Session.is_active r = false -> Session.is_active r' = false).

(** * Properties *)

(** Boolean comparisons of instants, as propositions for [lia]. *)
Ltac zbool :=
  repeat match goal with
    | H : (_ >? _) = true |- _ => rewrite Z.gtb_ltb in H; apply Z.ltb_lt in H
    | H : (_ >? _) = false |- _ => rewrite Z.gtb_ltb in H; apply Z.ltb_ge in H
    | H : (_ <? _) = true |- _ => apply Z.ltb_lt in H
    | H : (_ <? _) = false |- _ => apply Z.ltb_ge in H
    | H : (_ <=? _) = true |- _ => apply Z.leb_le in H
    | H : (_ <=? _) = false |- _ => apply Z.leb_gt in H
    | |- (_ >? _) = true => rewrite Z.gtb_ltb; apply Z.ltb_lt
    | |- (_ >? _) = false => rewrite Z.gtb_ltb; apply Z.ltb_ge
    | |- (_ <? _) = true => apply Z.ltb_lt
    | |- (_ <? _) = false => apply Z.ltb_ge
    | |- (_ <=? _) = true => apply Z.leb_le
    | |- (_ <=? _) = false => apply Z.leb_gt
    end.

(** ** Dictionaries and tables *)

Section DictFacts.
Import SessionStore.

Lemma dict_get_in_keys k d v :
  dict_get k d = Some v -> In k (keys d).
Proof.
  induction d as [|[k' v'] d IH]; simpl; [discriminate|].
  destruct (String.eqb_spec k' k); auto.
Qed.

Lemma dict_get_notin k d :
  ~ In k (keys d) -> dict_get k d = None.
Proof.
  induction d as [|[k' v'] d IH]; simpl; [reflexivity|].
  intros H. destruct (String.eqb_spec k' k); [tauto|apply IH; tauto].
Qed.

Lemma dict_in_true k d : dict_in k d = true <-> In k (keys d).
Proof.
  unfold dict_in. split.
  - destruct (dict_get k d) eqn:E; [|discriminate].
    intros _. eapply dict_get_in_keys; eauto.
  - intros H. destruct (dict_get k d) eqn:E; [reflexivity|].
    exfalso. revert H E.
    induction d as [|[k' v'] d IH]; simpl; [tauto|].
    destruct (String.eqb_spec k' k); [discriminate|].
    intros [->|H]; [congruence|auto].
Qed.

Lemma dict_del_notin k d : ~ In k (keys d) -> dict_del k d = d.
Proof.
  induction d as [|[k' v'] d IH]; simpl; [reflexivity|].
  intros H. destruct (String.eqb_spec k' k); [tauto|].
  rewrite IH; tauto.
Qed.

Lemma dict_set_notin k v d : ~ In k (keys d) -> dict_set k v d = d ++ [(k, v)].
Proof.
  induction d as [|[k' v'] d IH]; simpl; [reflexivity|].
  intros H. destruct (String.eqb_spec k' k); [tauto|].
  rewrite IH; tauto.
Qed.

Lemma keys_dict_set k v d :
  In k (keys d) -> keys (dict_set k v d) = keys d.
Proof.
  induction d as [|[k' v'] d IH]; simpl; [tauto|].
  destruct (String.eqb_spec k' k); simpl; [congruence|].
  intros [?|H]; [congruence|]. now rewrite IH.
Qed.

Lemma dict_del_app_mid k v pre d :
  ~ In k (keys pre) -> dict_del k (pre ++ (k, v) :: d) = pre ++ d.
Proof.
  induction pre as [|[k' v'] pre IH]; simpl.
  - now rewrite String.eqb_refl.
  - intros H. destruct (String.eqb_spec k' k); [tauto|].
    rewrite IH; tauto.
Qed.

(** Deleting, one by one, the keys selected by [p] leaves the entries that
    [p] rejects, in their order. *)
Lemma fold_del_filter_gen (p : string * session -> bool) d :
  forall pre,
    NoDup (keys (pre ++ d)) ->
    fold_left (fun acc sid => dict_del sid acc) (map fst (filter p d))
      (pre ++ d)
    = pre ++ filter (fun kv => negb (p kv)) d.
Proof.
  induction d as [|[k v] d IH]; intros pre ND; simpl; [reflexivity|].
  assert (Hk : ~ In k (keys pre)).
  { unfold keys in *. rewrite map_app in ND. simpl in ND.
    apply NoDup_remove_2 in ND. rewrite in_app_iff in ND. tauto. }
  destruct (p (k, v)); simpl.
  - rewrite dict_del_app_mid by assumption. apply IH.
    unfold keys in *. rewrite map_app in *. simpl in ND.
    now apply NoDup_remove_1 in ND.
  - specialize (IH (pre ++ [(k, v)])).
    rewrite <- !app_assoc in IH. simpl in IH. now apply IH.
Qed.

Lemma fold_del_filter (p : string * session -> bool) d :
  NoDup (keys d) ->
  fold_left (fun acc sid => dict_del sid acc) (map fst (filter p d)) d
  = filter (fun kv => negb (p kv)) d.
Proof. intros ND. exact (fold_del_filter_gen p d [] ND). Qed.

Lemma with_sessions_same st : with_sessions st (_sessions st) = st.
Proof. now destruct st. Qed.

End DictFacts.

Section TableFacts.
Import DatabaseSessionStore.

Lemma deactivate_inactive r :
  Session.is_active r = false -> Session.deactivate r = r.
Proof. destruct r; simpl; intros ->; reflexivity. Qed.

Lemma sids_update_first p f db :
  (forall r, Session.session_id (f r) = Session.session_id r) ->
  sids (update_first p f db) = sids db.
Proof.
  intros Hf. induction db as [|r db IH]; simpl; [reflexivity|].
  destruct (p r); simpl; [now rewrite Hf|now rewrite IH].
Qed.

Lemma sids_update_all p f db :
  (forall r, Session.session_id (f r) = Session.session_id r) ->
  sids (update_all p f db) = sids db.
Proof.
  intros Hf. unfold update_all, sids. rewrite map_map.
  apply map_ext. intros r. destruct (p r); [apply Hf|reflexivity].
Qed.

Lemma issued_In sid db : issued sid db = true <-> In sid (sids db).
Proof.
  unfold issued, sids, by_id. rewrite existsb_exists, in_map_iff.
  split; intros (r & H1 & H2).
  - exists r. apply String.eqb_eq in H2. tauto.
  - exists r. subst. now rewrite String.eqb_refl.
Qed.

Lemma update_first_none p f db :
  (forall r, In r db -> p r = false) -> update_first p f db = db.
Proof.
  induction db as [|r db IH]; simpl; intros H; [reflexivity|].
  rewrite (H r) by auto. now rewrite IH by auto.
Qed.

Lemma update_all_none p f db :
  (forall r, In r db -> p r = true -> f r = r) -> update_all p f db = db.
Proof.
  unfold update_all. induction db as [|r db IH]; simpl; intros H;
    [reflexivity|].
  rewrite IH by auto. destruct (p r) eqn:E; [now rewrite H by auto|reflexivity].
Qed.

Lemma by_id_notin sid db :
  ~ In sid (sids db) -> forall r, In r db -> by_id sid r = false.
Proof.
  intros H r Hr. unfold by_id. destruct (String.eqb_spec (Session.session_id r) sid);
    [|reflexivity].
  exfalso. apply H. subst. unfold sids. now apply in_map.
Qed.

(** Under the uniqueness of identifiers, rewriting the first row found for
    an identifier is rewriting every row of that identifier. *)
Lemma update_first_by_id sid f db :
  db_wf db ->
  (forall r, Session.session_id (f r) = Session.session_id r) ->
  update_first (by_id sid) f db = update_all (by_id sid) f db.
Proof.
  unfold db_wf. intros ND Hf.
  induction db as [|r db IH]; simpl; [reflexivity|].
  simpl in ND. inversion ND as [|? ? Hn ND']; subst.
  destruct (by_id sid r) eqn:E.
  - f_equal. symmetry. apply update_all_none.
    intros r' Hr' Hp. exfalso. apply Hn.
    unfold by_id in *. apply String.eqb_eq in E, Hp. rewrite E, <- Hp.
    unfold sids. now apply in_map.
  - f_equal. now apply IH.
Qed.

End TableFacts.

(** ** Extending a dead record *)

(** The volatile [extend_session] only asks whether the key is held. *)
Lemma mem_extend_held now sid minutes st v :
  SessionStore.dict_get sid (SessionStore._sessions st) = Some v ->
  snd (SessionStore.extend_session now (Some sid) minutes st) = true.
Proof. unfold SessionStore.extend_session. now intros ->. Qed.

Lemma find_active_dead now sid db r :
  db_live now sid db = false ->
  find (DatabaseSessionStore.active_by_id sid) db = Some r ->
  Session.is_expired now r = true.
Proof.
  intros Hd Hf. apply find_some in Hf. destruct Hf as [Hin Hp].
  unfold DatabaseSessionStore.active_by_id in Hp.
  apply andb_true_iff in Hp. destruct Hp as [Hid Hact].
  unfold Session.is_expired.
  destruct (now >? Session.expires_at r) eqn:E; [reflexivity|].
  exfalso. unfold db_live in Hd.
  assert (Ht : existsb
                 (fun r => DatabaseSessionStore.by_id sid r && live_row now r)
                 db = true).
  { apply existsb_exists. exists r. split; [assumption|].
    unfold DatabaseSessionStore.by_id, live_row. rewrite Hid, Hact. simpl.
    zbool. lia. }
  congruence.
Qed.

(** The persistent [extend_session] refuses a record that is not live and
    leaves the table as it was. *)
Lemma db_extend_dead now sid minutes db :
  db_live now sid db = false ->
  DatabaseSessionStore.extend_session now (Some sid) minutes db = (db, false).
Proof.
  intros Hd. unfold DatabaseSessionStore.extend_session.
  destruct (truthy (Some sid)) as [s|] eqn:Et; [|reflexivity].
  assert (s = sid) as ->.
  { simpl in Et. destruct (String.eqb sid ""); congruence. }
  unfold DatabaseSessionStore.query_first.
  destruct (find (DatabaseSessionStore.active_by_id sid) db) as [r|] eqn:Ef;
    [|reflexivity].
  now rewrite (find_active_dead now sid db r Hd Ef).
Qed.

(** C1, on the volatile backend.  A record created at instant 0 with a
    lifetime of 30 minutes has expired at second 1860.  [extend_session] on it
    nevertheless answers [True] and moves [expires_at] from 1800 to 3660,
    after which the record is live again and [get_session] returns it. *)
Theorem volatile_extend_revives_expired :
  let st0 :=
    fst (SessionStore.create_session 0 "s1" "alice@example.com" 30
           (SessionStore.init 0)) in
  let st1 := fst (SessionStore.extend_session 1860 (Some "s1") 30 st0) in
  mem_live 1860 "s1" (SessionStore._sessions st0) = false
  /\ option_map SessionStore.expires_at
       (SessionStore.dict_get "s1" (SessionStore._sessions st0)) = Some 1800
  /\ snd (SessionStore.extend_session 1860 (Some "s1") 30 st0) = true
  /\ option_map SessionStore.expires_at
       (SessionStore.dict_get "s1" (SessionStore._sessions st1)) = Some 3660
  /\ mem_live 1860 "s1" (SessionStore._sessions st1) = true
  /\ option_map SessionStore.user_email
       (snd (SessionStore.get_session 1860 (Some "s1") st1))
     = Some "alice@example.com".
Proof. vm_compute. repeat split; reflexivity. Qed.

(** ** Revoking twice *)

(** The persistent [delete_session] answers [True] for every identifier that
    has a row, whatever its flag. *)
Lemma db_delete_issued sid db :
  sid <> "" -> issued sid db = true ->
  snd (DatabaseSessionStore.delete_session (Some sid) db) = true.
Proof.
  intros Hne Hi. unfold DatabaseSessionStore.delete_session. simpl.
  destruct (String.eqb_spec sid ""); [contradiction|].
  unfold DatabaseSessionStore.query_first.
  destruct (find (DatabaseSessionStore.by_id sid) db) eqn:E; [reflexivity|].
  exfalso. unfold issued in Hi. apply existsb_exists in Hi.
  destruct Hi as (r & Hin & Hp).
  pose proof (find_none _ _ E r Hin). congruence.
Qed.

Lemma db_delete_keeps_issued sid sid' db :
  issued sid (fst (DatabaseSessionStore.delete_session sid' db)) = issued sid db.
Proof.
  unfold DatabaseSessionStore.delete_session.
  destruct (truthy sid') as [s|]; [|reflexivity].
  destruct (DatabaseSessionStore.query_first _ db); [|reflexivity].
  simpl. apply eq_true_iff_eq. rewrite !issued_In.
  now rewrite sids_update_first by (now intros []).
Qed.

(** The volatile [delete_session] answers [False] the second time. *)
Lemma mem_delete_twice sid st :
  NoDup (SessionStore.keys (SessionStore._sessions st)) ->
  snd (SessionStore.delete_session sid
         (fst (SessionStore.delete_session sid st))) = false.
Proof.
  intros ND. destruct sid as [sid|]; [|reflexivity].
  unfold SessionStore.delete_session at 2.
  destruct (SessionStore.dict_in sid (SessionStore._sessions st)) eqn:E; simpl.
  - destruct (SessionStore.dict_in sid
                (SessionStore.dict_del sid (SessionStore._sessions st))) eqn:E';
      [|reflexivity].
    exfalso. apply dict_in_true in E'. revert ND E'.
    generalize (SessionStore._sessions st). clear.
    induction d as [|[k v] d IH]; simpl; [tauto|].
    intros ND. inversion ND as [|? ? Hn ND']; subst.
    destruct (String.eqb_spec k sid); [subst; exact Hn|].
    simpl. intros [?|H]; [congruence|auto].
  - now rewrite E.
Qed.

(** C4, on the persistent backend.  After one record is created, the first
    [delete_session] answers [True] and so does the second, on a row that is
    already inactive; the volatile backend answers [True] then [False]. *)
Theorem persistent_revoke_twice_true :
  let db0 :=
    fst (DatabaseSessionStore.create_session 0 "s1" "alice@example.com"
           (Some 30) []) in
  let db1 := fst (DatabaseSessionStore.delete_session (Some "s1") db0) in
  let st0 :=
    fst (SessionStore.create_session 0 "s1" "alice@example.com" 30
           (SessionStore.init 0)) in
  let st1 := fst (SessionStore.delete_session (Some "s1") st0) in
  snd (DatabaseSessionStore.delete_session (Some "s1") db0) = true
  /\ map Session.is_active db1 = [false]
  /\ snd (DatabaseSessionStore.delete_session (Some "s1") db1) = true
  /\ snd (SessionStore.delete_session (Some "s1") st0) = true
  /\ snd (SessionStore.delete_session (Some "s1") st1) = false.
Proof. vm_compute. repeat split; reflexivity. Qed.

(** ** Extending through the session-management handler *)

Lemma extend_session_attr_is_Def74 :
  SecurityManager.extend_session_attr = SecurityManager.Def74.
Proof. reflexivity. Qed.

(** The call [extend_session(session_id, minutes, db=db)] cannot bind its
    arguments to the one-parameter definition that the class ends up with. *)
Lemma extend_session_minutes_db_raises now sid minutes db :
  SecurityManager.extend_session_minutes_db now sid minutes db
  = (db, Raise TypeError).
Proof. reflexivity. Qed.

(** A value outside 5..480, or one that is not an integer, is refused before
    any call to the store: the table comes back as it was. *)
Lemma extend_current_session_rejects now extend_data cu db :
  match as_int (get_minutes extend_data) with
  | Some m => m < 5 \/ 480 < m
  | None => True
  end ->
  extend_current_session now extend_data cu db
  = (db, Raise minutes_out_of_range).
Proof.
  unfold extend_current_session.
  destruct (as_int (get_minutes extend_data)) as [m|]; [|reflexivity].
  intros H.
  destruct ((m <? 5) || (m >? 480)) eqn:E; [reflexivity|].
  apply orb_false_iff in E. destruct E. zbool. lia.
Qed.

(** A value inside 5..480 reaches the call that cannot bind, and the handler
    turns the error into the status 500. *)
Lemma extend_current_session_in_range now extend_data cu db m :
  as_int (get_minutes extend_data) = Some m -> 5 <= m <= 480 ->
  extend_current_session now extend_data cu db
  = (db, Raise (HTTPException 500 "Internal server error")).
Proof.
  unfold extend_current_session. intros -> H.
  destruct ((m <? 5) || (m >? 480)) eqn:E.
  - apply orb_true_iff in E. destruct E; zbool; lia.
  - now rewrite extend_session_minutes_db_raises.
Qed.

(** ** Checking a password *)

(** C6, on a digest the hashing library refuses.  [verify_password] hands
    the call to [pwd_context.verify] with no handler around it.  Where the
    library raises, as passlib does with [UnknownHashError] for a digest it
    cannot identify, [verify_password] raises the same exception and returns
    no boolean, where the claim has it return [False].  [secure_login] for an
    account stored with such a digest then answers the status 500, not the
    401 of a wrong password, and stores no session. *)
Theorem verify_password_raises_on_refused_digest
    (pwd_context_verify : string -> string -> outcome bool)
    plain_password hashed_password e :
  pwd_context_verify plain_password hashed_password = Raise e ->
  SecurityManager.verify_password pwd_context_verify plain_password
    hashed_password
  = Raise e
  /\ SecurityManager.verify_password pwd_context_verify plain_password
       hashed_password
     <> Return false
  /\ (forall now uuid email users db u,
         UserCRUD.get_user_by_email users email = Some u ->
         User.password_hash u = hashed_password ->
         (forall c d, e <> HTTPException c d) ->
         secure_login (SecurityManager.verify_password pwd_context_verify)
           now uuid email plain_password users db
         = (db,
            Raise (HTTPException 500 "Internal server error during login"))).
Proof.
  intros He. unfold SecurityManager.verify_password.
  refine (conj He (conj _ _)).
  - rewrite He. discriminate.
  - intros now uuid email users db u Hu Hh Hn. unfold secure_login.
    rewrite Hu, Hh, He. cbn [fst snd].
    destruct e as [c d| | |]; [now specialize (Hn c d)|reflexivity..].
Qed.

Lemma verify_password_raises_on_refused_digest_witness :
  let pwd_context_verify :=
    fun plain hashed : string =>
      if String.prefix "$argon2" hashed
      then Return (String.eqb plain "correct")
      else Raise UnknownHashError in
  let alice :=
    {| User.id := 1; User.name := "Alice";
       User.email := "alice@example.com";
       User.password_hash := "not-a-hash";
       User.age := None; User.bio := None;
       User.created_at := 0; User.updated_at := 0 |} in
  SecurityManager.verify_password pwd_context_verify "secret" "not-a-hash"
  = Raise UnknownHashError
  /\ SecurityManager.verify_password pwd_context_verify "secret" "not-a-hash"
     <> Return false
  /\ secure_login (SecurityManager.verify_password pwd_context_verify)
       0 "s1" "alice@example.com" "secret" [alice] []
     = ([], Raise (HTTPException 500 "Internal server error during login")).
Proof.
  cbv zeta.
  destruct (verify_password_raises_on_refused_digest
              (fun plain hashed : string =>
                 if String.prefix "$argon2" hashed
                 then Return (String.eqb plain "correct")
                 else Raise UnknownHashError)
              "secret" "not-a-hash" UnknownHashError eq_refl)
    as (A & B & C).
  refine (conj A (conj B _)).
  apply (C 0 "s1" "alice@example.com"
           [ {| User.id := 1; User.name := "Alice";
                User.email := "alice@example.com";
                User.password_hash := "not-a-hash";
                User.age := None; User.bio := None;
                User.created_at := 0; User.updated_at := 0 |} ] []
           {| User.id := 1; User.name := "Alice";
              User.email := "alice@example.com";
              User.password_hash := "not-a-hash";
              User.age := None; User.bio := None;
              User.created_at := 0; User.updated_at := 0 |}
           eq_refl eq_refl).
  discriminate.
Defined.

(** C5, first half.  A session created at instant 0 is live at second 10 and
    the guard admits its identifier; [extend_current_session] with
    [{"minutes": 480}] then answers the status 500 and the row keeps its
    expiry of second 1800, where the claim has the call succeed and move the
    expiry to second 28810.  The same body with 481 is refused with the status
    400 and the table unchanged, as the claim says. *)
Theorem extend_480_through_handler_fails :
  let db0 :=
    fst (DatabaseSessionStore.create_session 0 "s1" "alice@example.com"
           (Some 30) []) in
  let g := get_current_user_session 10 (Some "s1") None db0 in
  db_live 10 "s1" db0 = true
  /\ match snd g with
     | Return cu =>
         extend_current_session 10 [("minutes", JInt 480)] cu (fst g)
         = (fst g, Raise (HTTPException 500 "Internal server error"))
         /\ map Session.expires_at (fst g) = [1800]
         /\ extend_current_session 10 [("minutes", JInt 481)] cu (fst g)
            = (fst g, Raise minutes_out_of_range)
     | Raise _ => False
     end.
Proof. vm_compute. repeat split; reflexivity. Qed.

(** ** The empty or missing identifier *)

Lemma truthy_some sid s : truthy sid = Some s -> sid = Some s /\ s <> "".
Proof.
  destruct sid as [x|]; simpl; [|discriminate].
  destruct (String.eqb_spec x ""); [discriminate|].
  intros [= <-]. auto.
Qed.


Lemma falsy_truthy sid : falsy sid = true -> truthy sid = None.
Proof. destruct sid as [s|]; simpl; [|reflexivity]. now intros ->. Qed.

(** C10.  For a session identifier that is [None] or the empty string, and a
    volatile store that does not hold the empty string as a key, [get_session]
    returns [None], [delete_session] returns [False] and [extend_session]
    returns [False] in both backends, and both stores are left as they were. *)
Theorem missing_identifier_fails now minutes sid st db :
  falsy sid = true ->
  SessionStore.dict_in "" (SessionStore._sessions st) = false ->
  SessionStore.get_session now sid st = (st, None)
  /\ SessionStore.delete_session sid st = (st, false)
  /\ SessionStore.extend_session now sid minutes st = (st, false)
  /\ DatabaseSessionStore.get_session now sid db = (db, None)
  /\ DatabaseSessionStore.delete_session sid db = (db, false)
  /\ DatabaseSessionStore.extend_session now sid minutes db = (db, false).
Proof.
  intros Hf Hk.
  unfold SessionStore.get_session, DatabaseSessionStore.get_session,
    DatabaseSessionStore.delete_session, DatabaseSessionStore.extend_session.
  rewrite (falsy_truthy sid Hf).
  repeat split.
  - destruct sid as [s|]; [|reflexivity]. simpl in Hf.
    apply String.eqb_eq in Hf. subst s.
    unfold SessionStore.delete_session. now rewrite Hk.
  - destruct sid as [s|]; [|reflexivity]. simpl in Hf.
    apply String.eqb_eq in Hf. subst s.
    unfold SessionStore.extend_session. unfold SessionStore.dict_in in Hk.
    destruct (SessionStore.dict_get "" (SessionStore._sessions st));
      [discriminate|reflexivity].
Qed.

Lemma missing_identifier_fails_witness :
  let st :=
    fst (SessionStore.create_session 0 "s1" "alice@example.com" 30
           (SessionStore.init 0)) in
  let db :=
    fst (DatabaseSessionStore.create_session 0 "s1" "alice@example.com"
           (Some 30) []) in
  (SessionStore.get_session 5 (Some "") st = (st, None)
   /\ SessionStore.delete_session (Some "") st = (st, false)
   /\ SessionStore.extend_session 5 (Some "") 30 st = (st, false)
   /\ DatabaseSessionStore.get_session 5 (Some "") db = (db, None)
   /\ DatabaseSessionStore.delete_session (Some "") db = (db, false)
   /\ DatabaseSessionStore.extend_session 5 (Some "") 30 db = (db, false))
  /\ (SessionStore.get_session 5 None st = (st, None)
      /\ SessionStore.delete_session None st = (st, false)
      /\ SessionStore.extend_session 5 None 30 st = (st, false)
      /\ DatabaseSessionStore.get_session 5 None db = (db, None)
      /\ DatabaseSessionStore.delete_session None db = (db, false)
      /\ DatabaseSessionStore.extend_session 5 None 30 db = (db, false)).
Proof.
  split.
  - apply (missing_identifier_fails 5 30 (Some "")); reflexivity.
  - apply (missing_identifier_fails 5 30 None); reflexivity.
Defined.

(** The volatile store stays well formed: its keys stay unique and the empty
    string never becomes one, since [create_session] stores under the
    identifier drawn and the other calls add no key. *)
Lemma keys_dict_del_incl k d x :
  In x (SessionStore.keys (SessionStore.dict_del k d)) ->
  In x (SessionStore.keys d).
Proof.
  induction d as [|[k' v'] d IH]; simpl; [tauto|].
  destruct (String.eqb k' k); simpl; tauto.
Qed.

Lemma nodup_dict_del k d :
  NoDup (SessionStore.keys d) ->
  NoDup (SessionStore.keys (SessionStore.dict_del k d)).
Proof.
  induction d as [|[k' v'] d IH]; simpl; [auto|].
  intros ND. inversion ND as [|? ? Hn ND']; subst.
  destruct (String.eqb k' k); simpl; [assumption|].
  constructor; [|auto]. intros Hin. apply Hn.
  eapply keys_dict_del_incl; eauto.
Qed.

Lemma nodup_dict_set k v d :
  NoDup (SessionStore.keys d) ->
  NoDup (SessionStore.keys (SessionStore.dict_set k v d)).
Proof.
  intros ND.
  destruct (in_dec string_dec k (SessionStore.keys d)) as [Hin|Hin].
  - now rewrite keys_dict_set.
  - rewrite dict_set_notin by assumption. unfold SessionStore.keys in *.
    rewrite map_app. simpl. apply NoDup_app.
    + assumption.
    + repeat constructor. tauto.
    + intros x Hx [<-|[]]. contradiction.
Qed.

Lemma keys_dict_set_incl k v d x :
  In x (SessionStore.keys (SessionStore.dict_set k v d)) ->
  x = k \/ In x (SessionStore.keys d).
Proof.
  induction d as [|[k' v'] d IH]; simpl; [intuition congruence|].
  destruct (String.eqb_spec k' k); simpl; intuition congruence.
Qed.

Lemma mem_wf_filter p d : mem_wf d -> mem_wf (filter p d).
Proof.
  intros [ND Hne]. split.
  - clear Hne. induction d as [|[k v] d IH]; simpl; [constructor|].
    simpl in ND. inversion ND as [|? ? Hn ND']; subst.
    destruct (p (k, v)); simpl; [|auto].
    constructor; [|auto]. intros Hin. apply Hn.
    unfold SessionStore.keys in *. apply in_map_iff in Hin.
    destruct Hin as (kv & <- & Hkv). apply filter_In in Hkv.
    apply in_map. tauto.
  - intros Hin. apply Hne. unfold SessionStore.keys in *.
    apply in_map_iff in Hin. destruct Hin as (kv & <- & Hkv).
    apply filter_In in Hkv. apply in_map. tauto.
Qed.

Lemma mem_wf_del k d : mem_wf d -> mem_wf (SessionStore.dict_del k d).
Proof.
  intros [ND Hne]. split; [now apply nodup_dict_del|].
  intros Hin. apply Hne. eapply keys_dict_del_incl; eauto.
Qed.

Lemma mem_wf_set k v d :
  k <> "" -> mem_wf d -> mem_wf (SessionStore.dict_set k v d).
Proof.
  intros Hk [ND Hne]. split; [now apply nodup_dict_set|].
  intros Hin. apply keys_dict_set_incl in Hin. destruct Hin; [congruence|tauto].
Qed.

Lemma mem_step_wf now o st :
  match o with Create sid _ _ => sid <> "" | _ => True end ->
  mem_wf (SessionStore._sessions st) ->
  mem_wf (SessionStore._sessions (fst (mem_step now o st))).
Proof.
  intros Ho Hwf.
  destruct o as [sid email ttl|sid|sid m|sid|email|email|sid];
    cbn [mem_step].
  - unfold SessionStore.create_session. cbn [fst].
    unfold SessionStore._cleanup_expired_sessions.
    cbn [SessionStore.with_sessions SessionStore._sessions
           SessionStore._last_cleanup SessionStore._cleanup_interval].
    destruct (_ <? _); cbn [SessionStore._sessions].
    + now apply mem_wf_set.
    + rewrite fold_del_filter by (apply nodup_dict_set; apply Hwf).
      apply mem_wf_filter. now apply mem_wf_set.
  - unfold SessionStore.get_session.
    destruct (truthy sid) as [s|] eqn:Et; [|assumption].
    apply truthy_some in Et. destruct Et as [_ Hne].
    destruct (SessionStore.dict_get s _) as [v|] eqn:Eg; [|assumption].
    destruct (now >? SessionStore.expires_at v); cbn [fst].
    + unfold SessionStore.delete_session, SessionStore.dict_in. rewrite Eg.
      cbn [fst SessionStore.with_sessions SessionStore._sessions].
      now apply mem_wf_del.
    + cbn [SessionStore.with_sessions SessionStore._sessions].
      now apply mem_wf_set.
  - unfold SessionStore.extend_session.
    destruct sid as [s|]; [|assumption].
    destruct (SessionStore.dict_get s _) as [v|] eqn:Eg; [|assumption].
    cbn [fst SessionStore.with_sessions SessionStore._sessions].
    apply mem_wf_set; [|assumption]. intros ->. destruct Hwf as [_ Hne].
    apply Hne. eapply dict_get_in_keys; eauto.
  - unfold SessionStore.delete_session.
    destruct sid as [s|]; [|assumption].
    destruct (SessionStore.dict_in s _);
      cbn [fst SessionStore.with_sessions SessionStore._sessions];
      [now apply mem_wf_del|assumption].
  - assumption.
  - cbn [fst SessionStore.delete_user_sessions SessionStore.with_sessions
           SessionStore._sessions].
    rewrite fold_del_filter by apply Hwf. now apply mem_wf_filter.
  - unfold SessionStore.get_session.
    destruct (truthy sid) as [s|] eqn:Et; [|assumption].
    apply truthy_some in Et. destruct Et as [_ Hne].
    destruct (SessionStore.dict_get s _) as [v|] eqn:Eg; [|assumption].
    destruct (now >? SessionStore.expires_at v); cbn [fst].
    + unfold SessionStore.delete_session, SessionStore.dict_in. rewrite Eg.
      cbn [fst SessionStore.with_sessions SessionStore._sessions].
      now apply mem_wf_del.
    + cbn [SessionStore.with_sessions SessionStore._sessions].
      now apply mem_wf_set.
Qed.

Lemma mem_wf_no_empty_key d : mem_wf d -> SessionStore.dict_in "" d = false.
Proof.
  intros [_ Hne]. destruct (SessionStore.dict_in "" d) eqn:E; [|reflexivity].
  apply dict_in_true in E. contradiction.
Qed.

Lemma mem_wf_init now : mem_wf (SessionStore._sessions (SessionStore.init now)).
Proof. split; simpl; [constructor|tauto]. Qed.

(** ** The request guards *)

Lemma get_session_dead now sid db :
  db_live now sid db = false ->
  snd (DatabaseSessionStore.get_session now (Some sid) db) = None.
Proof.
  intros Hd. unfold DatabaseSessionStore.get_session.
  destruct (truthy (Some sid)) as [s|] eqn:Et; [|reflexivity].
  assert (s = sid) as ->.
  { simpl in Et. destruct (String.eqb sid ""); congruence. }
  unfold DatabaseSessionStore.query_first.
  destruct (find (DatabaseSessionStore.active_by_id sid) db) as [r|] eqn:Ef;
    [|reflexivity].
  now rewrite (find_active_dead now sid db r Hd Ef).
Qed.

Lemma not_issued_not_live now sid db :
  issued sid db = false -> db_live now sid db = false.
Proof.
  unfold issued, db_live. intros H.
  destruct (existsb (fun r => DatabaseSessionStore.by_id sid r && live_row now r) db)
    eqn:E; [|reflexivity].
  apply existsb_exists in E. destruct E as (r & Hin & Hp).
  apply andb_true_iff in Hp. destruct Hp as [Hp _].
  assert (existsb (DatabaseSessionStore.by_id sid) db = true)
    by (apply existsb_exists; eauto).
  congruence.
Qed.

(** With unique identifiers, the one row of an identifier decides whether
    the record is live. *)
Lemma db_live_row sid now db r :
  db_wf db -> In r db -> Session.session_id r = sid ->
  db_live now sid db = live_row now r.
Proof.
  unfold db_wf, db_live. intros ND Hin Hid.
  induction db as [|r0 db IH]; simpl in *; [tauto|].
  inversion ND as [|? ? Hn ND']; subst.
  destruct Hin as [->|Hin].
  - unfold DatabaseSessionStore.by_id at 1. rewrite String.eqb_refl. simpl.
    destruct (live_row now r); [reflexivity|]. simpl.
    destruct (existsb _ db) eqn:E; [|reflexivity].
    exfalso. apply existsb_exists in E. destruct E as (r' & Hin' & Hp).
    apply andb_true_iff in Hp. destruct Hp as [Hp _].
    unfold DatabaseSessionStore.by_id in Hp. apply String.eqb_eq in Hp.
    apply Hn. rewrite <- Hp. unfold sids. now apply in_map.
  - rewrite (IH ND' Hin).
    unfold DatabaseSessionStore.by_id at 1.
    destruct (String.eqb_spec (Session.session_id r0) (Session.session_id r));
      [|reflexivity].
    exfalso. apply Hn. rewrite e. unfold sids. now apply in_map.
Qed.

(** C7.  Whenever the store resolves a presented identifier to absent, both
    guards raise the same exception, [invalid_or_expired]; the store does so
    for an identifier that was never issued, for a record that was revoked and
    for a record that has expired; and no identifier at all raises
    [no_session], a different exception. *)
Theorem guards_reject_uniformly now db :
  (forall cookie header sid,
      truthy (py_or cookie header) = Some sid ->
      snd (DatabaseSessionStore.get_session now (Some sid) db) = None ->
      snd (get_current_user_session now cookie header db)
      = Raise invalid_or_expired)
  /\ (forall cookie sid,
         truthy cookie = Some sid ->
         snd (DatabaseSessionStore.get_session now (Some sid) db) = None ->
         snd (get_current_user_for_session_ops now cookie db)
         = Raise invalid_or_expired)
  /\ (forall sid,
         issued sid db = false ->
         snd (DatabaseSessionStore.get_session now (Some sid) db) = None)
  /\ (forall sid r,
         db_wf db -> In r db -> Session.session_id r = sid ->
         Session.is_active r = false ->
         snd (DatabaseSessionStore.get_session now (Some sid) db) = None)
  /\ (forall sid r,
         db_wf db -> In r db -> Session.session_id r = sid ->
         now > Session.expires_at r ->
         snd (DatabaseSessionStore.get_session now (Some sid) db) = None)
  /\ (forall cookie header,
         truthy (py_or cookie header) = None ->
         get_current_user_session now cookie header db = (db, Raise no_session))
  /\ (forall cookie,
         truthy cookie = None ->
         get_current_user_for_session_ops now cookie db = (db, Raise no_session))
  /\ no_session <> invalid_or_expired.
Proof.
  repeat split.
  - intros cookie header sid Ht Hg. unfold get_current_user_session.
    rewrite Ht. unfold resolve_session.
    destruct (DatabaseSessionStore.get_session now (Some sid) db) as [db' [d|]];
      simpl in *; [discriminate|reflexivity].
  - intros cookie sid Ht Hg. unfold get_current_user_for_session_ops.
    rewrite Ht. unfold resolve_session.
    destruct (DatabaseSessionStore.get_session now (Some sid) db) as [db' [d|]];
      simpl in *; [discriminate|reflexivity].
  - intros sid Hi. apply get_session_dead. now apply not_issued_not_live.
  - intros sid r Hwf Hin Hid Hact. apply get_session_dead.
    rewrite (db_live_row sid now db r Hwf Hin Hid).
    unfold live_row. now rewrite Hact.
  - intros sid r Hwf Hin Hid Hexp. apply get_session_dead.
    rewrite (db_live_row sid now db r Hwf Hin Hid).
    unfold live_row. apply andb_false_iff. right. zbool. lia.
  - intros cookie header Ht. unfold get_current_user_session. now rewrite Ht.
  - intros cookie Ht. unfold get_current_user_for_session_ops. now rewrite Ht.
  - discriminate.
Qed.

Lemma guards_reject_uniformly_witness :
  let db1 :=
    fst (DatabaseSessionStore.create_session 0 "revoked" "alice@example.com"
           (Some 30) []) in
  let db2 :=
    fst (DatabaseSessionStore.create_session 0 "expired" "bob@example.com"
           (Some 30) db1) in
  let db := fst (DatabaseSessionStore.delete_session (Some "revoked") db2) in
  snd (get_current_user_session 2000 (Some "unknown") None db)
  = Raise invalid_or_expired
  /\ snd (get_current_user_session 2000 None (Some "revoked") db)
     = Raise invalid_or_expired
  /\ snd (get_current_user_session 2000 (Some "expired") None db)
     = Raise invalid_or_expired
  /\ snd (get_current_user_for_session_ops 2000 (Some "expired") db)
     = Raise invalid_or_expired
  /\ get_current_user_session 2000 (Some "") None db = (db, Raise no_session)
  /\ get_current_user_for_session_ops 2000 None db = (db, Raise no_session).
Proof.
  cbv zeta.
  match goal with
  | |- snd (get_current_user_session _ _ _ ?d) = _ /\ _ =>
      destruct (guards_reject_uniformly 2000 d)
        as (H1 & H2 & H3 & H4 & H5 & H6 & H7 & _);
      assert (Hwf : db_wf d)
        by (repeat constructor; simpl; intuition discriminate)
  end.
  repeat apply conj.
  - apply (H1 _ _ "unknown"); [reflexivity|]. apply H3. reflexivity.
  - apply (H1 _ _ "revoked"); [reflexivity|].
    eapply H4; [exact Hwf|left; reflexivity|reflexivity|reflexivity].
  - apply (H1 _ _ "expired"); [reflexivity|].
    eapply H5; [exact Hwf|right; left; reflexivity|reflexivity|reflexivity].
  - apply (H2 _ "expired"); [reflexivity|].
    eapply H5; [exact Hwf|right; left; reflexivity|reflexivity|reflexivity].
  - apply H6. reflexivity.
  - apply H7. reflexivity.
Defined.

(** ** Lookup *)

Lemma db_live_true_row now sid db :
  db_live now sid db = true ->
  exists r, In r db /\ Session.session_id r = sid /\ live_row now r = true.
Proof.
  unfold db_live. intros H. apply existsb_exists in H.
  destruct H as (r & Hin & Hp). apply andb_true_iff in Hp.
  destruct Hp as [Hid Hl]. apply String.eqb_eq in Hid. eauto.
Qed.

Lemma find_active_unique sid db r :
  db_wf db -> In r db -> Session.session_id r = sid ->
  Session.is_active r = true ->
  find (DatabaseSessionStore.active_by_id sid) db = Some r.
Proof.
  unfold db_wf. intros ND Hin Hid Hact.
  induction db as [|r0 db IH]; simpl in *; [tauto|].
  inversion ND as [|? ? Hn ND']; subst.
  destruct Hin as [->|Hin].
  - unfold DatabaseSessionStore.active_by_id.
    now rewrite String.eqb_refl, Hact.
  - unfold DatabaseSessionStore.active_by_id at 1.
    destruct (String.eqb_spec (Session.session_id r0) (Session.session_id r)).
    + exfalso. apply Hn. rewrite e. unfold sids. now apply in_map.
    + simpl. now apply IH.
Qed.

Lemma update_first_active_by_id sid f db r :
  db_wf db -> In r db -> Session.session_id r = sid ->
  Session.is_active r = true ->
  DatabaseSessionStore.update_first (DatabaseSessionStore.active_by_id sid) f db
  = DatabaseSessionStore.update_all (DatabaseSessionStore.by_id sid) f db.
Proof.
  unfold db_wf. intros ND Hin Hid Hact.
  induction db as [|r0 db IH]; simpl in *; [tauto|].
  inversion ND as [|? ? Hn ND']; subst.
  destruct Hin as [->|Hin].
  - unfold DatabaseSessionStore.active_by_id, DatabaseSessionStore.by_id.
    rewrite String.eqb_refl, Hact. simpl. f_equal.
    symmetry. apply update_all_none. intros r' Hr' Hp. exfalso. apply Hn.
    apply String.eqb_eq in Hp. rewrite <- Hp. unfold sids. now apply in_map.
  - unfold DatabaseSessionStore.active_by_id at 1,
      DatabaseSessionStore.by_id at 1.
    destruct (String.eqb_spec (Session.session_id r0) (Session.session_id r)).
    + exfalso. apply Hn. rewrite e. unfold sids. now apply in_map.
    + simpl. f_equal. now apply IH.
Qed.

Lemma truthy_nonempty sid : sid <> "" -> truthy (Some sid) = Some sid.
Proof. intros H. simpl. destruct (String.eqb_spec sid ""); congruence. Qed.

Lemma db_get_live now sid db :
  sid <> "" -> db_wf db -> db_live now sid db = true ->
  exists r,
    In r db /\ Session.session_id r = sid /\ live_row now r = true
    /\ DatabaseSessionStore.get_session now (Some sid) db
       = (DatabaseSessionStore.update_all (DatabaseSessionStore.by_id sid)
            (Session.touch now) db,
          Some (session_data_of now r)).
Proof.
  intros Hne Hwf Hl. destruct (db_live_true_row now sid db Hl) as (r & Hin & Hid & Hr).
  exists r. repeat apply conj; try assumption.
  unfold live_row in Hr. apply andb_true_iff in Hr. destruct Hr as [Hact Hexp].
  unfold DatabaseSessionStore.get_session. rewrite (truthy_nonempty sid Hne).
  unfold DatabaseSessionStore.query_first.
  rewrite (find_active_unique sid db r Hwf Hin Hid Hact).
  unfold Session.is_expired.
  destruct (now >? Session.expires_at r) eqn:E; [zbool; lia|].
  now rewrite (update_first_active_by_id sid _ db r Hwf Hin Hid Hact).
Qed.

Lemma db_get_dead now sid db :
  sid <> "" -> db_wf db -> db_live now sid db = false ->
  DatabaseSessionStore.get_session now (Some sid) db
  = (DatabaseSessionStore.update_all (DatabaseSessionStore.by_id sid)
       Session.deactivate db,
     None).
Proof.
  intros Hne Hwf Hd.
  unfold DatabaseSessionStore.get_session. rewrite (truthy_nonempty sid Hne).
  unfold DatabaseSessionStore.query_first.
  destruct (find (DatabaseSessionStore.active_by_id sid) db) as [r|] eqn:Ef.
  - rewrite (find_active_dead now sid db r Hd Ef).
    unfold DatabaseSessionStore.delete_session.
    rewrite (truthy_nonempty sid Hne).
    unfold DatabaseSessionStore.query_first.
    destruct (find (DatabaseSessionStore.by_id sid) db) eqn:Eb; simpl.
    + now rewrite update_first_by_id by (auto; now intros []).
    + exfalso. apply find_some in Ef. destruct Ef as [Hin Hp].
      pose proof (find_none _ _ Eb r Hin) as Hb.
      unfold DatabaseSessionStore.active_by_id in Hp.
      unfold DatabaseSessionStore.by_id in Hb. rewrite Hb in Hp. discriminate.
  - f_equal. symmetry. apply update_all_none.
    intros r Hin Hp. apply deactivate_inactive.
    pose proof (find_none _ _ Ef r Hin) as Ha.
    unfold DatabaseSessionStore.active_by_id in Ha.
    unfold DatabaseSessionStore.by_id in Hp. rewrite Hp in Ha. exact Ha.
Qed.

Lemma dict_get_none_notin k d :
  SessionStore.dict_get k d = None -> ~ In k (SessionStore.keys d).
Proof.
  intros H Hin. apply dict_in_true in Hin. unfold SessionStore.dict_in in Hin.
  rewrite H in Hin. discriminate.
Qed.

Lemma mem_get_live now sid st :
  sid <> "" -> mem_live now sid (SessionStore._sessions st) = true ->
  exists v,
    SessionStore.dict_get sid (SessionStore._sessions st) = Some v
    /\ now <= SessionStore.expires_at v
    /\ SessionStore.get_session now (Some sid) st
       = (SessionStore.with_sessions st
            (SessionStore.dict_set sid (mem_touch now v)
               (SessionStore._sessions st)),
          Some (mem_touch now v)).
Proof.
  intros Hne Hl. unfold mem_live in Hl.
  destruct (SessionStore.dict_get sid (SessionStore._sessions st)) as [v|] eqn:E;
    [|discriminate].
  exists v. repeat apply conj; [reflexivity|zbool; lia|].
  unfold SessionStore.get_session. rewrite (truthy_nonempty sid Hne), E.
  destruct (now >? SessionStore.expires_at v) eqn:E'; [zbool; lia|reflexivity].
Qed.

Lemma mem_get_dead now sid st :
  sid <> "" -> mem_live now sid (SessionStore._sessions st) = false ->
  SessionStore.get_session now (Some sid) st
  = (SessionStore.with_sessions st
       (SessionStore.dict_del sid (SessionStore._sessions st)),
     None).
Proof.
  intros Hne Hd. unfold mem_live in Hd.
  unfold SessionStore.get_session. rewrite (truthy_nonempty sid Hne).
  destruct (SessionStore.dict_get sid (SessionStore._sessions st)) as [v|] eqn:E.
  - destruct (now >? SessionStore.expires_at v) eqn:E'; [|zbool; lia].
    unfold SessionStore.delete_session, SessionStore.dict_in. now rewrite E.
  - rewrite dict_del_notin by now apply dict_get_none_notin.
    now rewrite with_sessions_same.
Qed.

Lemma dict_del_removes k d :
  NoDup (SessionStore.keys d) ->
  SessionStore.dict_in k (SessionStore.dict_del k d) = false.
Proof.
  intros ND.
  destruct (SessionStore.dict_in k (SessionStore.dict_del k d)) eqn:E;
    [|reflexivity].
  exfalso. apply dict_in_true in E. revert ND E.
  induction d as [|[k' v] d IH]; simpl; [tauto|].
  intros ND. inversion ND as [|? ? Hn ND']; subst.
  destruct (String.eqb_spec k' k); [subst; exact Hn|].
  simpl. intros [?|H]; [congruence|auto].
Qed.

Lemma db_deactivated_dead now sid db :
  db_live now sid
    (DatabaseSessionStore.update_all (DatabaseSessionStore.by_id sid)
       Session.deactivate db) = false.
Proof.
  unfold db_live, DatabaseSessionStore.update_all.
  induction db as [|r db IH]; simpl; [reflexivity|].
  rewrite IH. rewrite orb_false_r.
  destruct (DatabaseSessionStore.by_id sid r) eqn:E.
  - unfold live_row. simpl. now rewrite andb_false_r.
  - now rewrite E.
Qed.

Lemma dict_get_set_same k v d :
  SessionStore.dict_get k (SessionStore.dict_set k v d) = Some v.
Proof.
  induction d as [|[k' v'] d IH]; simpl.
  - now rewrite String.eqb_refl.
  - destruct (String.eqb_spec k' k); simpl.
    + now rewrite String.eqb_refl.
    + destruct (String.eqb_spec k' k); [contradiction|exact IH].
Qed.


Lemma dict_get_set_other k k' v d :
  k' <> k ->
  SessionStore.dict_get k' (SessionStore.dict_set k v d)
  = SessionStore.dict_get k' d.
Proof.
  intros Hne. induction d as [|[k0 v0] d IH]; simpl.
  - destruct (String.eqb_spec k k'); [congruence|reflexivity].
  - destruct (String.eqb_spec k0 k); simpl.
    + subst k0. destruct (String.eqb_spec k k'); [congruence|reflexivity].
    + destruct (String.eqb_spec k0 k'); [reflexivity|exact IH].
Qed.


Lemma dict_get_del_other k k' d :
  k' <> k ->
  SessionStore.dict_get k' (SessionStore.dict_del k d)
  = SessionStore.dict_get k' d.
Proof.
  intros Hne. induction d as [|[k0 v0] d IH]; simpl; [reflexivity|].
  destruct (String.eqb_spec k0 k); simpl.
  - subst k0. destruct (String.eqb_spec k k'); [congruence|reflexivity].
  - destruct (String.eqb_spec k0 k'); [reflexivity|exact IH].
Qed.


(** The rows of a table after an assignment to the row of one identifier. *)
Lemma update_all_by_id_in sid f db r :
  In r db -> Session.session_id r = sid ->
  In (f r)
    (DatabaseSessionStore.update_all (DatabaseSessionStore.by_id sid) f db).
Proof.
  intros Hin Hid. unfold DatabaseSessionStore.update_all.
  apply in_map_iff. exists r. split; [|assumption].
  unfold DatabaseSessionStore.by_id. now rewrite Hid, String.eqb_refl.
Qed.

Lemma update_all_by_id_inv sid f db r' :
  In r'
    (DatabaseSessionStore.update_all (DatabaseSessionStore.by_id sid) f db) ->
  (exists r, In r db /\ Session.session_id r = sid /\ r' = f r)
  \/ (In r' db /\ Session.session_id r' <> sid).
Proof.
  unfold DatabaseSessionStore.update_all. intros H.
  apply in_map_iff in H. destruct H as (r & Hr & Hin).
  unfold DatabaseSessionStore.by_id in Hr.
  destruct (String.eqb_spec (Session.session_id r) sid) as [E|E].
  - left. exists r. auto.
  - right. subst r'. auto.
Qed.

Lemma update_all_by_id_other sid f db r' :
  (forall r, Session.session_id (f r) = Session.session_id r) ->
  Session.session_id r' <> sid ->
  In r'
    (DatabaseSessionStore.update_all (DatabaseSessionStore.by_id sid) f db)
  <-> In r' db.
Proof.
  intros Hf Hne. split.
  - intros H. apply update_all_by_id_inv in H.
    destruct H as [(r & _ & Hid & ->)|[H _]]; [|assumption].
    exfalso. apply Hne. now rewrite Hf.
  - intros H. unfold DatabaseSessionStore.update_all.
    apply in_map_iff. exists r'. split; [|assumption].
    unfold DatabaseSessionStore.by_id.
    destruct (String.eqb_spec (Session.session_id r') sid);
      [contradiction|reflexivity].
Qed.

(** C3, as stated, at the instant of expiry.  A record created at instant 0
    with a lifetime of 30 minutes has [expires_at] = 1800.  At second 1800,
    [now] is not before [expires_at], so the record is not live in the wording
    of the data model; both backends still return it, with its principal. *)
Lemma get_at_expiry_instant_returns :
  let db0 :=
    fst (DatabaseSessionStore.create_session 0 "s1" "alice@example.com"
           (Some 30) []) in
  let st0 :=
    fst (SessionStore.create_session 0 "s1" "alice@example.com" 30
           (SessionStore.init 0)) in
  db_live_strict 1800 "s1" db0 = false
  /\ option_map DatabaseSessionStore.user_email
       (snd (DatabaseSessionStore.get_session 1800 (Some "s1") db0))
     = Some "alice@example.com"
  /\ mem_live_strict 1800 "s1" (SessionStore._sessions st0) = false
  /\ option_map SessionStore.user_email
       (snd (SessionStore.get_session 1800 (Some "s1") st0))
     = Some "alice@example.com".
Proof. vm_compute. repeat split; reflexivity. Qed.

Lemma db_wf_unique db r r' :
  db_wf db -> In r db -> In r' db ->
  Session.session_id r = Session.session_id r' -> r = r'.
Proof.
  unfold db_wf. induction db as [|r0 db IH]; simpl; [tauto|].
  intros ND. inversion ND as [|? ? Hn ND']; subst.
  intros [->|H] [->|H'] He; auto.
  - exfalso. apply Hn. rewrite He. unfold sids. now apply in_map.
  - exfalso. apply Hn. rewrite <- He. unfold sids. now apply in_map.
Qed.

Lemma db_get_none_live now sid db :
  sid <> "" -> db_wf db -> db_live now sid db = true ->
  exists r,
    In r db /\ Session.session_id r = sid /\ live_row now r = true
    /\ DatabaseSessionStore.get_session_db_none now (Some sid) db
       = (db, Some (session_data_of now r)).
Proof.
  intros Hne Hwf Hl.
  destruct (db_live_true_row now sid db Hl) as (r & Hin & Hid & Hr).
  exists r. repeat apply conj; try assumption.
  unfold live_row in Hr. apply andb_true_iff in Hr. destruct Hr as [Hact Hexp].
  unfold DatabaseSessionStore.get_session_db_none.
  rewrite (truthy_nonempty sid Hne).
  unfold DatabaseSessionStore.query_first.
  rewrite (find_active_unique sid db r Hwf Hin Hid Hact).
  unfold Session.is_expired.
  destruct (now >? Session.expires_at r) eqn:E; [zbool; lia|reflexivity].
Qed.

(** On a record that is not live the call without a handle does what the
    call with a handle does. *)
Lemma db_get_none_dead now sid db :
  db_live now sid db = false ->
  DatabaseSessionStore.get_session_db_none now (Some sid) db
  = DatabaseSessionStore.get_session now (Some sid) db.
Proof.
  intros Hd.
  unfold DatabaseSessionStore.get_session_db_none,
    DatabaseSessionStore.get_session.
  destruct (truthy (Some sid)) as [s|] eqn:Et; [|reflexivity].
  apply truthy_some in Et. destruct Et as [[= <-] _].
  unfold DatabaseSessionStore.query_first.
  destruct (find (DatabaseSessionStore.active_by_id sid) db) as [r|] eqn:Ef;
    [|reflexivity].
  now rewrite (find_active_dead now sid db r Hd Ef).
Qed.

(** The call without a handle leaves the table as it was, or does what the
    call with a handle does. *)
Lemma db_get_none_table now sid db :
  fst (DatabaseSessionStore.get_session_db_none now sid db) = db
  \/ DatabaseSessionStore.get_session_db_none now sid db
     = DatabaseSessionStore.get_session now sid db.
Proof.
  unfold DatabaseSessionStore.get_session_db_none,
    DatabaseSessionStore.get_session.
  destruct (truthy sid) as [s|]; [|now left].
  destruct (DatabaseSessionStore.query_first _ db) as [r|]; [|now left].
  destruct (Session.is_expired now r); [now right|now left].
Qed.

(** C3, amended.  A record is live when it is active (held) and [now] is not
    after [expires_at].  For a non-empty identifier and a table with unique
    identifiers, in both backends:
    - if the record is live, [get_session] returns it, with the principal,
      creation and expiry instants of the stored record and [last_accessed]
      set to [now].  The volatile backend, and the persistent backend when
      it is called with a database handle, store that [last_accessed] in the
      record and change nothing else; the persistent backend called without
      a handle returns the same dictionary and leaves the table as it was;
    - if it is not live, [get_session] returns [None], with or without a
      handle, and afterwards the record is inactive (persistent backend) or
      no longer held (volatile backend) and is not live at any instant; the
      other records are as before;
    - a record created for "alice@example.com" at instant 0 with a lifetime of
      30 minutes is returned with that principal at instant 0 and is absent
      31 minutes later. *)
Theorem get_returns_exactly_live now sid st db :
  sid <> "" ->
  db_wf db ->
  NoDup (SessionStore.keys (SessionStore._sessions st)) ->
  (db_live now sid db = true ->
   exists r,
     In r db /\ Session.session_id r = sid
     /\ Session.is_active r = true /\ now <= Session.expires_at r
     /\ DatabaseSessionStore.get_session now (Some sid) db
        = (DatabaseSessionStore.update_all (DatabaseSessionStore.by_id sid)
             (Session.touch now) db,
           Some (session_data_of now r))
     /\ snd (DatabaseSessionStore.get_session now (Some sid) db)
        = Some {| DatabaseSessionStore.user_email := Session.user_email r;
                  DatabaseSessionStore.created_at := Session.created_at r;
                  DatabaseSessionStore.expires_at := Session.expires_at r;
                  DatabaseSessionStore.last_accessed := now;
                  DatabaseSessionStore.session_id := sid |}
     /\ In {| Session.session_id := sid;
              Session.user_email := Session.user_email r;
              Session.created_at := Session.created_at r;
              Session.expires_at := Session.expires_at r;
              Session.last_accessed := now;
              Session.is_active := true |}
          (fst (DatabaseSessionStore.get_session now (Some sid) db))
     /\ (forall r',
            Session.session_id r' <> sid ->
            In r' (fst (DatabaseSessionStore.get_session now (Some sid) db))
            <-> In r' db)
     /\ List.length (fst (DatabaseSessionStore.get_session now (Some sid) db))
        = List.length db
     /\ DatabaseSessionStore.get_session_db_none now (Some sid) db
        = (db,
           Some {| DatabaseSessionStore.user_email := Session.user_email r;
                   DatabaseSessionStore.created_at := Session.created_at r;
                   DatabaseSessionStore.expires_at := Session.expires_at r;
                   DatabaseSessionStore.last_accessed := now;
                   DatabaseSessionStore.session_id := sid |}))
  /\ (db_live now sid db = false ->
      DatabaseSessionStore.get_session now (Some sid) db
      = (DatabaseSessionStore.update_all (DatabaseSessionStore.by_id sid)
           Session.deactivate db,
         None)
      /\ DatabaseSessionStore.get_session_db_none now (Some sid) db
         = DatabaseSessionStore.get_session now (Some sid) db
      /\ (forall r',
             In r' (fst (DatabaseSessionStore.get_session now (Some sid) db)) ->
             Session.session_id r' = sid -> Session.is_active r' = false)
      /\ (forall r',
             Session.session_id r' <> sid ->
             In r' (fst (DatabaseSessionStore.get_session now (Some sid) db))
             <-> In r' db)
      /\ forall now',
          db_live now' sid
            (fst (DatabaseSessionStore.get_session now (Some sid) db)) = false)
  /\ (mem_live now sid (SessionStore._sessions st) = true ->
      exists v,
        SessionStore.dict_get sid (SessionStore._sessions st) = Some v
        /\ now <= SessionStore.expires_at v
        /\ SessionStore.get_session now (Some sid) st
           = (SessionStore.with_sessions st
                (SessionStore.dict_set sid (mem_touch now v)
                   (SessionStore._sessions st)),
              Some (mem_touch now v))
        /\ snd (SessionStore.get_session now (Some sid) st)
           = Some {| SessionStore.user_email := SessionStore.user_email v;
                     SessionStore.created_at := SessionStore.created_at v;
                     SessionStore.expires_at := SessionStore.expires_at v;
                     SessionStore.last_accessed := now |}
        /\ SessionStore.dict_get sid
             (SessionStore._sessions
                (fst (SessionStore.get_session now (Some sid) st)))
           = Some {| SessionStore.user_email := SessionStore.user_email v;
                     SessionStore.created_at := SessionStore.created_at v;
                     SessionStore.expires_at := SessionStore.expires_at v;
                     SessionStore.last_accessed := now |}
        /\ forall s,
            s <> sid ->
            SessionStore.dict_get s
              (SessionStore._sessions
                 (fst (SessionStore.get_session now (Some sid) st)))
            = SessionStore.dict_get s (SessionStore._sessions st))
  /\ (mem_live now sid (SessionStore._sessions st) = false ->
      SessionStore.get_session now (Some sid) st
      = (SessionStore.with_sessions st
           (SessionStore.dict_del sid (SessionStore._sessions st)),
         None)
      /\ SessionStore.dict_in sid
           (SessionStore._sessions
              (fst (SessionStore.get_session now (Some sid) st))) = false
      /\ forall s,
          s <> sid ->
          SessionStore.dict_get s
            (SessionStore._sessions
               (fst (SessionStore.get_session now (Some sid) st)))
          = SessionStore.dict_get s (SessionStore._sessions st))
  /\ (let db0 :=
        fst (DatabaseSessionStore.create_session 0 "s1" "alice@example.com"
               (Some 30) []) in
      let g := DatabaseSessionStore.get_session 0 (Some "s1") db0 in
      option_map DatabaseSessionStore.user_email (snd g)
      = Some "alice@example.com"
      /\ snd (DatabaseSessionStore.get_session (0 + 31 * 60) (Some "s1") (fst g))
         = None)
  /\ (let st0 :=
        fst (SessionStore.create_session 0 "s1" "alice@example.com" 30
               (SessionStore.init 0)) in
      let g := SessionStore.get_session 0 (Some "s1") st0 in
      option_map SessionStore.user_email (snd g) = Some "alice@example.com"
      /\ snd (SessionStore.get_session (0 + 31 * 60) (Some "s1") (fst g))
         = None).
Proof.
  intros Hne Hwf ND.
  refine (conj _ (conj _ (conj _ (conj _ (conj _ _))))).
  - intros Hl.
    destruct (db_get_live now sid db Hne Hwf Hl) as (r & Hin & Hid & Hr & Hg).
    destruct (db_get_none_live now sid db Hne Hwf Hl)
      as (r0 & Hin0 & Hid0 & _ & Hg0).
    assert (r0 = r) as -> by (apply (db_wf_unique db); congruence).
    unfold live_row in Hr. apply andb_true_iff in Hr.
    destruct Hr as [Hact Hexp]. zbool.
    exists r. rewrite Hg, Hg0. cbn [fst snd].
    refine (conj Hin (conj Hid (conj Hact (conj Hexp (conj eq_refl _))))).
    refine (conj _ (conj _ (conj _ (conj _ _)))).
    + unfold session_data_of. now rewrite Hid.
    + pose proof (update_all_by_id_in sid (Session.touch now) db r Hin Hid)
        as Hin'.
      unfold Session.touch in Hin'. now rewrite Hid, Hact in Hin'.
    + intros r' Hr'. apply update_all_by_id_other; [now intros []|assumption].
    + unfold DatabaseSessionStore.update_all. apply length_map.
    + unfold session_data_of. now rewrite Hid.
  - intros Hd. pose proof (db_get_dead now sid db Hne Hwf Hd) as Hg.
    refine (conj Hg (conj (db_get_none_dead now sid db Hd) _)).
    rewrite Hg. cbn [fst].
    refine (conj _ (conj _ _)).
    + intros r' Hin' Hid'. apply update_all_by_id_inv in Hin'.
      destruct Hin' as [(r0 & _ & _ & ->)|[_ Hc]];
        [reflexivity|contradiction].
    + intros r' Hr'. apply update_all_by_id_other; [now intros []|assumption].
    + intros now'. apply db_deactivated_dead.
  - intros Hl. destruct (mem_get_live now sid st Hne Hl) as (v & Hv & Hexp & Hg).
    exists v. rewrite Hg.
    cbn [fst snd SessionStore.with_sessions SessionStore._sessions].
    refine (conj Hv (conj Hexp (conj eq_refl (conj eq_refl (conj _ _))))).
    + apply dict_get_set_same.
    + intros s Hs. now apply dict_get_set_other.
  - intros Hd. pose proof (mem_get_dead now sid st Hne Hd) as Hg.
    split; [exact Hg|]. rewrite Hg.
    cbn [fst SessionStore.with_sessions SessionStore._sessions].
    split; [now apply dict_del_removes|].
    intros s Hs. now apply dict_get_del_other.
  - vm_compute. split; reflexivity.
  - vm_compute. split; reflexivity.
Qed.

Lemma get_returns_exactly_live_witness :
  let db1 :=
    fst (DatabaseSessionStore.create_session 0 "s1" "alice@example.com"
           (Some 30) []) in
  let db :=
    fst (DatabaseSessionStore.create_session 600 "s2" "bob@example.com"
           (Some 30) db1) in
  let st1 :=
    fst (SessionStore.create_session 0 "s1" "alice@example.com" 30
           (SessionStore.init 0)) in
  let st := fst (SessionStore.create_session 600 "s2" "bob@example.com" 30 st1) in
  (exists r,
      In r db /\ Session.session_id r = "s2"
      /\ snd (DatabaseSessionStore.get_session 2000 (Some "s2") db)
         = Some {| DatabaseSessionStore.user_email := Session.user_email r;
                   DatabaseSessionStore.created_at := Session.created_at r;
                   DatabaseSessionStore.expires_at := Session.expires_at r;
                   DatabaseSessionStore.last_accessed := 2000;
                   DatabaseSessionStore.session_id := "s2" |}
      /\ In {| Session.session_id := "s2";
               Session.user_email := Session.user_email r;
               Session.created_at := Session.created_at r;
               Session.expires_at := Session.expires_at r;
               Session.last_accessed := 2000;
               Session.is_active := true |}
           (fst (DatabaseSessionStore.get_session 2000 (Some "s2") db))
      /\ fst (DatabaseSessionStore.get_session_db_none 2000 (Some "s2") db)
         = db)
  /\ (snd (DatabaseSessionStore.get_session 2000 (Some "s1") db) = None
      /\ forall r',
          In r' (fst (DatabaseSessionStore.get_session 2000 (Some "s1") db)) ->
          Session.session_id r' = "s1" -> Session.is_active r' = false)
  /\ (exists v,
         SessionStore.dict_get "s2" (SessionStore._sessions st) = Some v
         /\ SessionStore.get_session 2000 (Some "s2") st
            = (SessionStore.with_sessions st
                 (SessionStore.dict_set "s2" (mem_touch 2000 v)
                    (SessionStore._sessions st)),
               Some (mem_touch 2000 v)))
  /\ SessionStore.dict_in "s1"
       (SessionStore._sessions
          (fst (SessionStore.get_session 2000 (Some "s1") st))) = false.
Proof.
  cbv zeta.
  match goal with
  | |- (exists r, In r ?d /\ _) /\ _ /\ (exists v,
         SessionStore.dict_get _ (SessionStore._sessions ?s) = _ /\ _) /\ _ =>
      assert (Hwf : db_wf d)
        by (repeat constructor; simpl; intuition discriminate);
      assert (ND : NoDup (SessionStore.keys (SessionStore._sessions s)))
        by (repeat constructor; simpl; intuition discriminate);
      assert (N1 : "s1" <> "") by discriminate;
      assert (N2 : "s2" <> "") by discriminate;
      destruct (get_returns_exactly_live 2000 "s2" s d N2 Hwf ND)
        as (A1 & _ & A3 & _);
      destruct (get_returns_exactly_live 2000 "s1" s d N1 Hwf ND)
        as (_ & B2 & _ & B4 & _)
  end.
  refine (conj _ (conj _ (conj _ _))).
  - destruct (A1 eq_refl)
      as (r & Hin & Hid & _ & _ & _ & Hs & Hr & _ & _ & Hn).
    exists r. refine (conj Hin (conj Hid (conj Hs (conj Hr _)))).
    now rewrite Hn.
  - destruct (B2 eq_refl) as (Hg & _ & Hi & _).
    split; [now rewrite Hg|exact Hi].
  - destruct (A3 eq_refl) as (v & Hv & _ & Hg & _). exists v. auto.
  - apply B4. reflexivity.
Defined.

(** ** Terminating another session *)

Lemma find_existsb {A : Type} (p : A -> bool) l :
  existsb p l = match find p l with Some _ => true | None => false end.
Proof.
  induction l as [|a l IH]; simpl; [reflexivity|].
  destruct (p a); [reflexivity|exact IH].
Qed.

Lemma target_in_user_sessions now email sid db :
  existsb (fun s => String.eqb (sum_session_id s) sid)
    (DatabaseSessionStore.get_user_sessions now email db)
  = owned_live now email sid db.
Proof.
  unfold DatabaseSessionStore.get_user_sessions,
    DatabaseSessionStore.query_all, owned_live.
  induction db as [|r db IH]; simpl; [reflexivity|].
  rewrite <- IH. clear IH.
  unfold Session.is_expired, DatabaseSessionStore.by_id.
  destruct (DatabaseSessionStore.active_by_email email r); simpl.
  - rewrite Z.gtb_ltb, <- Z.leb_antisym.
    destruct (now <=? Session.expires_at r); simpl.
    + now rewrite !andb_true_r.
    + now rewrite andb_false_r.
  - now rewrite andb_false_r.
Qed.

Lemma owned_live_issued now email sid db :
  owned_live now email sid db = true -> issued sid db = true.
Proof.
  unfold owned_live, issued. rewrite !existsb_exists.
  intros (r & Hin & Hp). exists r. split; [assumption|].
  apply andb_true_iff in Hp. destruct Hp as [Hp _].
  apply andb_true_iff in Hp. tauto.
Qed.

Lemma db_delete_issued_state sid db :
  sid <> "" -> db_wf db -> issued sid db = true ->
  DatabaseSessionStore.delete_session (Some sid) db
  = (DatabaseSessionStore.update_all (DatabaseSessionStore.by_id sid)
       Session.deactivate db,
     true).
Proof.
  intros Hne Hwf Hi. unfold DatabaseSessionStore.delete_session.
  rewrite (truthy_nonempty sid Hne).
  unfold DatabaseSessionStore.query_first.
  rewrite <- update_first_by_id by (auto; now intros []).
  unfold issued in Hi. rewrite find_existsb in Hi.
  destruct (find (DatabaseSessionStore.by_id sid) db); [reflexivity|discriminate].
Qed.

Lemma owned_live_not_issued now email sid db :
  issued sid db = false -> owned_live now email sid db = false.
Proof.
  intros Hi. destruct (owned_live now email sid db) eqn:E; [|reflexivity].
  apply owned_live_issued in E. congruence.
Qed.

(** With unique identifiers, the one row of an identifier decides whether it
    is a live record of the principal. *)
Lemma owned_live_row now email sid db r :
  db_wf db -> In r db -> Session.session_id r = sid ->
  owned_live now email sid db
  = DatabaseSessionStore.active_by_email email r
    && (now <=? Session.expires_at r).
Proof.
  intros Hwf Hin Hid. unfold owned_live.
  destruct (existsb _ db) eqn:E.
  - apply existsb_exists in E. destruct E as (r' & Hin' & Hp).
    apply andb_true_iff in Hp. destruct Hp as [Hp He].
    apply andb_true_iff in Hp. destruct Hp as [Hi Ha].
    apply String.eqb_eq in Hi.
    assert (r' = r) as -> by (apply (db_wf_unique db); congruence).
    now rewrite Ha, He.
  - symmetry. destruct (_ && _) eqn:E'; [|reflexivity].
    rewrite <- E. symmetry. apply existsb_exists. exists r.
    split; [assumption|].
    unfold DatabaseSessionStore.by_id. rewrite Hid, String.eqb_refl.
    simpl. exact E'.
Qed.

Lemma owned_live_true_row now email sid db :
  owned_live now email sid db = true ->
  exists r,
    In r db /\ Session.session_id r = sid /\ Session.user_email r = email
    /\ Session.is_active r = true /\ now <= Session.expires_at r.
Proof.
  unfold owned_live. rewrite existsb_exists. intros (r & Hin & Hp).
  apply andb_true_iff in Hp. destruct Hp as [Hp He].
  apply andb_true_iff in Hp. destruct Hp as [Hi Ha].
  unfold DatabaseSessionStore.active_by_email in Ha.
  apply andb_true_iff in Ha. destruct Ha as [Hm Ha].
  apply String.eqb_eq in Hi, Hm. exists r. zbool. auto.
Qed.

(** C8.  [terminate_session], for every acting principal, target identifier
    and table with unique identifiers:
    - a target that is not a live record of the acting principal raises the
      status 404, [session_not_found], and the table is unchanged; so does, in
      particular and with the same exception, a target that has no row and a
      target whose row belongs to another principal;
    - a target equal to the caller's own session identifier is always
      rejected, with the table unchanged, and with
      [cannot_terminate_current] when that session is a live record of the
      caller;
    - a non-empty target that is a live record of the caller and differs from
      the caller's session is revoked and the call returns: the row of the
      target, which was active, is now the same row with [is_active] false,
      the target is live at no instant any more, and every other row is as
      before;
    - the call returns in no other case. *)
Theorem terminate_session_checks now target cu db :
  db_wf db ->
  (owned_live now (CurrentUser.email cu) target db = false ->
   terminate_session now target cu db = (db, Raise session_not_found))
  /\ (issued target db = false ->
      terminate_session now target cu db = (db, Raise session_not_found))
  /\ (forall r,
         In r db -> Session.session_id r = target ->
         Session.user_email r <> CurrentUser.email cu ->
         terminate_session now target cu db = (db, Raise session_not_found))
  /\ (target = CurrentUser.session_id cu ->
      owned_live now (CurrentUser.email cu) target db = true ->
      terminate_session now target cu db = (db, Raise cannot_terminate_current))
  /\ (target = CurrentUser.session_id cu ->
      exists e, terminate_session now target cu db = (db, Raise e))
  /\ (target <> "" ->
      target <> CurrentUser.session_id cu ->
      owned_live now (CurrentUser.email cu) target db = true ->
      terminate_session now target cu db
      = (DatabaseSessionStore.update_all (DatabaseSessionStore.by_id target)
           Session.deactivate db,
         Return "Session terminated successfully")
      /\ (exists r,
             In r db /\ Session.session_id r = target
             /\ Session.user_email r = CurrentUser.email cu
             /\ Session.is_active r = true
             /\ In {| Session.session_id := target;
                      Session.user_email := Session.user_email r;
                      Session.created_at := Session.created_at r;
                      Session.expires_at := Session.expires_at r;
                      Session.last_accessed := Session.last_accessed r;
                      Session.is_active := false |}
                  (fst (terminate_session now target cu db)))
      /\ (forall r',
             In r' (fst (terminate_session now target cu db)) ->
             Session.session_id r' = target -> Session.is_active r' = false)
      /\ (forall t,
             db_live t target (fst (terminate_session now target cu db))
             = false)
      /\ (forall r',
             Session.session_id r' <> target ->
             In r' (fst (terminate_session now target cu db)) <-> In r' db)
      /\ List.length (fst (terminate_session now target cu db))
         = List.length db)
  /\ (forall msg,
         snd (terminate_session now target cu db) = Return msg ->
         owned_live now (CurrentUser.email cu) target db = true
         /\ target <> CurrentUser.session_id cu).
Proof.
  intros Hwf.
  assert (Hnot : owned_live now (CurrentUser.email cu) target db = false ->
                 terminate_session now target cu db = (db, Raise session_not_found)).
  { intros Ho. unfold terminate_session.
    pose proof (target_in_user_sessions now (CurrentUser.email cu) target db) as Ht.
    rewrite find_existsb, Ho in Ht.
    destruct (find _ (DatabaseSessionStore.get_user_sessions now
                        (CurrentUser.email cu) db)); [discriminate|reflexivity]. }
  assert (Hself : target = CurrentUser.session_id cu ->
                  owned_live now (CurrentUser.email cu) target db = true ->
                  terminate_session now target cu db
                  = (db, Raise cannot_terminate_current)).
  { intros He Ho. unfold terminate_session.
    pose proof (target_in_user_sessions now (CurrentUser.email cu) target db) as Ht.
    rewrite find_existsb, Ho in Ht.
    destruct (find _ (DatabaseSessionStore.get_user_sessions now
                        (CurrentUser.email cu) db)); [|discriminate].
    rewrite <- He, String.eqb_refl. reflexivity. }
  refine (conj Hnot (conj _ (conj _ (conj Hself (conj _ (conj _ _)))))).
  - intros Hi. apply Hnot. now apply owned_live_not_issued.
  - intros r Hin Hid He. apply Hnot.
    rewrite (owned_live_row now _ target db r Hwf Hin Hid).
    unfold DatabaseSessionStore.active_by_email.
    destruct (String.eqb_spec (Session.user_email r) (CurrentUser.email cu));
      [contradiction|reflexivity].
  - intros He.
    destruct (owned_live now (CurrentUser.email cu) target db) eqn:Ho; eauto.
  - intros Hne Hd Ho.
    assert (E : terminate_session now target cu db
                = (DatabaseSessionStore.update_all
                     (DatabaseSessionStore.by_id target) Session.deactivate db,
                   Return "Session terminated successfully")).
    { unfold terminate_session.
      pose proof (target_in_user_sessions now (CurrentUser.email cu) target db)
        as Ht.
      rewrite find_existsb, Ho in Ht.
      destruct (find _ (DatabaseSessionStore.get_user_sessions now
                          (CurrentUser.email cu) db)); [|discriminate].
      destruct (String.eqb_spec target (CurrentUser.session_id cu));
        [contradiction|].
      unfold SecurityManager.delete_session.
      rewrite (db_delete_issued_state target db Hne Hwf
                 (owned_live_issued now _ target db Ho)).
      reflexivity. }
    rewrite E. cbn [fst].
    destruct (owned_live_true_row now _ target db Ho)
      as (r & Hin & Hid & Hem & Hact & _).
    refine (conj eq_refl (conj _ (conj _ (conj _ (conj _ _))))).
    + exists r. refine (conj Hin (conj Hid (conj Hem (conj Hact _)))).
      rewrite <- Hid at 1.
      exact (update_all_by_id_in target Session.deactivate db r Hin Hid).
    + intros r' Hin' Hid'. apply update_all_by_id_inv in Hin'.
      destruct Hin' as [(r0 & _ & _ & ->)|[_ Hc]];
        [reflexivity|contradiction].
    + intros t. apply db_deactivated_dead.
    + intros r' Hr'. apply update_all_by_id_other; [now intros []|assumption].
    + unfold DatabaseSessionStore.update_all. apply length_map.
  - intros msg Hm.
    destruct (owned_live now (CurrentUser.email cu) target db) eqn:Ho.
    + split; [reflexivity|]. intros He.
      rewrite (Hself He eq_refl) in Hm. discriminate.
    + rewrite (Hnot eq_refl) in Hm. discriminate.
Qed.

Lemma terminate_session_checks_witness :
  let db1 :=
    fst (DatabaseSessionStore.create_session 0 "s1" "alice@example.com"
           (Some 30) []) in
  let db2 :=
    fst (DatabaseSessionStore.create_session 1 "s2" "alice@example.com"
           (Some 30) db1) in
  let db :=
    fst (DatabaseSessionStore.create_session 2 "s3" "bob@example.com"
           (Some 30) db2) in
  let cu :=
    {| CurrentUser.email := "alice@example.com";
       CurrentUser.session_id := "s1";
       CurrentUser.session_data :=
         {| DatabaseSessionStore.user_email := "alice@example.com";
            DatabaseSessionStore.created_at := 0;
            DatabaseSessionStore.expires_at := 1800;
            DatabaseSessionStore.last_accessed := 10;
            DatabaseSessionStore.session_id := "s1" |} |} in
  terminate_session 10 "s3" cu db = (db, Raise session_not_found)
  /\ terminate_session 10 "unknown" cu db = (db, Raise session_not_found)
  /\ terminate_session 10 "s1" cu db = (db, Raise cannot_terminate_current)
  /\ snd (terminate_session 10 "s2" cu db)
     = Return "Session terminated successfully"
  /\ (forall r',
         In r' (fst (terminate_session 10 "s2" cu db)) ->
         Session.session_id r' = "s2" -> Session.is_active r' = false)
  /\ (forall t, db_live t "s2" (fst (terminate_session 10 "s2" cu db)) = false)
  /\ (forall r',
         Session.session_id r' <> "s2" ->
         In r' (fst (terminate_session 10 "s2" cu db)) <-> In r' db).
Proof.
  cbv zeta.
  match goal with
  | |- terminate_session _ _ ?c ?d = _ /\ _ =>
      assert (Hwf : db_wf d)
        by (repeat constructor; simpl; intuition discriminate);
      destruct (terminate_session_checks 10 "s3" c d Hwf) as (_ & _ & A & _);
      destruct (terminate_session_checks 10 "unknown" c d Hwf) as (_ & B & _);
      destruct (terminate_session_checks 10 "s1" c d Hwf)
        as (_ & _ & _ & C & _);
      destruct (terminate_session_checks 10 "s2" c d Hwf)
        as (_ & _ & _ & _ & _ & D & _)
  end.
  assert (H1 : "s2" <> "") by discriminate.
  match type of D with
  | _ -> ?c <> _ -> _ =>
      assert (H2 : c <> "s1") by discriminate
  end.
  destruct (D H1 H2 eq_refl) as (D1 & _ & D3 & D4 & D5 & _).
  refine (conj _ (conj _ (conj _ (conj _ (conj D3 (conj D4 D5)))))).
  - eapply A; [right; right; left; reflexivity|reflexivity|discriminate].
  - apply B. reflexivity.
  - apply C; reflexivity.
  - now rewrite D1.
Defined.

(** ** Logging a principal out everywhere *)

(** C9, as stated, on an expired record.  A record created for
    "bob@example.com" at instant 0 with a lifetime of 30 minutes is not live
    at second 1860 and no call has touched it since: the principal has no live
    record.  Revoking all his records still counts it, returns 1, and (in the
    persistent backend) flips its flag. *)
Lemma revoke_all_counts_expired_record :
  let db0 :=
    fst (DatabaseSessionStore.create_session 0 "s1" "bob@example.com"
           (Some 30) []) in
  let st0 :=
    fst (SessionStore.create_session 0 "s1" "bob@example.com" 30
           (SessionStore.init 0)) in
  db_live 1860 "s1" db0 = false
  /\ DatabaseSessionStore.get_user_sessions 1860 "bob@example.com" db0 = []
  /\ snd (DatabaseSessionStore.delete_all_user_sessions "bob@example.com" db0)
     = 1
  /\ map Session.is_active db0 = [true]
  /\ map Session.is_active
       (fst (DatabaseSessionStore.delete_all_user_sessions "bob@example.com"
               db0)) = [false]
  /\ mem_live 1860 "s1" (SessionStore._sessions st0) = false
  /\ SessionStore.get_user_sessions 1860 "bob@example.com" st0 = []
  /\ snd (SessionStore.delete_user_sessions "bob@example.com" st0) = 1.
Proof. vm_compute. repeat split; reflexivity. Qed.

Lemma db_delete_all_rows email db :
  fst (DatabaseSessionStore.delete_all_user_sessions email db)
  = map (fun r => if String.eqb (Session.user_email r) email
                  then Session.deactivate r else r) db.
Proof.
  unfold DatabaseSessionStore.delete_all_user_sessions,
    DatabaseSessionStore.update_all. simpl.
  apply map_ext. intros r. unfold DatabaseSessionStore.active_by_email.
  destruct (String.eqb (Session.user_email r) email); simpl; [|reflexivity].
  destruct (Session.is_active r) eqn:E; [reflexivity|].
  symmetry. now apply deactivate_inactive.
Qed.

Lemma active_by_email_after_deactivate email q r :
  DatabaseSessionStore.active_by_email q
    (if String.eqb (Session.user_email r) email then Session.deactivate r else r)
  = negb (String.eqb q email) && DatabaseSessionStore.active_by_email q r.
Proof.
  unfold DatabaseSessionStore.active_by_email.
  destruct (String.eqb_spec (Session.user_email r) email) as [He|He];
    destruct (String.eqb_spec q email) as [Hq|Hq];
    destruct (String.eqb_spec (Session.user_email r) q) as [Hr|Hr];
    simpl; try congruence; try reflexivity;
    try (now rewrite andb_false_r);
    destruct (String.eqb_spec (Session.user_email r) q); congruence.
Qed.

Lemma db_active_after_delete_all email q db :
  filter (DatabaseSessionStore.active_by_email q)
    (fst (DatabaseSessionStore.delete_all_user_sessions email db))
  = if String.eqb q email then []
    else filter (DatabaseSessionStore.active_by_email q) db.
Proof.
  rewrite db_delete_all_rows.
  induction db as [|r db IH]; simpl.
  - now destruct (String.eqb q email).
  - rewrite active_by_email_after_deactivate, IH.
    destruct (String.eqb_spec q email) as [Hq|Hq]; simpl; [reflexivity|].
    destruct (DatabaseSessionStore.active_by_email q r) eqn:E; [|reflexivity].
    f_equal. unfold DatabaseSessionStore.active_by_email in E.
    apply andb_true_iff in E. destruct E as [E _]. apply String.eqb_eq in E.
    destruct (String.eqb_spec (Session.user_email r) email); congruence.
Qed.

Lemma db_user_sessions_after_delete_all now email q db :
  DatabaseSessionStore.get_user_sessions now q
    (fst (DatabaseSessionStore.delete_all_user_sessions email db))
  = if String.eqb q email then []
    else DatabaseSessionStore.get_user_sessions now q db.
Proof.
  unfold DatabaseSessionStore.get_user_sessions, DatabaseSessionStore.query_all.
  rewrite db_active_after_delete_all.
  now destruct (String.eqb q email).
Qed.

Lemma mem_delete_user_sessions_state email st :
  NoDup (SessionStore.keys (SessionStore._sessions st)) ->
  SessionStore._sessions (fst (SessionStore.delete_user_sessions email st))
  = filter (fun kv => negb (String.eqb (SessionStore.user_email (snd kv)) email))
      (SessionStore._sessions st).
Proof.
  intros ND. unfold SessionStore.delete_user_sessions. simpl.
  now rewrite fold_del_filter.
Qed.

Lemma mem_user_sessions_after_delete now email q st :
  NoDup (SessionStore.keys (SessionStore._sessions st)) ->
  SessionStore.get_user_sessions now q
    (fst (SessionStore.delete_user_sessions email st))
  = if String.eqb q email then []
    else SessionStore.get_user_sessions now q st.
Proof.
  intros ND. unfold SessionStore.get_user_sessions.
  rewrite mem_delete_user_sessions_state by assumption.
  clear ND. induction (SessionStore._sessions st) as [|[k v] d IH]; simpl.
  - now destruct (String.eqb q email).
  - destruct (String.eqb_spec (SessionStore.user_email v) email) as [He|He];
      simpl.
    + destruct (String.eqb_spec q email) as [Hq|Hq]; [exact IH|].
      destruct (String.eqb_spec (SessionStore.user_email v) q); [congruence|].
      simpl. exact IH.
    + destruct (String.eqb_spec q email) as [Hq|Hq].
      * destruct (String.eqb_spec (SessionStore.user_email v) q); [congruence|].
        simpl. exact IH.
      * destruct (String.eqb (SessionStore.user_email v) q
                  && (now <=? SessionStore.expires_at v)); simpl;
          [now rewrite IH|exact IH].
Qed.

Lemma db_live_sessions_le_active now email db :
  (List.length (DatabaseSessionStore.get_user_sessions now email db)
   <= List.length
        (DatabaseSessionStore.query_all
           (DatabaseSessionStore.active_by_email email) db))%nat.
Proof.
  unfold DatabaseSessionStore.get_user_sessions. rewrite length_map.
  apply filter_length_le.
Qed.

Lemma mem_live_sessions_le_held now email st :
  (List.length (SessionStore.get_user_sessions now email st)
   <= List.length
        (filter (fun kv => String.eqb (SessionStore.user_email (snd kv)) email)
           (SessionStore._sessions st)))%nat.
Proof.
  unfold SessionStore.get_user_sessions. rewrite length_map.
  induction (SessionStore._sessions st) as [|[k v] d IH]; simpl; [lia|].
  destruct (String.eqb (SessionStore.user_email v) email); simpl.
  - destruct (now <=? SessionStore.expires_at v); simpl; lia.
  - exact IH.
Qed.

(** C9, amended.  Revoking all records of a principal [email]:
    - in the persistent backend, every row of [email] ends inactive and is
      otherwise as before, and every row of another principal is as before,
      at its place; the count returned is the number of rows of [email] that
      were flagged active, expired or not;
    - in the volatile backend, the records of [email] are dropped and the
      others stay, in their order, as they were; the count returned is the
      number of records of [email] that were held, expired or not;
    - in both, the live records of [email] are among those counted, [email]
      has no live record afterwards, and the live records listed for any
      other principal are the same before and after, at every instant. *)
Theorem revoke_all_by_principal_frame email st db :
  NoDup (SessionStore.keys (SessionStore._sessions st)) ->
  let db' := fst (DatabaseSessionStore.delete_all_user_sessions email db) in
  let n := snd (DatabaseSessionStore.delete_all_user_sessions email db) in
  let st' := fst (SessionStore.delete_user_sessions email st) in
  let k := snd (SessionStore.delete_user_sessions email st) in
  db' = map (fun r => if String.eqb (Session.user_email r) email
                      then Session.deactivate r else r) db
  /\ (forall i r, nth_error db i = Some r ->
                  Session.user_email r <> email -> nth_error db' i = Some r)
  /\ (forall r, In r db' -> Session.user_email r = email ->
                Session.is_active r = false)
  /\ n = Z.of_nat
           (List.length
              (filter (fun r => String.eqb (Session.user_email r) email
                                && Session.is_active r) db))
  /\ (forall now,
         Z.of_nat
           (List.length (DatabaseSessionStore.get_user_sessions now email db))
         <= n)
  /\ (forall now q,
         DatabaseSessionStore.get_user_sessions now q db'
         = if String.eqb q email then []
           else DatabaseSessionStore.get_user_sessions now q db)
  /\ SessionStore._sessions st'
     = filter
         (fun kv => negb (String.eqb (SessionStore.user_email (snd kv)) email))
         (SessionStore._sessions st)
  /\ k = Z.of_nat
           (List.length
              (filter
                 (fun kv => String.eqb (SessionStore.user_email (snd kv)) email)
                 (SessionStore._sessions st)))
  /\ (forall now,
         Z.of_nat (List.length (SessionStore.get_user_sessions now email st))
         <= k)
  /\ (forall now q,
         SessionStore.get_user_sessions now q st'
         = if String.eqb q email then []
           else SessionStore.get_user_sessions now q st).
Proof.
  intros ND db' n st' k. subst db' n st' k.
  refine (conj _ (conj _ (conj _ (conj _ (conj _ (conj _
           (conj _ (conj _ (conj _ _))))))))).
  - apply db_delete_all_rows.
  - intros i r Hi Hr. rewrite db_delete_all_rows.
    rewrite nth_error_map, Hi. simpl.
    destruct (String.eqb_spec (Session.user_email r) email); congruence.
  - intros r Hin He. rewrite db_delete_all_rows in Hin.
    apply in_map_iff in Hin. destruct Hin as (r0 & Hr0 & _).
    destruct (String.eqb_spec (Session.user_email r0) email) as [E|E].
    + subst r. reflexivity.
    + subst r0. contradiction.
  - reflexivity.
  - intros now. unfold DatabaseSessionStore.delete_all_user_sessions.
    cbn [snd]. apply Nat2Z.inj_le. apply db_live_sessions_le_active.
  - intros now q. apply db_user_sessions_after_delete_all.
  - now apply mem_delete_user_sessions_state.
  - unfold SessionStore.delete_user_sessions. cbn [snd].
    now rewrite length_map.
  - intros now. unfold SessionStore.delete_user_sessions. cbn [snd].
    rewrite length_map. apply Nat2Z.inj_le. apply mem_live_sessions_le_held.
  - intros now q. now apply mem_user_sessions_after_delete.
Qed.

Lemma revoke_all_by_principal_frame_witness :
  let db1 :=
    fst (DatabaseSessionStore.create_session 0 "s1" "bob@example.com"
           (Some 30) []) in
  let db2 :=
    fst (DatabaseSessionStore.create_session 0 "s2" "alice@example.com"
           (Some 30) db1) in
  let db :=
    fst (DatabaseSessionStore.create_session 0 "s3" "bob@example.com"
           (Some 30) db2) in
  let st1 :=
    fst (SessionStore.create_session 0 "s1" "bob@example.com" 30
           (SessionStore.init 0)) in
  let st2 := fst (SessionStore.create_session 0 "s2" "alice@example.com" 30 st1) in
  let st := fst (SessionStore.create_session 0 "s3" "bob@example.com" 30 st2) in
  DatabaseSessionStore.get_user_sessions 5 "alice@example.com"
    (fst (DatabaseSessionStore.delete_all_user_sessions "bob@example.com" db))
  = (if String.eqb "alice@example.com" "bob@example.com" then []
     else DatabaseSessionStore.get_user_sessions 5 "alice@example.com" db)
  /\ SessionStore.get_user_sessions 5 "alice@example.com"
       (fst (SessionStore.delete_user_sessions "bob@example.com" st))
     = (if String.eqb "alice@example.com" "bob@example.com" then []
        else SessionStore.get_user_sessions 5 "alice@example.com" st).
Proof.
  cbv zeta.
  match goal with
  | |- DatabaseSessionStore.get_user_sessions _ _
         (fst (DatabaseSessionStore.delete_all_user_sessions _ ?d)) = _
       /\ SessionStore.get_user_sessions _ _
            (fst (SessionStore.delete_user_sessions _ ?s)) = _ =>
      assert (ND : NoDup (SessionStore.keys (SessionStore._sessions s)))
        by (repeat constructor; simpl; intuition discriminate);
      destruct (revoke_all_by_principal_frame "bob@example.com" s d ND)
        as (_ & _ & _ & _ & _ & A & _ & _ & _ & B)
  end.
  split; [apply A|apply B].
Defined.

(** ** The two backends, side by side *)

Lemma live_row_later now now' r :
  now <= now' -> live_row now r = false -> live_row now' r = false.
Proof.
  unfold live_row. intros Hle H. apply andb_false_iff in H.
  apply andb_false_iff. destruct H as [H|H]; [now left|right].
  zbool. lia.
Qed.

Lemma live_row_row_of now k v :
  live_row now (row_of k v) = (now <=? SessionStore.expires_at v).
Proof. reflexivity. Qed.






Lemma db_live_cons now s r db :
  db_live now s (r :: db)
  = (DatabaseSessionStore.by_id s r && live_row now r) || db_live now s db.
Proof. reflexivity. Qed.


Lemma by_id_row_of s k v :
  DatabaseSessionStore.by_id s (row_of k v) = String.eqb k s.
Proof. reflexivity. Qed.




Lemma update_all_cons p f r db :
  DatabaseSessionStore.update_all p f (r :: db)
  = (if p r then f r else r) :: DatabaseSessionStore.update_all p f db.
Proof. reflexivity. Qed.


Lemma live_row_deactivate now r : live_row now (Session.deactivate r) = false.
Proof. reflexivity. Qed.




Lemma sids_cleanup now db :
  sids (DatabaseSessionStore._cleanup_expired_sessions now db) = sids db.
Proof.
  unfold DatabaseSessionStore._cleanup_expired_sessions.
  destruct (0 <? _); [|reflexivity].
  apply sids_update_all. now intros [].
Qed.



(** ** One call on both backends *)

Lemma db_extend_live now sid minutes db :
  sid <> "" -> db_wf db -> db_live now sid db = true ->
  DatabaseSessionStore.extend_session now (Some sid) minutes db
  = (DatabaseSessionStore.update_all (DatabaseSessionStore.by_id sid)
       (Session.extend_session now minutes) db,
     true).
Proof.
  intros Hne Hwf Hl.
  destruct (db_live_true_row now sid db Hl) as (r & Hin & Hid & Hr).
  unfold live_row in Hr. apply andb_true_iff in Hr. destruct Hr as [Hact Hexp].
  unfold DatabaseSessionStore.extend_session. rewrite (truthy_nonempty sid Hne).
  unfold DatabaseSessionStore.query_first.
  rewrite (find_active_unique sid db r Hwf Hin Hid Hact).
  unfold Session.is_expired.
  destruct (now >? Session.expires_at r) eqn:E; [zbool; lia|]. simpl.
  now rewrite (update_first_active_by_id sid _ db r Hwf Hin Hid Hact).
Qed.

Lemma db_delete_not_issued sid db :
  issued sid db = false ->
  DatabaseSessionStore.delete_session (Some sid) db = (db, false).
Proof.
  intros Hi. unfold DatabaseSessionStore.delete_session.
  destruct (truthy (Some sid)) as [s|] eqn:Et; [|reflexivity].
  apply truthy_some in Et. destruct Et as [[= <-] _].
  unfold DatabaseSessionStore.query_first.
  unfold issued in Hi. rewrite find_existsb in Hi.
  destruct (find (DatabaseSessionStore.by_id sid) db); [discriminate|reflexivity].
Qed.





















(** ** The persistent backend never revives a record *)

Lemma db_live_later now now' sid db :
  now <= now' -> db_live now sid db = false -> db_live now' sid db = false.
Proof.
  intros Hle. unfold db_live. induction db as [|r db IH]; simpl; [auto|].
  intros H. apply orb_false_iff in H. destruct H as [Hh Ht].
  rewrite (IH Ht), orb_false_r.
  destruct (DatabaseSessionStore.by_id sid r); [|reflexivity].
  simpl in *. eapply live_row_later; eauto.
Qed.

Lemma db_live_app now sid db db' :
  db_live now sid (db ++ db') = db_live now sid db || db_live now sid db'.
Proof. unfold db_live. apply existsb_app. Qed.

Lemma db_live_after_deactivate now sid p db :
  db_live now sid db = false ->
  db_live now sid (DatabaseSessionStore.update_all p Session.deactivate db)
  = false.
Proof.
  induction db as [|r db IH]; [auto|].
  rewrite update_all_cons, !db_live_cons. intros H.
  apply orb_false_iff in H. destruct H as [Hh Ht]. rewrite (IH Ht), orb_false_r.
  destruct (p r); [|assumption].
  rewrite live_row_deactivate. apply andb_false_r.
Qed.

Lemma db_live_other_id now sid s f db :
  sid <> s ->
  (forall r, Session.session_id (f r) = Session.session_id r) ->
  db_live now sid
    (DatabaseSessionStore.update_all (DatabaseSessionStore.by_id s) f db)
  = db_live now sid db.
Proof.
  intros Hne Hf. induction db as [|r db IH]; [reflexivity|].
  rewrite update_all_cons, !db_live_cons, IH. f_equal.
  destruct (DatabaseSessionStore.by_id s r) eqn:E; [|reflexivity].
  unfold DatabaseSessionStore.by_id in *. rewrite Hf.
  apply String.eqb_eq in E. rewrite E.
  destruct (String.eqb_spec s sid); [congruence|reflexivity].
Qed.

Lemma db_live_after_cleanup now now' sid db :
  db_live now sid db = false ->
  db_live now sid (DatabaseSessionStore._cleanup_expired_sessions now' db)
  = false.
Proof.
  intros H. unfold DatabaseSessionStore._cleanup_expired_sessions.
  destruct (0 <? _); [|assumption]. now apply db_live_after_deactivate.
Qed.

Lemma db_get_sids now sid db :
  sids (fst (DatabaseSessionStore.get_session now sid db)) = sids db.
Proof.
  unfold DatabaseSessionStore.get_session.
  destruct (truthy sid) as [s|]; [|reflexivity].
  destruct (DatabaseSessionStore.query_first _ db) as [r|]; [|reflexivity].
  destruct (Session.is_expired now r); cbn [fst].
  - unfold DatabaseSessionStore.delete_session. simpl.
    destruct (String.eqb s ""); [reflexivity|].
    destruct (DatabaseSessionStore.query_first _ db); [|reflexivity].
    cbn [fst]. apply sids_update_first. now intros [].
  - apply sids_update_first. now intros [].
Qed.

Lemma db_get_none_sids now sid db :
  sids (fst (DatabaseSessionStore.get_session_db_none now sid db)) = sids db.
Proof.
  destruct (db_get_none_table now sid db) as [->| ->];
    [reflexivity|apply db_get_sids].
Qed.

Lemma db_step_sids now o db :
  sids (fst (db_step now o db)) = sids db
  \/ exists sid email ttl,
      o = Create sid email ttl /\ issued sid db = false
      /\ sids (fst (db_step now o db)) = sids db ++ [sid].
Proof.
  destruct o as [sid email ttl|sid|sid m|sid|email|email|sid]; cbn [db_step].
  - unfold DatabaseSessionStore.create_session. fold (issued sid db).
    destruct (issued sid db) eqn:Hi; cbn [fst]; [now left|].
    right. exists sid, email, ttl. refine (conj eq_refl (conj Hi _)).
    rewrite sids_cleanup. unfold sids. now rewrite map_app.
  - left. pose proof (db_get_sids now sid db) as E.
    now destruct (DatabaseSessionStore.get_session now sid db).
  - left. unfold DatabaseSessionStore.extend_session.
    destruct (truthy sid) as [s|]; [|reflexivity].
    destruct (DatabaseSessionStore.query_first _ db) as [r|]; [|reflexivity].
    destruct (negb (Session.is_expired now r)); cbn [fst]; [|reflexivity].
    apply sids_update_first. now intros [].
  - left. unfold DatabaseSessionStore.delete_session.
    destruct (truthy sid) as [s|]; [|reflexivity].
    destruct (DatabaseSessionStore.query_first _ db); [|reflexivity].
    cbn [fst]. apply sids_update_first. now intros [].
  - now left.
  - left. cbn [fst DatabaseSessionStore.delete_all_user_sessions].
    apply sids_update_all. now intros [].
  - left. pose proof (db_get_none_sids now sid db) as E.
    now destruct (DatabaseSessionStore.get_session_db_none now sid db).
Qed.

Lemma db_step_wf now o db : db_wf db -> db_wf (fst (db_step now o db)).
Proof.
  unfold db_wf. intros Hwf.
  destruct (db_step_sids now o db) as [->|(sid & email & ttl & _ & Hi & ->)];
    [assumption|].
  apply NoDup_app; [assumption|repeat constructor; tauto|].
  intros x Hx [<-|[]]. apply issued_In in Hx. congruence.
Qed.

Lemma db_step_issued now o sid db :
  issued sid db = true -> issued sid (fst (db_step now o db)) = true.
Proof.
  rewrite !issued_In.
  destruct (db_step_sids now o db) as [->|(s & email & ttl & _ & _ & ->)];
    [auto|].
  rewrite in_app_iff. auto.
Qed.

Lemma db_get_keeps_dead now s sid db :
  db_wf db -> db_live now sid db = false ->
  db_live now sid (fst (DatabaseSessionStore.get_session now s db)) = false.
Proof.
  intros Hwf Hd. destruct (truthy s) as [s'|] eqn:Et.
  - apply truthy_some in Et. destruct Et as [-> Hne].
    destruct (db_live now s' db) eqn:Hl.
    + destruct (db_get_live now s' db Hne Hwf Hl) as (r & _ & _ & _ & ->).
      cbn [fst]. rewrite db_live_other_id; [assumption| |now intros []].
      intros ->. congruence.
    + rewrite (db_get_dead now s' db Hne Hwf Hl). cbn [fst].
      now apply db_live_after_deactivate.
  - unfold DatabaseSessionStore.get_session. now rewrite Et.
Qed.

(** One call of the persistent backend, made at or after the instant a
    record was found dead, leaves it dead. *)
Lemma db_step_keeps_dead now now' o sid db :
  db_wf db -> now <= now' -> issued sid db = true ->
  db_live now sid db = false ->
  db_live now' sid (fst (db_step now' o db)) = false.
Proof.
  intros Hwf Hle Hi Hd0.
  pose proof (db_live_later now now' sid db Hle Hd0) as Hd. clear Hd0.
  destruct o as [s email ttl|s|s m|s|email|email|s]; cbn [db_step].
  - unfold DatabaseSessionStore.create_session. fold (issued s db).
    destruct (issued s db) eqn:Hs; cbn [fst]; [assumption|].
    apply db_live_after_cleanup. rewrite db_live_app, Hd.
    unfold db_live. simpl. unfold DatabaseSessionStore.by_id. simpl.
    destruct (String.eqb_spec s sid); [congruence|reflexivity].
  - pose proof (db_get_keeps_dead now' s sid db Hwf Hd) as E.
    now destruct (DatabaseSessionStore.get_session now' s db).
  - destruct (truthy s) as [s'|] eqn:Et.
    + apply truthy_some in Et. destruct Et as [-> Hne].
      destruct (db_live now' s' db) eqn:Hl.
      * rewrite (db_extend_live now' s' m db Hne Hwf Hl). cbn [fst].
        rewrite db_live_other_id; [assumption| |now intros []].
        intros ->. congruence.
      * now rewrite (db_extend_dead now' s' m db Hl).
    + unfold DatabaseSessionStore.extend_session. now rewrite Et.
  - destruct (truthy s) as [s'|] eqn:Et.
    + apply truthy_some in Et. destruct Et as [-> Hne].
      destruct (issued s' db) eqn:Hs.
      * rewrite (db_delete_issued_state s' db Hne Hwf Hs). cbn [fst].
        now apply db_live_after_deactivate.
      * now rewrite (db_delete_not_issued s' db Hs).
    + unfold DatabaseSessionStore.delete_session. now rewrite Et.
  - assumption.
  - cbn [fst DatabaseSessionStore.delete_all_user_sessions].
    now apply db_live_after_deactivate.
  - assert (E : db_live now' sid
                  (fst (DatabaseSessionStore.get_session_db_none now' s db))
                = false).
    { destruct (db_get_none_table now' s db) as [->| ->];
        [assumption|now apply db_get_keeps_dead]. }
    now destruct (DatabaseSessionStore.get_session_db_none now' s db).
Qed.

(** Liveness is monotone in the persistent backend: whatever calls follow,
    under a clock that does not run backwards, a record found dead stays
    dead; in particular [extend_session] on it fails and changes nothing. *)
Lemma db_dead_stays_dead tr :
  forall now sid db,
    db_wf db -> clock_monotone now tr = true -> issued sid db = true ->
    db_live now sid db = false ->
    db_live (final_instant now tr) sid (db_exec tr db) = false.
Proof.
  induction tr as [|[now' o] tr IH]; intros now sid db Hwf Hm Hi Hd;
    [assumption|].
  cbn [clock_monotone] in Hm. apply andb_true_iff in Hm.
  destruct Hm as [Hle Hm]. zbool.
  cbn [db_exec final_instant]. apply IH.
  - now apply db_step_wf.
  - assumption.
  - now apply db_step_issued.
  - eapply db_step_keeps_dead; eauto.
Qed.

(** ** The handler registered first on the route *)

(** [extend_session] (line 169) reads no body: on a live session it moves
    the expiry to [now] plus 30 minutes, whatever [minutes] the request
    carries. *)
Lemma first_handler_extends_by_30 now cu db :
  CurrentUser.session_id cu <> "" -> db_wf db ->
  db_live now (CurrentUser.session_id cu) db = true ->
  extend_session now cu db
  = (DatabaseSessionStore.update_all
       (DatabaseSessionStore.by_id (CurrentUser.session_id cu))
       (Session.extend_session now 30) db,
     Return 1800).
Proof.
  intros Hne Hwf Hl. unfold extend_session, SecurityManager.extend_session.
  cbn [SecurityManager.accepts SecurityManager.extend_session_attr
         SecurityManager.body fst snd].
  change (SecurityManager.accepts SecurityManager.extend_session_attr 1 [])
    with true. cbv iota.
  change (SecurityManager.body SecurityManager.extend_session_attr now
            (Some (CurrentUser.session_id cu)) None db)
    with (DatabaseSessionStore.extend_session now
            (Some (CurrentUser.session_id cu)) 30 db).
  now rewrite (db_extend_live now _ 30 db Hne Hwf Hl).
Qed.

(** * Further properties of the session layer *)

(** ** The sweep of the persistent backend *)

Lemma cleanup_is_update_all now db :
  DatabaseSessionStore._cleanup_expired_sessions now db
  = DatabaseSessionStore.update_all (DatabaseSessionStore.expired_active now)
      Session.deactivate db.
Proof.
  unfold DatabaseSessionStore._cleanup_expired_sessions,
    DatabaseSessionStore.query_all.
  destruct (0 <? _) eqn:E; [reflexivity|].
  symmetry. apply update_all_none. intros r Hin Hp. exfalso.
  assert (Hf : In r (filter (DatabaseSessionStore.expired_active now) db))
    by (apply filter_In; auto).
  destruct (filter (DatabaseSessionStore.expired_active now) db);
    [contradiction|]. simpl in E. zbool. lia.
Qed.

Lemma live_row_swept now now' r :
  now <= now' ->
  live_row now'
    (if DatabaseSessionStore.expired_active now r
     then Session.deactivate r else r)
  = live_row now' r.
Proof.
  intros Hle. destruct (DatabaseSessionStore.expired_active now r) eqn:E;
    [|reflexivity].
  rewrite live_row_deactivate. symmetry.
  unfold DatabaseSessionStore.expired_active in E.
  apply andb_true_iff in E. destruct E as [E _].
  unfold live_row. apply andb_false_iff. right. zbool. lia.
Qed.

Lemma db_live_cleanup_later now now' sid db :
  now <= now' ->
  db_live now' sid (DatabaseSessionStore._cleanup_expired_sessions now db)
  = db_live now' sid db.
Proof.
  intros Hle. rewrite cleanup_is_update_all.
  induction db as [|r db IH]; [reflexivity|].
  rewrite update_all_cons, !db_live_cons, IH. f_equal.
  rewrite (live_row_swept now now' r Hle). f_equal.
  destruct (DatabaseSessionStore.expired_active now r); reflexivity.
Qed.

Lemma user_sessions_cleanup_later now now' email db :
  now <= now' ->
  DatabaseSessionStore.get_user_sessions now' email
    (DatabaseSessionStore._cleanup_expired_sessions now db)
  = DatabaseSessionStore.get_user_sessions now' email db.
Proof.
  intros Hle. rewrite cleanup_is_update_all.
  unfold DatabaseSessionStore.get_user_sessions, DatabaseSessionStore.query_all.
  induction db as [|r db IH]; [reflexivity|].
  rewrite update_all_cons. cbn [filter].
  destruct (DatabaseSessionStore.expired_active now r) eqn:E.
  - unfold DatabaseSessionStore.active_by_email at 1. simpl.
    rewrite andb_false_r.
    unfold DatabaseSessionStore.expired_active in E.
    apply andb_true_iff in E. destruct E as [E Ea].
    destruct (DatabaseSessionStore.active_by_email email r); [|exact IH].
    cbn [filter]. unfold Session.is_expired at 2.
    destruct (now' >? Session.expires_at r) eqn:E'; [exact IH|].
    zbool. lia.
  - destruct (DatabaseSessionStore.active_by_email email r); [|exact IH].
    cbn [filter]. destruct (negb (Session.is_expired now' r)); [|exact IH].
    cbn [map]. now rewrite IH.
Qed.

Lemma cleanup_leaves_no_expired_active now db r :
  In r (DatabaseSessionStore._cleanup_expired_sessions now db) ->
  Session.is_active r = true -> now <= Session.expires_at r.
Proof.
  rewrite cleanup_is_update_all. unfold DatabaseSessionStore.update_all.
  intros Hin Ha. apply in_map_iff in Hin. destruct Hin as (r0 & Hr & _).
  destruct (DatabaseSessionStore.expired_active now r0) eqn:E.
  - subst r. discriminate.
  - subst r0. unfold DatabaseSessionStore.expired_active in E.
    rewrite Ha, andb_true_r in E. zbool. lia.
Qed.

Lemma cleanup_idempotent now db :
  DatabaseSessionStore._cleanup_expired_sessions now
    (DatabaseSessionStore._cleanup_expired_sessions now db)
  = DatabaseSessionStore._cleanup_expired_sessions now db.
Proof.
  rewrite (cleanup_is_update_all now
             (DatabaseSessionStore._cleanup_expired_sessions now db)).
  apply update_all_none. intros r Hin Hp. exfalso.
  unfold DatabaseSessionStore.expired_active in Hp.
  apply andb_true_iff in Hp. destruct Hp as [Hp Ha].
  pose proof (cleanup_leaves_no_expired_active now db r Hin Ha).
  zbool. lia.
Qed.

(** X1.  The sweep of the persistent backend, run at instant [now], is not
    seen by any later reader: at every instant from [now] on, each
    identifier is live after the sweep exactly if it was live before, and
    every principal is listed the same sessions.  After it no row is both
    flagged active and expired, no identifier is lost, and a second sweep at
    the same instant changes nothing. *)
Theorem persistent_sweep_is_invisible now now' db :
  now <= now' ->
  let db' := DatabaseSessionStore._cleanup_expired_sessions now db in
  (forall sid, db_live now' sid db' = db_live now' sid db)
  /\ (forall email,
         DatabaseSessionStore.get_user_sessions now' email db'
         = DatabaseSessionStore.get_user_sessions now' email db)
  /\ (forall r, In r db' -> Session.is_active r = true ->
                now <= Session.expires_at r)
  /\ sids db' = sids db
  /\ DatabaseSessionStore._cleanup_expired_sessions now db' = db'.
Proof.
  intros Hle db'. subst db'.
  refine (conj _ (conj _ (conj _ (conj _ _)))).
  - intros sid. now apply db_live_cleanup_later.
  - intros email. now apply user_sessions_cleanup_later.
  - apply cleanup_leaves_no_expired_active.
  - apply sids_cleanup.
  - apply cleanup_idempotent.
Qed.

Lemma persistent_sweep_is_invisible_witness :
  let db1 :=
    fst (DatabaseSessionStore.create_session 0 "s1" "bob@example.com"
           (Some 1) []) in
  let db :=
    fst (DatabaseSessionStore.create_session 10 "s2" "bob@example.com"
           (Some 30) db1) in
  let db' := DatabaseSessionStore._cleanup_expired_sessions 100 db in
  map Session.is_active db = [true; true]
  /\ map Session.is_active db' = [false; true]
  /\ (forall sid, db_live 200 sid db' = db_live 200 sid db)
  /\ (forall email,
         DatabaseSessionStore.get_user_sessions 200 email db'
         = DatabaseSessionStore.get_user_sessions 200 email db).
Proof.
  cbv zeta.
  refine (conj eq_refl (conj eq_refl _)).
  assert (H : 100 <= 200) by lia.
  match goal with
  | |- (forall sid, _ = db_live _ _ ?d) /\ _ =>
      destruct (persistent_sweep_is_invisible 100 200 d H) as (A & B & _)
  end.
  split; [exact A|exact B].
Defined.

(** ** Creating a session and finding it again *)

Lemma db_create_fresh now sid email ttl db :
  issued sid db = false -> 0 <= ttl ->
  DatabaseSessionStore.create_session now sid email (Some ttl) db
  = (DatabaseSessionStore._cleanup_expired_sessions now db
       ++ [row_of sid
             {| SessionStore.user_email := email;
                SessionStore.created_at := now;
                SessionStore.expires_at := now + timedelta_minutes ttl;
                SessionStore.last_accessed := now |}],
     Return sid).
Proof.
  intros Hi Httl. unfold DatabaseSessionStore.create_session.
  fold (issued sid db). rewrite Hi. f_equal.
  rewrite !cleanup_is_update_all. unfold DatabaseSessionStore.update_all.
  rewrite map_app. f_equal. cbn [map]. f_equal.
  unfold DatabaseSessionStore.expired_active. cbn [Session.expires_at].
  destruct (now + timedelta_minutes ttl <? now) eqn:E; [|reflexivity].
  unfold timedelta_minutes in E. zbool. lia.
Qed.

Lemma db_wf_snoc db r :
  db_wf db -> issued (Session.session_id r) db = false -> db_wf (db ++ [r]).
Proof.
  unfold db_wf, sids. intros Hwf Hi. rewrite map_app. simpl.
  apply NoDup_app; [assumption|repeat constructor; tauto|].
  intros x Hx [<-|[]]. apply issued_In in Hx. congruence.
Qed.

Lemma issued_cleanup now sid db :
  issued sid (DatabaseSessionStore._cleanup_expired_sessions now db)
  = issued sid db.
Proof. apply eq_true_iff_eq. now rewrite !issued_In, sids_cleanup. Qed.

Lemma db_wf_cleanup now db :
  db_wf db -> db_wf (DatabaseSessionStore._cleanup_expired_sessions now db).
Proof. unfold db_wf. now rewrite sids_cleanup. Qed.

(** The persistent store right after a session was created: the session is
    live for the whole of its lifetime and dead after it, its row is the only
    one of its identifier, and no other identifier has changed state. *)
Lemma db_after_create now now' sid email ttl db :
  db_wf db -> issued sid db = false -> 0 <= ttl -> now <= now' ->
  let db' :=
    fst (DatabaseSessionStore.create_session now sid email (Some ttl) db) in
  let r :=
    row_of sid
      {| SessionStore.user_email := email;
         SessionStore.created_at := now;
         SessionStore.expires_at := now + timedelta_minutes ttl;
         SessionStore.last_accessed := now |} in
  db_wf db' /\ In r db'
  /\ db_live now' sid db' = (now' <=? now + timedelta_minutes ttl)
  /\ (forall s, s <> sid -> db_live now' s db' = db_live now' s db).
Proof.
  intros Hwf Hi Httl Hle db' r. subst db' r.
  rewrite (db_create_fresh now sid email ttl db Hi Httl). cbn [fst].
  refine (conj _ (conj _ (conj _ _))).
  - apply db_wf_snoc; [now apply db_wf_cleanup|].
    cbn [row_of Session.session_id]. now rewrite issued_cleanup.
  - apply in_or_app. right. now left.
  - rewrite db_live_app, db_live_cleanup_later by assumption.
    rewrite (not_issued_not_live now' sid db Hi).
    unfold db_live. cbn [existsb]. rewrite by_id_row_of, String.eqb_refl.
    rewrite live_row_row_of. cbn [SessionStore.expires_at].
    now rewrite orb_false_r.
  - intros s Hs. rewrite db_live_app, db_live_cleanup_later by assumption.
    unfold db_live at 2. cbn [existsb]. rewrite by_id_row_of.
    destruct (String.eqb_spec sid s); [congruence|]. cbn.
    now rewrite orb_false_r.
Qed.

(** X2.  In the persistent backend, a session created at [now] under a new,
    non-empty identifier with a lifetime of [ttl >= 0] minutes whose expiry
    [now + 60 * ttl] is an instant [datetime] can hold is returned by
    [get_session] at every instant from [now] up to and including
    [now + 60 * ttl], with the principal, creation instant and expiry it was
    given, and by no lookup after that; creating it changes the liveness of
    no other identifier. *)
Theorem persistent_create_then_get now now' sid email ttl db :
  db_wf db -> sid <> "" -> issued sid db = false -> 0 <= ttl -> now <= now' ->
  representable now = true -> representable (now + 60 * ttl) = true ->
  let c := DatabaseSessionStore.create_session now sid email (Some ttl) db in
  snd c = Return sid
  /\ (now' <= now + 60 * ttl ->
      snd (DatabaseSessionStore.get_session now' (Some sid) (fst c))
      = Some {| DatabaseSessionStore.user_email := email;
                DatabaseSessionStore.created_at := now;
                DatabaseSessionStore.expires_at := now + 60 * ttl;
                DatabaseSessionStore.last_accessed := now';
                DatabaseSessionStore.session_id := sid |})
  /\ (now + 60 * ttl < now' ->
      snd (DatabaseSessionStore.get_session now' (Some sid) (fst c)) = None)
  /\ (forall s, s <> sid -> db_live now' s (fst c) = db_live now' s db).
Proof.
  intros Hwf Hne Hi Httl Hle _ _ c. subst c.
  destruct (db_after_create now now' sid email ttl db Hwf Hi Httl Hle)
    as (Hwf' & Hin & Hl & Hframe).
  refine (conj _ (conj _ (conj _ Hframe))).
  - now rewrite (db_create_fresh now sid email ttl db Hi Httl).
  - intros Hw.
    assert (Hl' : db_live now' sid
                    (fst (DatabaseSessionStore.create_session now sid email
                            (Some ttl) db)) = true).
    { rewrite Hl. unfold timedelta_minutes. zbool. lia. }
    destruct (db_get_live now' sid _ Hne Hwf' Hl')
      as (r & Hr & Hid & _ & ->).
    cbn [snd]. f_equal.
    rewrite (db_wf_unique _ r _ Hwf' Hr Hin Hid). reflexivity.
  - intros Hw. apply get_session_dead. rewrite Hl.
    unfold timedelta_minutes. zbool. lia.
Qed.

Lemma persistent_create_then_get_witness :
  let db0 :=
    fst (DatabaseSessionStore.create_session 0 "s1" "bob@example.com"
           (Some 30) []) in
  let c :=
    DatabaseSessionStore.create_session 100 "s2" "alice@example.com"
      (Some 45) db0 in
  snd (DatabaseSessionStore.get_session 2800 (Some "s2") (fst c))
  = Some {| DatabaseSessionStore.user_email := "alice@example.com";
            DatabaseSessionStore.created_at := 100;
            DatabaseSessionStore.expires_at := 100 + 60 * 45;
            DatabaseSessionStore.last_accessed := 2800;
            DatabaseSessionStore.session_id := "s2" |}.
Proof.
  cbv zeta.
  match goal with
  | |- snd (DatabaseSessionStore.get_session _ _
              (fst (DatabaseSessionStore.create_session _ _ _ _ ?d))) = _ =>
      assert (Hwf : db_wf d)
        by (repeat constructor; simpl; intuition discriminate);
      assert (Hne : "s2" <> "") by discriminate;
      assert (Hi : issued "s2" d = false) by reflexivity;
      assert (Httl : 0 <= 45) by lia;
      assert (Hle : 100 <= 2800) by lia;
      destruct (persistent_create_then_get 100 2800 "s2" "alice@example.com"
                  45 d Hwf Hne Hi Httl Hle eq_refl eq_refl) as (_ & A & _)
  end.
  apply A. lia.
Defined.

Lemma dict_get_filter p k d :
  NoDup (SessionStore.keys d) ->
  SessionStore.dict_get k (filter p d)
  = match SessionStore.dict_get k d with
    | Some v => if p (k, v) then Some v else None
    | None => None
    end.
Proof.
  induction d as [|[k' v'] d IH]; simpl; [reflexivity|].
  intros ND. inversion ND as [|? ? Hn ND']; subst.
  destruct (String.eqb_spec k' k) as [->|Hk].
  - destruct (p (k, v')); simpl.
    + now rewrite String.eqb_refl.
    + apply dict_get_notin. intros Hin. apply Hn.
      unfold SessionStore.keys in *. apply in_map_iff in Hin.
      destruct Hin as (kv & <- & Hkv). apply filter_In in Hkv.
      apply in_map. tauto.
  - destruct (p (k', v')); simpl.
    + destruct (String.eqb_spec k' k); [contradiction|auto].
    + auto.
Qed.

Lemma dict_get_del_same k d :
  NoDup (SessionStore.keys d) ->
  SessionStore.dict_get k (SessionStore.dict_del k d) = None.
Proof.
  intros ND. pose proof (dict_del_removes k d ND) as H.
  unfold SessionStore.dict_in in H.
  now destruct (SessionStore.dict_get k (SessionStore.dict_del k d)).
Qed.

(** The sessions the volatile store holds after its sweep. *)
Lemma mem_cleanup_sessions now st :
  NoDup (SessionStore.keys (SessionStore._sessions st)) ->
  SessionStore._sessions (SessionStore._cleanup_expired_sessions now st)
  = if now - SessionStore._last_cleanup st <? SessionStore._cleanup_interval st
    then SessionStore._sessions st
    else filter
           (fun kv => negb (now >? SessionStore.expires_at (snd kv)))
           (SessionStore._sessions st).
Proof.
  intros ND. unfold SessionStore._cleanup_expired_sessions.
  destruct (_ <? _); [reflexivity|]. cbn [SessionStore._sessions].
  now apply fold_del_filter.
Qed.

Lemma mem_live_swept now now' sid d :
  NoDup (SessionStore.keys d) -> now <= now' ->
  mem_live now' sid
    (filter (fun kv => negb (now >? SessionStore.expires_at (snd kv))) d)
  = mem_live now' sid d.
Proof.
  intros ND Hle. unfold mem_live. rewrite dict_get_filter by assumption.
  destruct (SessionStore.dict_get sid d) as [v|]; [|reflexivity].
  cbn [snd]. destruct (now >? SessionStore.expires_at v) eqn:E; [|reflexivity].
  cbn. symmetry. zbool. lia.
Qed.

Lemma mem_live_cleanup_later now now' sid st :
  NoDup (SessionStore.keys (SessionStore._sessions st)) -> now <= now' ->
  mem_live now' sid
    (SessionStore._sessions (SessionStore._cleanup_expired_sessions now st))
  = mem_live now' sid (SessionStore._sessions st).
Proof.
  intros ND Hle. rewrite mem_cleanup_sessions by assumption.
  destruct (_ <? _); [reflexivity|]. now apply mem_live_swept.
Qed.

Lemma mem_get_session_held now sid st v :
  sid <> "" ->
  SessionStore.dict_get sid (SessionStore._sessions st) = Some v ->
  snd (SessionStore.get_session now (Some sid) st)
  = if now <=? SessionStore.expires_at v then Some (mem_touch now v) else None.
Proof.
  intros Hne Hg. unfold SessionStore.get_session.
  rewrite (truthy_nonempty sid Hne), Hg.
  rewrite Z.gtb_ltb, Z.leb_antisym.
  now destruct (SessionStore.expires_at v <? now).
Qed.

(** X3.  In the volatile backend, a session created at [now] under a
    non-empty identifier with a lifetime of [ttl >= 0] minutes whose expiry
    [now + 60 * ttl] is an instant [datetime] can hold is returned by
    [get_session] at every instant from [now] up to and including
    [now + 60 * ttl], with the principal, creation instant and expiry it was
    given, and by no lookup after that, whether or not the sweep ran; creating
    it changes the liveness of no other identifier. *)
Theorem volatile_create_then_get now now' sid email ttl st :
  NoDup (SessionStore.keys (SessionStore._sessions st)) ->
  sid <> "" -> 0 <= ttl -> now <= now' ->
  representable now = true -> representable (now + 60 * ttl) = true ->
  let c := SessionStore.create_session now sid email ttl st in
  snd c = sid
  /\ (now' <= now + 60 * ttl ->
      snd (SessionStore.get_session now' (Some sid) (fst c))
      = Some {| SessionStore.user_email := email;
                SessionStore.created_at := now;
                SessionStore.expires_at := now + 60 * ttl;
                SessionStore.last_accessed := now' |})
  /\ (now + 60 * ttl < now' ->
      snd (SessionStore.get_session now' (Some sid) (fst c)) = None)
  /\ (forall s, s <> sid ->
        mem_live now' s (SessionStore._sessions (fst c))
        = mem_live now' s (SessionStore._sessions st)).
Proof.
  intros ND Hne Httl Hle _ _ c. subst c.
  unfold SessionStore.create_session. cbn [fst snd].
  set (v := {| SessionStore.user_email := email;
               SessionStore.created_at := now;
               SessionStore.expires_at := now + timedelta_minutes ttl;
               SessionStore.last_accessed := now |}).
  set (st1 := SessionStore.with_sessions st
                (SessionStore.dict_set sid v (SessionStore._sessions st))).
  assert (ND1 : NoDup (SessionStore.keys (SessionStore._sessions st1)))
    by (apply nodup_dict_set; exact ND).
  assert (Hg : SessionStore.dict_get sid
                 (SessionStore._sessions
                    (SessionStore._cleanup_expired_sessions now st1))
               = Some v).
  { rewrite mem_cleanup_sessions by assumption.
    destruct (_ <? _); cbn [st1 SessionStore.with_sessions
                              SessionStore._sessions].
    - apply dict_get_set_same.
    - rewrite dict_get_filter by exact ND1.
      cbn [st1 SessionStore.with_sessions SessionStore._sessions].
      rewrite dict_get_set_same. cbn [snd v SessionStore.expires_at].
      destruct (now >? now + timedelta_minutes ttl) eqn:E; [|reflexivity].
      unfold timedelta_minutes in E. zbool. lia. }
  refine (conj eq_refl (conj _ (conj _ _))).
  - intros Hw. rewrite (mem_get_session_held now' sid _ v Hne Hg).
    cbn [v SessionStore.expires_at]. unfold timedelta_minutes.
    destruct (now' <=? now + 60 * ttl) eqn:E; [reflexivity|zbool; lia].
  - intros Hw. rewrite (mem_get_session_held now' sid _ v Hne Hg).
    cbn [v SessionStore.expires_at]. unfold timedelta_minutes.
    destruct (now' <=? now + 60 * ttl) eqn:E; [zbool; lia|reflexivity].
  - intros s Hs. rewrite mem_live_cleanup_later by assumption.
    unfold mem_live. cbn [st1 SessionStore.with_sessions SessionStore._sessions].
    now rewrite dict_get_set_other.
Qed.

Lemma volatile_create_then_get_witness :
  let st0 :=
    fst (SessionStore.create_session 0 "s1" "bob@example.com" 30
           (SessionStore.init 0)) in
  let c := SessionStore.create_session 400 "s2" "alice@example.com" 45 st0 in
  snd (SessionStore.get_session 3100 (Some "s2") (fst c))
  = Some {| SessionStore.user_email := "alice@example.com";
            SessionStore.created_at := 400;
            SessionStore.expires_at := 400 + 60 * 45;
            SessionStore.last_accessed := 3100 |}.
Proof.
  cbv zeta.
  match goal with
  | |- snd (SessionStore.get_session _ _
              (fst (SessionStore.create_session _ _ _ _ ?s))) = _ =>
      assert (ND : NoDup (SessionStore.keys (SessionStore._sessions s)))
        by (repeat constructor; simpl; intuition discriminate);
      assert (Hne : "s2" <> "") by discriminate;
      assert (Httl : 0 <= 45) by lia;
      assert (Hle : 400 <= 3100) by lia;
      destruct (volatile_create_then_get 400 3100 "s2" "alice@example.com"
                  45 s ND Hne Httl Hle eq_refl eq_refl) as (_ & A & _)
  end.
  apply A. lia.
Defined.

(** ** The sweep of the volatile backend *)

Lemma mem_user_sessions_swept now now' email (d : SessionStore.dict) :
  now <= now' ->
  filter (fun kv => String.eqb (SessionStore.user_email (snd kv)) email
                    && (now' <=? SessionStore.expires_at (snd kv)))
    (filter (fun kv => negb (now >? SessionStore.expires_at (snd kv))) d)
  = filter (fun kv => String.eqb (SessionStore.user_email (snd kv)) email
                      && (now' <=? SessionStore.expires_at (snd kv))) d.
Proof.
  intros Hle. induction d as [|[k v] d IH]; [reflexivity|]. cbn [filter snd].
  destruct (now >? SessionStore.expires_at v) eqn:E; cbn [negb filter snd].
  - rewrite IH.
    destruct (now' <=? SessionStore.expires_at v) eqn:E'; [zbool; lia|].
    now rewrite andb_false_r.
  - now rewrite IH.
Qed.

(** X4.  The sweep of the volatile backend is gated: called less than
    [_cleanup_interval] (300) seconds after the last sweep it leaves the
    store as it is; otherwise it keeps exactly the records that have not
    expired, in their order, and notes the instant.  Either way no later
    reader sees it: liveness and the sessions listed for a principal are the
    same at every instant from [now] on.  [get_session_count] returns the
    number of records held after that sweep, so it counts expired records too
    while the gate is closed. *)
Theorem volatile_sweep_is_gated now st :
  NoDup (SessionStore.keys (SessionStore._sessions st)) ->
  let st' := SessionStore._cleanup_expired_sessions now st in
  (now - SessionStore._last_cleanup st < SessionStore._cleanup_interval st ->
   st' = st
   /\ snd (SessionStore.get_session_count now st)
      = Z.of_nat (List.length (SessionStore._sessions st)))
  /\ (SessionStore._cleanup_interval st <= now - SessionStore._last_cleanup st ->
      SessionStore._sessions st'
      = filter (fun kv => now <=? SessionStore.expires_at (snd kv))
          (SessionStore._sessions st)
      /\ SessionStore._last_cleanup st' = now
      /\ snd (SessionStore.get_session_count now st)
         = Z.of_nat
             (List.length
                (filter (fun kv => now <=? SessionStore.expires_at (snd kv))
                   (SessionStore._sessions st))))
  /\ (forall now' sid,
         now <= now' ->
         mem_live now' sid (SessionStore._sessions st')
         = mem_live now' sid (SessionStore._sessions st))
  /\ (forall now' email,
         now <= now' ->
         SessionStore.get_user_sessions now' email st'
         = SessionStore.get_user_sessions now' email st).
Proof.
  intros ND st'. subst st'.
  assert (Hf : filter
                 (fun kv => negb (now >? SessionStore.expires_at (snd kv)))
                 (SessionStore._sessions st)
               = filter (fun kv => now <=? SessionStore.expires_at (snd kv))
                   (SessionStore._sessions st)).
  { apply filter_ext. intros kv.
    now rewrite Z.gtb_ltb, Z.leb_antisym. }
  refine (conj _ (conj _ (conj _ _))).
  - intros Hg. unfold SessionStore.get_session_count,
      SessionStore._cleanup_expired_sessions.
    destruct (_ <? _) eqn:E; [auto|zbool; lia].
  - intros Hg. unfold SessionStore.get_session_count. cbn [snd].
    rewrite mem_cleanup_sessions by assumption.
    unfold SessionStore._cleanup_expired_sessions.
    destruct (_ <? _) eqn:E; [zbool; lia|].
    cbn [SessionStore._last_cleanup]. now rewrite Hf.
  - intros now' sid Hle. now apply mem_live_cleanup_later.
  - intros now' email Hle. unfold SessionStore.get_user_sessions.
    rewrite mem_cleanup_sessions by assumption.
    destruct (_ <? _); [reflexivity|].
    now rewrite mem_user_sessions_swept.
Qed.

Lemma volatile_sweep_is_gated_witness :
  let st1 :=
    fst (SessionStore.create_session 0 "s1" "bob@example.com" 1
           (SessionStore.init 0)) in
  let st := fst (SessionStore.create_session 10 "s2" "bob@example.com" 30 st1) in
  snd (SessionStore.get_session_count 200 st) = 2
  /\ snd (SessionStore.get_session_count 400 st) = 1
  /\ map fst
       (SessionStore._sessions (SessionStore._cleanup_expired_sessions 400 st))
     = ["s2"].
Proof.
  cbv zeta.
  match goal with
  | |- snd (SessionStore.get_session_count _ ?s) = _ /\ _ =>
      assert (ND : NoDup (SessionStore.keys (SessionStore._sessions s)))
        by (repeat constructor; simpl; intuition discriminate);
      destruct (volatile_sweep_is_gated 200 s ND) as (A & _);
      destruct (volatile_sweep_is_gated 400 s ND) as (_ & B & _)
  end.
  refine (conj _ (conj _ _)).
  - destruct A as [_ A]; [reflexivity|]. rewrite A. reflexivity.
  - destruct B as (_ & _ & B); [vm_compute; discriminate|]. rewrite B.
    reflexivity.
  - destruct B as (B & _); [vm_compute; discriminate|]. rewrite B.
    reflexivity.
Defined.

(** ** Extending and revoking one session *)

Lemma db_wf_update_all p f db :
  (forall r, Session.session_id (f r) = Session.session_id r) ->
  db_wf db -> db_wf (DatabaseSessionStore.update_all p f db).
Proof. intros Hf. unfold db_wf. now rewrite sids_update_all. Qed.

Lemma in_update_all_by_id sid f db r :
  In r db -> Session.session_id r = sid ->
  In (f r) (DatabaseSessionStore.update_all (DatabaseSessionStore.by_id sid) f db).
Proof.
  intros Hin Hid. unfold DatabaseSessionStore.update_all.
  apply in_map_iff. exists r. split; [|assumption].
  unfold DatabaseSessionStore.by_id. now rewrite Hid, String.eqb_refl.
Qed.

Lemma update_all_idem p f db :
  (forall r, p (f r) = p r) -> (forall r, f (f r) = f r) ->
  DatabaseSessionStore.update_all p f (DatabaseSessionStore.update_all p f db)
  = DatabaseSessionStore.update_all p f db.
Proof.
  intros Hp Hf. unfold DatabaseSessionStore.update_all. rewrite map_map.
  apply map_ext. intros r. destruct (p r) eqn:E.
  - now rewrite Hp, E, Hf.
  - now rewrite E.
Qed.

(** The table after a live session was extended: its one row carries the new
    expiry, and the liveness of every other identifier is as before. *)
Lemma db_after_extend now sid m db :
  db_wf db -> sid <> "" -> db_live now sid db = true ->
  let db' := fst (DatabaseSessionStore.extend_session now (Some sid) m db) in
  exists r,
    In r db /\ Session.session_id r = sid /\ Session.is_active r = true
    /\ db' = DatabaseSessionStore.update_all (DatabaseSessionStore.by_id sid)
               (Session.extend_session now m) db
    /\ db_wf db' /\ In (Session.extend_session now m r) db'
    /\ (forall t, db_live t sid db' = (t <=? now + timedelta_minutes m)).
Proof.
  intros Hwf Hne Hl db'. subst db'.
  destruct (db_live_true_row now sid db Hl) as (r & Hin & Hid & Hr).
  unfold live_row in Hr. apply andb_true_iff in Hr. destruct Hr as [Ha _].
  rewrite (db_extend_live now sid m db Hne Hwf Hl). cbn [fst].
  assert (Hwf' : db_wf (DatabaseSessionStore.update_all
                          (DatabaseSessionStore.by_id sid)
                          (Session.extend_session now m) db))
    by (apply db_wf_update_all; [now intros []|assumption]).
  assert (Hin' : In (Session.extend_session now m r)
                   (DatabaseSessionStore.update_all
                      (DatabaseSessionStore.by_id sid)
                      (Session.extend_session now m) db))
    by now apply in_update_all_by_id.
  exists r. repeat apply conj; try assumption; try reflexivity.
  intros t. rewrite (db_live_row sid t _ _ Hwf' Hin' Hid).
  unfold live_row. cbn [Session.extend_session Session.is_active
                          Session.expires_at].
  now rewrite Ha.
Qed.

(** X5.  In the persistent backend, [extend_session] on a live session, by
    minutes for which [now + 60 * minutes] is an instant [datetime] can hold,
    returns [True] and sets the expiry to [now + 60 * minutes], whatever it
    was before: the session is then returned by [get_session] from [now] up to
    and including that instant, with its principal and creation instant
    unchanged, and by no lookup after it (for negative [minutes], by no lookup
    at all).  No other identifier changes state, and extending again at the
    same instant by the same amount changes nothing more. *)
Theorem persistent_extend_sets_expiry now now' sid m db :
  db_wf db -> sid <> "" -> db_live now sid db = true -> now <= now' ->
  representable now = true -> representable (now + 60 * m) = true ->
  let e := DatabaseSessionStore.extend_session now (Some sid) m db in
  snd e = true
  /\ (now' <= now + 60 * m ->
      exists r,
        In r db /\ Session.session_id r = sid
        /\ snd (DatabaseSessionStore.get_session now' (Some sid) (fst e))
           = Some {| DatabaseSessionStore.user_email := Session.user_email r;
                     DatabaseSessionStore.created_at := Session.created_at r;
                     DatabaseSessionStore.expires_at := now + 60 * m;
                     DatabaseSessionStore.last_accessed := now';
                     DatabaseSessionStore.session_id := sid |})
  /\ (now + 60 * m < now' ->
      snd (DatabaseSessionStore.get_session now' (Some sid) (fst e)) = None)
  /\ (forall t s, s <> sid -> db_live t s (fst e) = db_live t s db)
  /\ (0 <= m ->
      fst (DatabaseSessionStore.extend_session now (Some sid) m (fst e))
      = fst e).
Proof.
  intros Hwf Hne Hl Hle _ _ e. subst e.
  destruct (db_after_extend now sid m db Hwf Hne Hl)
    as (r & Hin & Hid & Ha & Hdb & Hwf' & Hin' & Hlive).
  refine (conj _ (conj _ (conj _ (conj _ _)))).
  - now rewrite (db_extend_live now sid m db Hne Hwf Hl).
  - intros Hw. exists r. refine (conj Hin (conj Hid _)).
    assert (Hl' : db_live now' sid
                    (fst (DatabaseSessionStore.extend_session now (Some sid)
                            m db)) = true).
    { rewrite Hlive. unfold timedelta_minutes. zbool. lia. }
    destruct (db_get_live now' sid _ Hne Hwf' Hl')
      as (r' & Hr' & Hid' & _ & ->).
    cbn [snd]. f_equal.
    assert (r' = Session.extend_session now m r) as ->.
    { apply (db_wf_unique _ _ _ Hwf' Hr' Hin'). rewrite Hid'.
      symmetry. exact Hid. }
    unfold session_data_of. cbn [Session.extend_session Session.user_email
      Session.created_at Session.expires_at Session.session_id].
    now rewrite Hid.
  - intros Hw. apply get_session_dead. rewrite Hlive.
    unfold timedelta_minutes. zbool. lia.
  - intros t s Hs. rewrite Hdb.
    apply db_live_other_id; [assumption|now intros []].
  - intros Hm.
    assert (Hl' : db_live now sid
                    (fst (DatabaseSessionStore.extend_session now (Some sid)
                            m db)) = true).
    { rewrite Hlive. unfold timedelta_minutes. zbool. lia. }
    rewrite (db_extend_live now sid m _ Hne Hwf' Hl'). cbn [fst].
    rewrite Hdb. apply update_all_idem; [now intros []|now intros []].
Qed.

Lemma persistent_extend_sets_expiry_witness :
  let db :=
    fst (DatabaseSessionStore.create_session 0 "s1" "bob@example.com"
           (Some 30) []) in
  let e := DatabaseSessionStore.extend_session 1000 (Some "s1") 60 db in
  snd e = true
  /\ (exists r,
         In r db /\ Session.session_id r = "s1"
         /\ snd (DatabaseSessionStore.get_session 4600 (Some "s1") (fst e))
            = Some {| DatabaseSessionStore.user_email := Session.user_email r;
                      DatabaseSessionStore.created_at := Session.created_at r;
                      DatabaseSessionStore.expires_at := 1000 + 60 * 60;
                      DatabaseSessionStore.last_accessed := 4600;
                      DatabaseSessionStore.session_id := "s1" |})
  /\ snd (DatabaseSessionStore.get_session 4601 (Some "s1") (fst e)) = None.
Proof.
  cbv zeta.
  match goal with
  | |- snd (DatabaseSessionStore.extend_session _ _ _ ?d) = _ /\ _ =>
      assert (Hwf : db_wf d)
        by (repeat constructor; simpl; intuition discriminate);
      assert (Hne : "s1" <> "") by discriminate;
      assert (Hl : db_live 1000 "s1" d = true) by reflexivity;
      assert (H1 : 1000 <= 4600) by lia;
      assert (H2 : 1000 <= 4601) by lia;
      destruct (persistent_extend_sets_expiry 1000 4600 "s1" 60 d
                  Hwf Hne Hl H1 eq_refl eq_refl) as (A & B & _);
      destruct (persistent_extend_sets_expiry 1000 4601 "s1" 60 d
                  Hwf Hne Hl H2 eq_refl eq_refl) as (_ & _ & C & _)
  end.
  refine (conj A (conj _ _)).
  - apply B. lia.
  - apply C. lia.
Defined.

Lemma owned_live_is_live now email sid db :
  owned_live now email sid db = true -> db_live now sid db = true.
Proof.
  unfold owned_live, db_live. rewrite !existsb_exists.
  intros (r & Hin & Hp). exists r. split; [assumption|].
  apply andb_true_iff in Hp. destruct Hp as [Hp He].
  apply andb_true_iff in Hp. destruct Hp as [Hi Ha].
  unfold DatabaseSessionStore.active_by_email in Ha.
  apply andb_true_iff in Ha. destruct Ha as [_ Ha].
  unfold live_row. now rewrite Hi, Ha, He.
Qed.

Lemma not_live_not_listed now email sid db :
  db_live now sid db = false ->
  existsb (fun s => String.eqb (sum_session_id s) sid)
    (DatabaseSessionStore.get_user_sessions now email db) = false.
Proof.
  intros Hd. rewrite target_in_user_sessions.
  destruct (owned_live now email sid db) eqn:E; [|reflexivity].
  apply owned_live_is_live in E. congruence.
Qed.

(** X6.  In the persistent backend, [delete_session] on a non-empty
    identifier answers whether the identifier has a row.  Afterwards the
    session is dead for good: at no instant is it live, [get_session]
    returns [None], [extend_session] returns [False] and changes nothing, and
    no principal is listed it.  The row stays in the table, and the liveness
    of every other identifier is as before. *)
Theorem persistent_revoke_is_final sid db :
  db_wf db -> sid <> "" ->
  let d := DatabaseSessionStore.delete_session (Some sid) db in
  snd d = issued sid db
  /\ (issued sid db = false -> fst d = db)
  /\ sids (fst d) = sids db
  /\ (forall t, db_live t sid (fst d) = false)
  /\ (forall t,
         snd (DatabaseSessionStore.get_session t (Some sid) (fst d)) = None)
  /\ (forall t m,
         DatabaseSessionStore.extend_session t (Some sid) m (fst d)
         = (fst d, false))
  /\ (forall t email,
         existsb (fun s => String.eqb (sum_session_id s) sid)
           (DatabaseSessionStore.get_user_sessions t email (fst d)) = false)
  /\ (forall t s, s <> sid -> db_live t s (fst d) = db_live t s db).
Proof.
  intros Hwf Hne d. subst d.
  assert (Hdead : forall t,
             db_live t sid
               (fst (DatabaseSessionStore.delete_session (Some sid) db))
             = false).
  { intros t. destruct (issued sid db) eqn:Hi.
    - rewrite (db_delete_issued_state sid db Hne Hwf Hi). cbn [fst].
      apply db_deactivated_dead.
    - rewrite (db_delete_not_issued sid db Hi). cbn [fst].
      now apply not_issued_not_live. }
  refine (conj _ (conj _ (conj _ (conj Hdead (conj _ (conj _ (conj _ _))))))).
  - destruct (issued sid db) eqn:Hi.
    + now rewrite (db_delete_issued_state sid db Hne Hwf Hi).
    + now rewrite (db_delete_not_issued sid db Hi).
  - intros Hi. now rewrite (db_delete_not_issued sid db Hi).
  - destruct (issued sid db) eqn:Hi.
    + rewrite (db_delete_issued_state sid db Hne Hwf Hi). cbn [fst].
      apply sids_update_all. now intros [].
    + now rewrite (db_delete_not_issued sid db Hi).
  - intros t. apply get_session_dead. apply Hdead.
  - intros t m. apply db_extend_dead. apply Hdead.
  - intros t email. apply not_live_not_listed. apply Hdead.
  - intros t s Hs. destruct (issued sid db) eqn:Hi.
    + rewrite (db_delete_issued_state sid db Hne Hwf Hi). cbn [fst].
      apply db_live_other_id; [assumption|now intros []].
    + now rewrite (db_delete_not_issued sid db Hi).
Qed.

Lemma persistent_revoke_is_final_witness :
  let db1 :=
    fst (DatabaseSessionStore.create_session 0 "s1" "bob@example.com"
           (Some 30) []) in
  let db :=
    fst (DatabaseSessionStore.create_session 0 "s2" "bob@example.com"
           (Some 30) db1) in
  let d := DatabaseSessionStore.delete_session (Some "s1") db in
  snd d = issued "s1" db
  /\ (forall t,
         snd (DatabaseSessionStore.get_session t (Some "s1") (fst d)) = None)
  /\ (forall t, db_live t "s2" (fst d) = db_live t "s2" db).
Proof.
  cbv zeta.
  match goal with
  | |- snd (DatabaseSessionStore.delete_session _ ?d) = _ /\ _ =>
      assert (Hwf : db_wf d)
        by (repeat constructor; simpl; intuition discriminate);
      assert (Hne : "s1" <> "") by discriminate;
      destruct (persistent_revoke_is_final "s1" d Hwf Hne)
        as (A & _ & _ & _ & B & _ & _ & C)
  end.
  refine (conj A (conj B _)).
  intros t. apply C. discriminate.
Defined.

(** X7.  In the volatile backend, [delete_session] answers whether the
    identifier is held and removes that one record: afterwards the identifier
    is not held, [get_session] returns [None] and [extend_session] returns
    [False], both without changing the store, and every other identifier
    maps to the record it had. *)
Theorem volatile_revoke_removes_one sid st :
  NoDup (SessionStore.keys (SessionStore._sessions st)) -> sid <> "" ->
  let d := SessionStore.delete_session (Some sid) st in
  snd d = SessionStore.dict_in sid (SessionStore._sessions st)
  /\ SessionStore.dict_get sid (SessionStore._sessions (fst d)) = None
  /\ (forall s, s <> sid ->
        SessionStore.dict_get s (SessionStore._sessions (fst d))
        = SessionStore.dict_get s (SessionStore._sessions st))
  /\ (forall t, SessionStore.get_session t (Some sid) (fst d) = (fst d, None))
  /\ (forall t m,
         SessionStore.extend_session t (Some sid) m (fst d) = (fst d, false)).
Proof.
  intros ND Hne d. subst d.
  assert (Hgone : SessionStore.dict_get sid
                    (SessionStore._sessions
                       (fst (SessionStore.delete_session (Some sid) st)))
                  = None).
  { unfold SessionStore.delete_session.
    destruct (SessionStore.dict_in sid (SessionStore._sessions st)) eqn:E;
      cbn [fst SessionStore.with_sessions SessionStore._sessions].
    - now apply dict_get_del_same.
    - unfold SessionStore.dict_in in E.
      now destruct (SessionStore.dict_get sid (SessionStore._sessions st)). }
  refine (conj _ (conj Hgone (conj _ (conj _ _)))).
  - unfold SessionStore.delete_session.
    now destruct (SessionStore.dict_in sid (SessionStore._sessions st)).
  - intros s Hs. unfold SessionStore.delete_session.
    destruct (SessionStore.dict_in sid (SessionStore._sessions st));
      cbn [fst SessionStore.with_sessions SessionStore._sessions];
      [now apply dict_get_del_other|reflexivity].
  - intros t. unfold SessionStore.get_session.
    now rewrite (truthy_nonempty sid Hne), Hgone.
  - intros t m. unfold SessionStore.extend_session. now rewrite Hgone.
Qed.

Lemma volatile_revoke_removes_one_witness :
  let st1 :=
    fst (SessionStore.create_session 0 "s1" "bob@example.com" 30
           (SessionStore.init 0)) in
  let st := fst (SessionStore.create_session 0 "s2" "bob@example.com" 30 st1) in
  let d := SessionStore.delete_session (Some "s1") st in
  snd d = SessionStore.dict_in "s1" (SessionStore._sessions st)
  /\ (forall t, SessionStore.get_session t (Some "s1") (fst d) = (fst d, None))
  /\ SessionStore.dict_get "s2" (SessionStore._sessions (fst d))
     = SessionStore.dict_get "s2" (SessionStore._sessions st).
Proof.
  cbv zeta.
  match goal with
  | |- snd (SessionStore.delete_session _ ?s) = _ /\ _ =>
      assert (ND : NoDup (SessionStore.keys (SessionStore._sessions s)))
        by (repeat constructor; simpl; intuition discriminate);
      assert (Hne : "s1" <> "") by discriminate;
      destruct (volatile_revoke_removes_one "s1" s ND Hne)
        as (A & _ & B & C & _)
  end.
  refine (conj A (conj C _)). apply B. discriminate.
Defined.

(** ** Listing and looking up *)

Lemma get_session_some_live now sid db d :
  snd (DatabaseSessionStore.get_session now (Some sid) db) = Some d ->
  sid <> ""
  /\ exists r,
      find (DatabaseSessionStore.active_by_id sid) db = Some r
      /\ In r db /\ Session.session_id r = sid /\ live_row now r = true
      /\ d = session_data_of now r
      /\ fst (DatabaseSessionStore.get_session now (Some sid) db)
         = DatabaseSessionStore.update_first
             (DatabaseSessionStore.active_by_id sid) (Session.touch now) db.
Proof.
  unfold DatabaseSessionStore.get_session.
  destruct (truthy (Some sid)) as [s|] eqn:Et; [|discriminate].
  apply truthy_some in Et. destruct Et as [[= <-] Hne].
  unfold DatabaseSessionStore.query_first.
  destruct (find (DatabaseSessionStore.active_by_id sid) db) as [r|] eqn:Ef;
    [|discriminate].
  unfold Session.is_expired.
  destruct (now >? Session.expires_at r) eqn:E; [discriminate|].
  cbn [fst snd]. intros [= <-]. split; [assumption|]. exists r.
  pose proof (find_some _ _ Ef) as [Hin Hp].
  unfold DatabaseSessionStore.active_by_id in Hp.
  apply andb_true_iff in Hp. destruct Hp as [Hid Ha].
  apply String.eqb_eq in Hid.
  repeat apply conj; try reflexivity; try assumption.
  unfold live_row. rewrite Ha. cbn. zbool. lia.
Qed.

(** X8.  In the persistent backend, listing and lookup agree: a non-empty
    identifier appears in the list of a principal's sessions at [now] exactly
    if [get_session] at [now] returns a record of that principal for it.
    Every entry listed shows the fields of a row of that principal that is
    active and has not expired. *)
Theorem listed_iff_lookup_succeeds now sid email db :
  db_wf db -> sid <> "" ->
  (existsb (fun s => String.eqb (sum_session_id s) sid)
     (DatabaseSessionStore.get_user_sessions now email db) = true
   <-> exists d,
        snd (DatabaseSessionStore.get_session now (Some sid) db) = Some d
        /\ DatabaseSessionStore.user_email d = email)
  /\ (forall s,
         In s (DatabaseSessionStore.get_user_sessions now email db) ->
         exists r,
           In r db /\ Session.user_email r = email
           /\ Session.is_active r = true /\ now <= Session.expires_at r
           /\ s = {| sum_session_id := Session.session_id r;
                     sum_created_at := Session.created_at r;
                     sum_expires_at := Session.expires_at r;
                     sum_last_accessed := Session.last_accessed r |}).
Proof.
  intros Hwf Hne. split; [split|].
  - rewrite target_in_user_sessions. intros Ho.
    pose proof (owned_live_is_live now email sid db Ho) as Hl.
    destruct (db_get_live now sid db Hne Hwf Hl) as (r & Hin & Hid & _ & Hg).
    exists (session_data_of now r). split; [now rewrite Hg|].
    rewrite (owned_live_row now email sid db r Hwf Hin Hid) in Ho.
    apply andb_true_iff in Ho. destruct Ho as [Ha _].
    unfold DatabaseSessionStore.active_by_email in Ha.
    apply andb_true_iff in Ha. destruct Ha as [He _].
    now apply String.eqb_eq in He.
  - intros (d & Hg & He). rewrite target_in_user_sessions.
    destruct (get_session_some_live now sid db d Hg)
      as (_ & r & _ & Hin & Hid & Hl & -> & _).
    rewrite (owned_live_row now email sid db r Hwf Hin Hid).
    unfold live_row in Hl. apply andb_true_iff in Hl. destruct Hl as [Ha Hx].
    unfold DatabaseSessionStore.active_by_email.
    cbn [session_data_of DatabaseSessionStore.user_email] in He.
    now rewrite He, String.eqb_refl, Ha, Hx.
  - intros s Hin. unfold DatabaseSessionStore.get_user_sessions,
      DatabaseSessionStore.query_all in Hin.
    apply in_map_iff in Hin. destruct Hin as (r & <- & Hr).
    apply filter_In in Hr. destruct Hr as [Hr Hx].
    apply filter_In in Hr. destruct Hr as [Hr Ha].
    unfold DatabaseSessionStore.active_by_email in Ha.
    apply andb_true_iff in Ha. destruct Ha as [He Ha].
    apply String.eqb_eq in He. exists r.
    repeat apply conj; try assumption; try reflexivity.
    unfold Session.is_expired in Hx. apply negb_true_iff in Hx. zbool. lia.
Qed.

Lemma listed_iff_lookup_succeeds_witness :
  let db1 :=
    fst (DatabaseSessionStore.create_session 0 "s1" "bob@example.com"
           (Some 30) []) in
  let db :=
    fst (DatabaseSessionStore.create_session 0 "s2" "alice@example.com"
           (Some 30) db1) in
  exists d,
    snd (DatabaseSessionStore.get_session 100 (Some "s2") db) = Some d
    /\ DatabaseSessionStore.user_email d = "alice@example.com".
Proof.
  cbv zeta.
  match goal with
  | |- exists d, snd (DatabaseSessionStore.get_session _ _ ?t) = _ /\ _ =>
      assert (Hwf : db_wf t)
        by (repeat constructor; simpl; intuition discriminate);
      assert (Hne : "s2" <> "") by discriminate;
      destruct (listed_iff_lookup_succeeds 100 "s2" "alice@example.com" t
                  Hwf Hne) as ([A _] & _)
  end.
  apply A. reflexivity.
Defined.

(** ** The guard, on success *)

Lemma resolve_session_return now sid db cu :
  snd (resolve_session now sid db) = Return cu ->
  CurrentUser.session_id cu = sid
  /\ exists r,
      In r db /\ Session.session_id r = sid /\ live_row now r = true
      /\ Session.user_email r = CurrentUser.email cu
      /\ CurrentUser.session_data cu = session_data_of now r
      /\ find (DatabaseSessionStore.active_by_id sid) db = Some r
      /\ fst (resolve_session now sid db)
         = DatabaseSessionStore.update_first
             (DatabaseSessionStore.active_by_id sid) (Session.touch now) db.
Proof.
  unfold resolve_session.
  destruct (DatabaseSessionStore.get_session now (Some sid) db)
    as [db' [d|]] eqn:Eg; cbn [fst snd]; [|discriminate].
  intros [= <-]. cbn [CurrentUser.session_id CurrentUser.email
                        CurrentUser.session_data].
  split; [reflexivity|].
  assert (Hg : snd (DatabaseSessionStore.get_session now (Some sid) db)
               = Some d) by now rewrite Eg.
  destruct (get_session_some_live now sid db d Hg)
    as (_ & r & Hf & Hin & Hid & Hl & -> & Hst).
  rewrite Eg in Hst. cbn [fst] in Hst.
  exists r. repeat apply conj; try assumption; reflexivity.
Qed.

(** X9.  [get_current_user_session] authenticates exactly the live sessions.
    If it returns, the identifier presented (the cookie, or the header when
    the cookie is missing or empty) is non-empty, the table holds an active,
    unexpired row with that identifier, and the principal and session data
    handed on are those of that row.  Conversely, with unique identifiers, a
    live identifier is always admitted and the only change to the table is
    [last_accessed] of its row.  A non-empty cookie makes the header
    irrelevant. *)
Theorem guard_authenticates_exactly_live now cookie header db :
  (forall cu,
      snd (get_current_user_session now cookie header db) = Return cu ->
      truthy (py_or cookie header) = Some (CurrentUser.session_id cu)
      /\ exists r,
          In r db
          /\ Session.session_id r = CurrentUser.session_id cu
          /\ live_row now r = true
          /\ Session.user_email r = CurrentUser.email cu
          /\ CurrentUser.session_data cu = session_data_of now r)
  /\ (db_wf db ->
      forall sid,
        truthy (py_or cookie header) = Some sid ->
        db_live now sid db = true ->
        exists cu,
          get_current_user_session now cookie header db
          = (DatabaseSessionStore.update_all (DatabaseSessionStore.by_id sid)
               (Session.touch now) db,
             Return cu)
          /\ CurrentUser.session_id cu = sid)
  /\ (falsy cookie = false ->
      get_current_user_session now cookie header db
      = get_current_user_session now cookie None db)
  /\ (falsy cookie = true ->
      get_current_user_session now cookie header db
      = get_current_user_session now None header db).
Proof.
  refine (conj _ (conj _ (conj _ _))).
  - intros cu Hr. unfold get_current_user_session in Hr.
    destruct (truthy (py_or cookie header)) as [sid|]; [|discriminate].
    destruct (resolve_session_return now sid db cu Hr)
      as (Hs & r & Hin & Hid & Hl & He & Hd & _).
    rewrite Hs. split; [reflexivity|]. exists r. auto.
  - intros Hwf sid Ht Hl. unfold get_current_user_session. rewrite Ht.
    apply truthy_some in Ht. destruct Ht as [_ Hne].
    unfold resolve_session.
    destruct (db_get_live now sid db Hne Hwf Hl) as (r & _ & _ & _ & ->).
    eexists. split; reflexivity.
  - intros Hf. unfold get_current_user_session, py_or. now rewrite Hf.
  - intros Hf. unfold get_current_user_session, py_or. now rewrite Hf.
Qed.

Lemma guard_authenticates_exactly_live_witness :
  let db :=
    fst (DatabaseSessionStore.create_session 0 "s1" "bob@example.com"
           (Some 30) []) in
  (exists cu,
      get_current_user_session 100 (Some "") (Some "s1") db
      = (DatabaseSessionStore.update_all (DatabaseSessionStore.by_id "s1")
           (Session.touch 100) db,
         Return cu)
      /\ CurrentUser.session_id cu = "s1")
  /\ get_current_user_session 100 (Some "s1") (Some "other") db
     = get_current_user_session 100 (Some "s1") None db.
Proof.
  cbv zeta.
  match goal with
  | |- (exists cu, get_current_user_session _ _ _ ?d = _ /\ _) /\ _ =>
      assert (Hwf : db_wf d)
        by (repeat constructor; simpl; intuition discriminate);
      destruct (guard_authenticates_exactly_live 100 (Some "") (Some "s1") d)
        as (_ & A & _);
      destruct (guard_authenticates_exactly_live 100 (Some "s1")
                  (Some "other") d) as (_ & _ & B & _)
  end.
  split.
  - apply (A Hwf "s1"); reflexivity.
  - apply B. reflexivity.
Defined.

(** ** Logging out *)

Lemma db_delete_dead t sid db :
  db_wf db -> sid <> "" ->
  db_live t sid (fst (DatabaseSessionStore.delete_session (Some sid) db))
  = false.
Proof.
  intros Hwf Hne. destruct (issued sid db) eqn:Hi.
  - rewrite (db_delete_issued_state sid db Hne Hwf Hi). cbn [fst].
    apply db_deactivated_dead.
  - rewrite (db_delete_not_issued sid db Hi). cbn [fst].
    now apply not_issued_not_live.
Qed.

Lemma db_delete_frame t sid s db :
  db_wf db -> sid <> "" -> s <> sid ->
  db_live t s (fst (DatabaseSessionStore.delete_session (Some sid) db))
  = db_live t s db.
Proof.
  intros Hwf Hne Hs. destruct (issued sid db) eqn:Hi.
  - rewrite (db_delete_issued_state sid db Hne Hwf Hi). cbn [fst].
    apply db_live_other_id; [assumption|now intros []].
  - now rewrite (db_delete_not_issued sid db Hi).
Qed.

Lemma guard_rejects_dead now cookie header sid db :
  truthy (py_or cookie header) = Some sid -> db_live now sid db = false ->
  snd (get_current_user_session now cookie header db)
  = Raise invalid_or_expired.
Proof.
  intros Ht Hd. unfold get_current_user_session. rewrite Ht.
  unfold resolve_session.
  pose proof (get_session_dead now sid db Hd) as Hg.
  destruct (DatabaseSessionStore.get_session now (Some sid) db) as [db' [d|]];
    cbn [snd] in *; [discriminate|reflexivity].
Qed.

Lemma secure_logout_table cu db :
  secure_logout cu db
  = (fst (DatabaseSessionStore.delete_session
            (Some (CurrentUser.session_id cu)) db),
     Return ("Logout successful", DeleteCookie "session_id")).
Proof.
  unfold secure_logout, SecurityManager.delete_session.
  now destruct (DatabaseSessionStore.delete_session _ db).
Qed.

(** X10.  [secure_logout] always answers "Logout successful" and asks for
    the cookie to be deleted.  After it, the guard rejects the caller's
    session identifier with [invalid_or_expired] at every instant, from
    cookie or header, while the liveness of every other session is as
    before. *)
Theorem logout_ends_the_session cu db :
  db_wf db -> CurrentUser.session_id cu <> "" ->
  let l := secure_logout cu db in
  snd l = Return ("Logout successful", DeleteCookie "session_id")
  /\ (forall t cookie header,
         truthy (py_or cookie header) = Some (CurrentUser.session_id cu) ->
         snd (get_current_user_session t cookie header (fst l))
         = Raise invalid_or_expired)
  /\ (forall t s,
         s <> CurrentUser.session_id cu ->
         db_live t s (fst l) = db_live t s db).
Proof.
  intros Hwf Hne l. subst l. rewrite secure_logout_table. cbn [fst snd].
  refine (conj eq_refl (conj _ _)).
  - intros t cookie header Ht.
    apply (guard_rejects_dead t cookie header _ _ Ht).
    now apply db_delete_dead.
  - intros t s Hs. now apply db_delete_frame.
Qed.

Lemma logout_ends_the_session_witness :
  let db1 :=
    fst (DatabaseSessionStore.create_session 0 "s1" "bob@example.com"
           (Some 30) []) in
  let db :=
    fst (DatabaseSessionStore.create_session 0 "s2" "bob@example.com"
           (Some 30) db1) in
  let g := get_current_user_session 10 (Some "s1") None db in
  match snd g with
  | Return cu =>
      snd (get_current_user_session 20 (Some "s1") None
             (fst (secure_logout cu (fst g))))
      = Raise invalid_or_expired
      /\ db_live 20 "s2" (fst (secure_logout cu (fst g)))
         = db_live 20 "s2" (fst g)
  | Raise _ => False
  end.
Proof.
  cbv zeta.
  match goal with
  | |- match snd ?g with _ => _ end =>
      let v := eval vm_compute in g in change g with v
  end.
  cbn [snd fst].
  match goal with
  | |- snd (get_current_user_session _ _ _ (fst (secure_logout ?c ?d))) = _
       /\ _ =>
      assert (Hwf : db_wf d)
        by (repeat constructor; simpl; intuition discriminate);
      assert (Hne : CurrentUser.session_id c <> "") by discriminate;
      destruct (logout_ends_the_session c d Hwf Hne) as (_ & A & B)
  end.
  split.
  - apply A. reflexivity.
  - apply B. discriminate.
Defined.

Lemma logout_all_devices_table cu db :
  logout_all_devices cu db
  = (fst (DatabaseSessionStore.delete_all_user_sessions
            (CurrentUser.email cu) db),
     Return ("Successfully logged out from all devices",
             Z.of_nat
               (List.length
                  (filter
                     (DatabaseSessionStore.active_by_email
                        (CurrentUser.email cu)) db)),
             DeleteCookie "session_id")).
Proof. reflexivity. Qed.

Lemma db_wf_delete_all email db :
  db_wf db ->
  db_wf (fst (DatabaseSessionStore.delete_all_user_sessions email db)).
Proof.
  intros Hwf. cbn [fst DatabaseSessionStore.delete_all_user_sessions].
  apply db_wf_update_all; [now intros []|assumption].
Qed.

Lemma db_live_after_delete_all t email db r :
  db_wf db -> In r db ->
  db_live t (Session.session_id r)
    (fst (DatabaseSessionStore.delete_all_user_sessions email db))
  = if String.eqb (Session.user_email r) email then false
    else db_live t (Session.session_id r) db.
Proof.
  intros Hwf Hin.
  pose proof (db_wf_delete_all email db Hwf) as Hwf'.
  rewrite db_delete_all_rows in *.
  set (g := fun r0 => if String.eqb (Session.user_email r0) email
                      then Session.deactivate r0 else r0) in *.
  assert (Hin' : In (g r) (map g db)) by now apply in_map.
  assert (Hid : Session.session_id (g r) = Session.session_id r).
  { unfold g. now destruct (String.eqb (Session.user_email r) email). }
  rewrite (db_live_row _ t _ (g r) Hwf' Hin' Hid).
  unfold g. destruct (String.eqb (Session.user_email r) email).
  - apply live_row_deactivate.
  - symmetry. now apply db_live_row.
Qed.

(** X11.  [logout_all_devices] reports the number of rows of the caller's
    principal that were flagged active and asks for the cookie to be
    deleted.  After it, the guard rejects every session identifier of that
    principal with [invalid_or_expired] at every instant, and the sessions of
    every other principal are live exactly when they were. *)
Theorem logout_all_ends_every_session cu db :
  db_wf db ->
  let l := logout_all_devices cu db in
  snd l
  = Return ("Successfully logged out from all devices",
            Z.of_nat
              (List.length
                 (filter
                    (fun r => String.eqb (Session.user_email r)
                                (CurrentUser.email cu)
                              && Session.is_active r) db)),
            DeleteCookie "session_id")
  /\ (forall t r cookie header,
         In r db -> Session.user_email r = CurrentUser.email cu ->
         truthy (py_or cookie header) = Some (Session.session_id r) ->
         snd (get_current_user_session t cookie header (fst l))
         = Raise invalid_or_expired)
  /\ (forall t r,
         In r db -> Session.user_email r <> CurrentUser.email cu ->
         db_live t (Session.session_id r) (fst l)
         = db_live t (Session.session_id r) db).
Proof.
  intros Hwf l. subst l. rewrite logout_all_devices_table. cbn [fst snd].
  refine (conj eq_refl (conj _ _)).
  - intros t r cookie header Hin He Ht.
    apply (guard_rejects_dead t cookie header _ _ Ht).
    rewrite (db_live_after_delete_all t _ db r Hwf Hin).
    now rewrite He, String.eqb_refl.
  - intros t r Hin He.
    rewrite (db_live_after_delete_all t _ db r Hwf Hin).
    destruct (String.eqb_spec (Session.user_email r) (CurrentUser.email cu));
      [contradiction|reflexivity].
Qed.

Lemma logout_all_ends_every_session_witness :
  let db1 :=
    fst (DatabaseSessionStore.create_session 0 "s1" "bob@example.com"
           (Some 30) []) in
  let db2 :=
    fst (DatabaseSessionStore.create_session 0 "s2" "bob@example.com"
           (Some 30) db1) in
  let db :=
    fst (DatabaseSessionStore.create_session 0 "s3" "alice@example.com"
           (Some 30) db2) in
  let g := get_current_user_session 10 (Some "s1") None db in
  match snd g with
  | Return cu =>
      snd (get_current_user_session 20 None (Some "s2")
             (fst (logout_all_devices cu (fst g))))
      = Raise invalid_or_expired
      /\ db_live 20 "s3" (fst (logout_all_devices cu (fst g)))
         = db_live 20 "s3" (fst g)
  | Raise _ => False
  end.
Proof.
  cbv zeta.
  match goal with
  | |- match snd ?g with _ => _ end =>
      let v := eval vm_compute in g in change g with v
  end.
  cbn [snd fst].
  match goal with
  | |- snd (get_current_user_session _ _ _
              (fst (logout_all_devices ?c ?d))) = _ /\ _ =>
      assert (Hwf : db_wf d)
        by (repeat constructor; simpl; intuition discriminate);
      destruct (logout_all_ends_every_session c d Hwf) as (_ & A & B)
  end.
  split.
  - eapply A; [right; left; reflexivity|reflexivity|reflexivity].
  - apply (B 20 {| Session.session_id := "s3";
                   Session.user_email := "alice@example.com";
                   Session.created_at := 0;
                   Session.expires_at := 1800;
                   Session.last_accessed := 0;
                   Session.is_active := true |});
      [right; right; left; reflexivity|discriminate].
Defined.

(** ** Listing one's own sessions *)

Lemma find_update_first_in p f (db : DatabaseSessionStore.table) r :
  find p db = Some r -> In (f r) (DatabaseSessionStore.update_first p f db).
Proof.
  induction db as [|r0 db IH]; simpl; [discriminate|].
  destruct (p r0) eqn:E.
  - intros [= ->]. now left.
  - intros H. right. auto.
Qed.

(** X12.  Right after the guard has admitted a caller, the handler
    [get_user_sessions] lists the caller's own session among the sessions of
    the principal, with the [last_accessed] the guard just wrote, and
    [active_sessions], the length of the list, is at least 1. *)
Theorem current_session_is_listed now cookie header db cu :
  snd (get_current_user_session now cookie header db) = Return cu ->
  exists sessions,
    get_user_sessions now cu
      (fst (get_current_user_session now cookie header db))
    = Return (Z.of_nat (List.length sessions), sessions)
    /\ 1 <= Z.of_nat (List.length sessions)
    /\ In {| sum_session_id := CurrentUser.session_id cu;
             sum_created_at :=
               DatabaseSessionStore.created_at (CurrentUser.session_data cu);
             sum_expires_at :=
               DatabaseSessionStore.expires_at (CurrentUser.session_data cu);
             sum_last_accessed := now |} sessions.
Proof.
  intros Hr. unfold get_current_user_session in *.
  destruct (truthy (py_or cookie header)) as [sid|]; [|discriminate].
  destruct (resolve_session_return now sid db cu Hr)
    as (Hs & r & Hin & Hid & Hl & He & Hd & Hf & Hst).
  eexists. split; [reflexivity|].
  assert (Hlisted :
            In {| sum_session_id := CurrentUser.session_id cu;
                  sum_created_at :=
                    DatabaseSessionStore.created_at
                      (CurrentUser.session_data cu);
                  sum_expires_at :=
                    DatabaseSessionStore.expires_at
                      (CurrentUser.session_data cu);
                  sum_last_accessed := now |}
               (DatabaseSessionStore.get_user_sessions now
                  (CurrentUser.email cu) (fst (resolve_session now sid db)))).
  { rewrite Hst. unfold DatabaseSessionStore.get_user_sessions,
      DatabaseSessionStore.query_all.
    apply in_map_iff. exists (Session.touch now r). split.
    - rewrite Hd, Hs. cbn. now rewrite Hid.
    - unfold live_row in Hl. apply andb_true_iff in Hl.
      destruct Hl as [Ha Hx].
      apply filter_In. split.
      + apply filter_In. split; [now apply find_update_first_in|].
        unfold DatabaseSessionStore.active_by_email. cbn.
        now rewrite He, String.eqb_refl, Ha.
      + unfold Session.is_expired. cbn. apply negb_true_iff. zbool. lia. }
  split; [|exact Hlisted].
  destruct (DatabaseSessionStore.get_user_sessions now (CurrentUser.email cu)
              (fst (resolve_session now sid db))); [contradiction|].
  cbn [List.length]. lia.
Qed.

Lemma current_session_is_listed_witness :
  let db1 :=
    fst (DatabaseSessionStore.create_session 0 "s1" "bob@example.com"
           (Some 30) []) in
  let db :=
    fst (DatabaseSessionStore.create_session 5 "s2" "bob@example.com"
           (Some 30) db1) in
  let g := get_current_user_session 10 (Some "s2") None db in
  match snd g with
  | Return cu =>
      exists sessions,
        get_user_sessions 10 cu (fst g)
        = Return (Z.of_nat (List.length sessions), sessions)
        /\ 1 <= Z.of_nat (List.length sessions)
        /\ In {| sum_session_id := CurrentUser.session_id cu;
                 sum_created_at :=
                   DatabaseSessionStore.created_at
                     (CurrentUser.session_data cu);
                 sum_expires_at :=
                   DatabaseSessionStore.expires_at
                     (CurrentUser.session_data cu);
                 sum_last_accessed := 10 |} sessions
  | Raise _ => False
  end.
Proof.
  cbv zeta.
  pose proof (current_session_is_listed 10 (Some "s2") None
                (fst (DatabaseSessionStore.create_session 5 "s2"
                        "bob@example.com" (Some 30)
                        (fst (DatabaseSessionStore.create_session 0 "s1"
                                "bob@example.com" (Some 30) [])))))
    as H.
  destruct (snd (get_current_user_session 10 (Some "s2") None _))
    as [cu|e] eqn:E.
  - exact (H cu eq_refl).
  - vm_compute in E. discriminate.
Defined.

(** ** Logging in *)

Lemma guard_admits_live now cookie header sid db :
  db_wf db -> truthy (py_or cookie header) = Some sid ->
  db_live now sid db = true ->
  exists r,
    In r db /\ Session.session_id r = sid
    /\ get_current_user_session now cookie header db
       = (DatabaseSessionStore.update_all (DatabaseSessionStore.by_id sid)
            (Session.touch now) db,
          Return {| CurrentUser.email := Session.user_email r;
                    CurrentUser.session_id := sid;
                    CurrentUser.session_data := session_data_of now r |}).
Proof.
  intros Hwf Ht Hl. unfold get_current_user_session. rewrite Ht.
  apply truthy_some in Ht. destruct Ht as [_ Hne].
  unfold resolve_session.
  destruct (db_get_live now sid db Hne Hwf Hl) as (r & Hin & Hid & _ & ->).
  exists r. auto.
Qed.

Lemma get_user_by_email_found users email u :
  UserCRUD.get_user_by_email users email = Some u ->
  In u users /\ User.email u = email.
Proof.
  unfold UserCRUD.get_user_by_email. intros H. apply find_some in H.
  destruct H as [Hin He]. now apply String.eqb_eq in He.
Qed.

(** X13.  [secure_login], whatever the password check of the hashing
    library is:
    - an unknown email and a wrong password raise the same exception,
      [invalid_email_or_password], and store no session;
    - an error of the password check, or an identifier that is already
      taken, ends in the status 500 with no session stored;
    - on success one session is stored under the identifier drawn, the
      response names the account and sets the cookie [session_id] to that
      identifier with a [max_age] of 1800 seconds, and the guard admits that
      cookie as the account's email from [now] up to and including
      [now + 1800], and rejects it after. *)
Theorem login_refuses_or_opens_a_session
    (verify_password : string -> string -> outcome bool)
    now uuid email password users db :
  (UserCRUD.get_user_by_email users email = None ->
   secure_login verify_password now uuid email password users db
   = (db, Raise invalid_email_or_password))
  /\ (forall u,
         UserCRUD.get_user_by_email users email = Some u ->
         verify_password password (User.password_hash u) = Return false ->
         secure_login verify_password now uuid email password users db
         = (db, Raise invalid_email_or_password))
  /\ (forall u e,
         UserCRUD.get_user_by_email users email = Some u ->
         verify_password password (User.password_hash u) = Raise e ->
         (forall c d, e <> HTTPException c d) ->
         secure_login verify_password now uuid email password users db
         = (db, Raise (HTTPException 500 "Internal server error during login")))
  /\ (forall u,
         UserCRUD.get_user_by_email users email = Some u ->
         verify_password password (User.password_hash u) = Return true ->
         issued uuid db = true ->
         secure_login verify_password now uuid email password users db
         = (db, Raise (HTTPException 500 "Internal server error during login")))
  /\ (forall u,
         UserCRUD.get_user_by_email users email = Some u ->
         verify_password password (User.password_hash u) = Return true ->
         db_wf db -> uuid <> "" -> issued uuid db = false ->
         let l :=
           secure_login verify_password now uuid email password users db in
         snd l
         = Return ({| login_message := "Login successful";
                      login_user_email := email;
                      login_user_name := User.name u;
                      session_expires_in := 1800 |},
                   SetCookie "session_id" uuid 1800 true false "lax")
         /\ sids (fst l) = sids db ++ [uuid]
         /\ (forall t,
                now <= t <= now + 1800 ->
                exists cu,
                  snd (get_current_user_session t (Some uuid) None (fst l))
                  = Return cu
                  /\ CurrentUser.email cu = email
                  /\ CurrentUser.session_id cu = uuid)
         /\ (forall t,
                now + 1800 < t ->
                snd (get_current_user_session t (Some uuid) None (fst l))
                = Raise invalid_or_expired)).
Proof.
  refine (conj _ (conj _ (conj _ (conj _ _)))).
  - intros Hu. unfold secure_login. now rewrite Hu.
  - intros u Hu Hv. unfold secure_login. now rewrite Hu, Hv.
  - intros u e Hu Hv He. unfold secure_login. rewrite Hu, Hv. cbn [fst snd].
    destruct e as [c d| | |]; [now specialize (He c d)|reflexivity..].
  - intros u Hu Hv Hi. unfold secure_login. rewrite Hu, Hv.
    unfold SecurityManager.create_session,
      DatabaseSessionStore.create_session.
    fold (issued uuid db). now rewrite Hi.
  - intros u Hu Hv Hwf Hne Hi l. subst l.
    destruct (get_user_by_email_found users email u Hu) as [_ He].
    assert (H30 : 0 <= SecurityManager.ACCESS_TOKEN_EXPIRE_MINUTES)
      by (unfold SecurityManager.ACCESS_TOKEN_EXPIRE_MINUTES; lia).
    assert (Ht : truthy (py_or (Some uuid) None) = Some uuid).
    { unfold py_or. cbn [falsy].
      destruct (String.eqb_spec uuid ""); [contradiction|].
      now apply truthy_nonempty. }
    unfold secure_login. rewrite Hu, Hv.
    unfold SecurityManager.create_session.
    pose proof (db_create_fresh now uuid (User.email u) _ db Hi H30) as Hc.
    rewrite Hc. cbn [fst snd handler_except_detail].
    refine (conj _ (conj _ (conj _ _))).
    + now rewrite He.
    + unfold sids. rewrite map_app. cbn [map row_of Session.session_id].
      f_equal. apply sids_cleanup.
    + intros t [Ht1 Ht2].
      destruct (db_after_create now t uuid (User.email u) _ db Hwf Hi H30 Ht1)
        as (Hwf' & Hin & Hl & _).
      rewrite Hc in Hwf', Hin, Hl. cbn [fst] in Hwf', Hin, Hl.
      assert (Hl' : db_live t uuid
                      (DatabaseSessionStore._cleanup_expired_sessions now db
                         ++ [row_of uuid
                               {| SessionStore.user_email := User.email u;
                                  SessionStore.created_at := now;
                                  SessionStore.expires_at :=
                                    now
                                    + timedelta_minutes
                                        SecurityManager.ACCESS_TOKEN_EXPIRE_MINUTES;
                                  SessionStore.last_accessed := now |}])
                    = true).
      { rewrite Hl. unfold timedelta_minutes,
          SecurityManager.ACCESS_TOKEN_EXPIRE_MINUTES. zbool. lia. }
      destruct (guard_admits_live t (Some uuid) None uuid _ Hwf' Ht Hl')
        as (r & Hr & Hid & ->).
      eexists. split; [reflexivity|]. cbn [CurrentUser.email
                                            CurrentUser.session_id].
      split; [|reflexivity].
      rewrite (db_wf_unique _ r _ Hwf' Hr Hin Hid). exact He.
    + intros t Ht2.
      assert (Ht1 : now <= t) by lia.
      destruct (db_after_create now t uuid (User.email u) _ db Hwf Hi H30 Ht1)
        as (_ & _ & Hl & _).
      rewrite Hc in Hl. cbn [fst] in Hl.
      apply (guard_rejects_dead t (Some uuid) None uuid _ Ht).
      rewrite Hl. unfold timedelta_minutes,
        SecurityManager.ACCESS_TOKEN_EXPIRE_MINUTES. zbool. lia.
Qed.

Lemma login_session_admitted
    (verify_password : string -> string -> outcome bool)
    now t uuid email password users db u :
  UserCRUD.get_user_by_email users email = Some u ->
  verify_password password (User.password_hash u) = Return true ->
  db_wf db -> uuid <> "" -> issued uuid db = false ->
  now <= t <= now + 1800 ->
  exists cu,
    snd (get_current_user_session t (Some uuid) None
           (fst (secure_login verify_password now uuid email password users
                   db)))
    = Return cu
    /\ CurrentUser.email cu = email
    /\ CurrentUser.session_id cu = uuid.
Proof.
  intros Hu Hv Hwf Hne Hi [Ht1 Ht2].
  destruct (get_user_by_email_found users email u Hu) as [_ He].
  assert (H30 : 0 <= SecurityManager.ACCESS_TOKEN_EXPIRE_MINUTES)
    by (unfold SecurityManager.ACCESS_TOKEN_EXPIRE_MINUTES; lia).
  assert (Ht : truthy (py_or (Some uuid) None) = Some uuid).
  { unfold py_or. cbn [falsy].
    destruct (String.eqb_spec uuid ""); [contradiction|].
    now apply truthy_nonempty. }
  destruct (db_after_create now t uuid (User.email u) _ db Hwf Hi H30 Ht1)
    as (Hwf' & Hin & Hl & _).
  unfold secure_login. rewrite Hu, Hv.
  unfold SecurityManager.create_session.
  destruct (DatabaseSessionStore.create_session now uuid (User.email u)
              (Some SecurityManager.ACCESS_TOKEN_EXPIRE_MINUTES) db)
    as [db' [s|e]] eqn:Ec; cbn [fst snd] in *.
  - assert (Hl' : db_live t uuid db' = true).
    { rewrite Hl. unfold timedelta_minutes,
        SecurityManager.ACCESS_TOKEN_EXPIRE_MINUTES. zbool. lia. }
    destruct (guard_admits_live t (Some uuid) None uuid db' Hwf' Ht Hl')
      as (r & Hr & Hid & ->).
    eexists. split; [reflexivity|].
    cbn [CurrentUser.email CurrentUser.session_id].
    split; [|reflexivity].
    rewrite (db_wf_unique _ r _ Hwf' Hr Hin Hid). exact He.
  - rewrite (db_create_fresh now uuid (User.email u) _ db Hi H30) in Ec.
    discriminate.
Qed.

Lemma login_refuses_or_opens_a_session_witness :
  let verify_password := fun p h : string => Return (String.eqb p h) in
  let users :=
    [ {| User.id := 1; User.name := "Alice";
         User.email := "alice@example.com"; User.password_hash := "h";
         User.age := None; User.bio := None;
         User.created_at := 0; User.updated_at := 0 |} ] in
  let l :=
    secure_login verify_password 0 "s1" "alice@example.com" "h" users [] in
  snd l
  = Return ({| login_message := "Login successful";
               login_user_email := "alice@example.com";
               login_user_name := "Alice";
               session_expires_in := 1800 |},
            SetCookie "session_id" "s1" 1800 true false "lax")
  /\ sids (fst l) = [] ++ ["s1"]
  /\ (exists cu,
         snd (get_current_user_session 1800 (Some "s1") None (fst l))
         = Return cu
         /\ CurrentUser.email cu = "alice@example.com"
         /\ CurrentUser.session_id cu = "s1")
  /\ snd (get_current_user_session 1801 (Some "s1") None (fst l))
     = Raise invalid_or_expired.
Proof.
  cbv zeta.
  destruct (login_refuses_or_opens_a_session
              (fun p h : string => Return (String.eqb p h))
              0 "s1" "alice@example.com" "h"
              [ {| User.id := 1; User.name := "Alice";
                   User.email := "alice@example.com";
                   User.password_hash := "h";
                   User.age := None; User.bio := None;
                   User.created_at := 0; User.updated_at := 0 |} ] [])
    as (_ & _ & _ & _ & H).
  assert (Hwf : db_wf []) by constructor.
  assert (Hne : "s1" <> "") by discriminate.
  destruct (H _ eq_refl eq_refl Hwf Hne eq_refl) as (H1 & H2 & H3 & H4).
  refine (conj H1 (conj H2 (conj (H3 1800 _) (H4 1801 _)))); lia.
Defined.

(** ** Reading one's own account *)

(** X14.  [get_current_user_info_secure] after a login: while the session
    opened by [secure_login] is live, the guard admits its cookie and the
    handler returns the very account record that logged in; for an admitted
    caller whose email has no account (the account was removed after the
    login) it raises the status 404, [user_not_found]. *)
Theorem session_reads_its_own_account
    (verify_password : string -> string -> outcome bool)
    now t uuid email password users db u :
  UserCRUD.get_user_by_email users email = Some u ->
  verify_password password (User.password_hash u) = Return true ->
  db_wf db -> uuid <> "" -> issued uuid db = false ->
  now <= t <= now + 1800 ->
  exists cu,
    snd (get_current_user_session t (Some uuid) None
           (fst (secure_login verify_password now uuid email password users
                   db)))
    = Return cu
    /\ get_current_user_info_secure cu users = Return u
    /\ User.email u = CurrentUser.email cu
    /\ (forall users',
           UserCRUD.get_user_by_email users' email = None ->
           get_current_user_info_secure cu users' = Raise user_not_found).
Proof.
  intros Hu Hv Hwf Hne Hi Ht.
  destruct (login_session_admitted verify_password now t uuid email password
              users db u Hu Hv Hwf Hne Hi Ht) as (cu & Hg & He & _).
  exists cu. refine (conj Hg (conj _ (conj _ _))).
  - unfold get_current_user_info_secure. now rewrite He, Hu.
  - rewrite He. now apply (get_user_by_email_found users email u).
  - intros users' Hn. unfold get_current_user_info_secure.
    now rewrite He, Hn.
Qed.

Lemma session_reads_its_own_account_witness :
  let verify_password := fun p h : string => Return (String.eqb p h) in
  let alice :=
    {| User.id := 2; User.name := "Alice";
       User.email := "alice@example.com"; User.password_hash := "h";
       User.age := Some 30; User.bio := None;
       User.created_at := 0; User.updated_at := 0 |} in
  let bob :=
    {| User.id := 1; User.name := "Bob";
       User.email := "bob@example.com"; User.password_hash := "k";
       User.age := None; User.bio := None;
       User.created_at := 0; User.updated_at := 0 |} in
  exists cu,
    snd (get_current_user_session 900 (Some "s1") None
           (fst (secure_login verify_password 0 "s1" "alice@example.com" "h"
                   [bob; alice] [])))
    = Return cu
    /\ get_current_user_info_secure cu [bob; alice] = Return alice
    /\ User.email alice = CurrentUser.email cu
    /\ (forall users',
           UserCRUD.get_user_by_email users' "alice@example.com" = None ->
           get_current_user_info_secure cu users' = Raise user_not_found).
Proof.
  cbv zeta.
  apply (session_reads_its_own_account
           (fun p h : string => Return (String.eqb p h)) 0 900 "s1"
           "alice@example.com" "h").
  - reflexivity.
  - reflexivity.
  - constructor.
  - discriminate.
  - reflexivity.
  - lia.
Defined.

(** ** Renewing the session *)

Lemma first_handler_dead now cu db :
  db_live now (CurrentUser.session_id cu) db = false ->
  extend_session now cu db
  = (db, Raise (HTTPException 400 "Could not extend session")).
Proof.
  intros Hd. unfold extend_session, SecurityManager.extend_session.
  change (SecurityManager.accepts SecurityManager.extend_session_attr 1 [])
    with true. cbv iota.
  change (SecurityManager.body SecurityManager.extend_session_attr now
            (Some (CurrentUser.session_id cu)) None db)
    with (DatabaseSessionStore.extend_session now
            (Some (CurrentUser.session_id cu)) 30 db).
  now rewrite (db_extend_dead now _ 30 db Hd).
Qed.

(** X15.  The handler [extend_session] registered first on the route
    [/extend-session], for a caller whose session identifier is not empty
    and a table with unique identifiers:
    - if the caller's session is live at the instant of the call, the
      handler answers 1800 and the session is from then on live exactly up
      to and including [now + 1800], whatever its expiry was before; no
      other session changes its liveness and no row is added or removed;
    - if the session is no longer live (it expired or was revoked after the
      guard admitted it), the handler raises the status 400 and the table
      is unchanged. *)
Theorem first_extend_handler_renews_live_only now cu db :
  db_wf db -> CurrentUser.session_id cu <> "" ->
  let sid := CurrentUser.session_id cu in
  let r := extend_session now cu db in
  (db_live now sid db = true ->
   snd r = Return 1800
   /\ (forall t, db_live t sid (fst r) = (t <=? now + 1800))
   /\ (forall s t, s <> sid -> db_live t s (fst r) = db_live t s db)
   /\ sids (fst r) = sids db)
  /\ (db_live now sid db = false ->
      r = (db, Raise (HTTPException 400 "Could not extend session"))).
Proof.
  intros Hwf Hne sid r. subst sid r. split.
  - intros Hl. rewrite (first_handler_extends_by_30 now cu db Hne Hwf Hl).
    cbn [fst snd].
    destruct (db_after_extend now _ 30 db Hwf Hne Hl)
      as (_ & _ & _ & _ & Hdb & _ & _ & Hlive).
    rewrite Hdb in Hlive.
    refine (conj eq_refl (conj _ (conj _ _))).
    + intros t. rewrite Hlive. reflexivity.
    + intros s t Hs. apply db_live_other_id; [assumption|now intros []].
    + apply sids_update_all. now intros [].
  - apply first_handler_dead.
Qed.

Lemma first_extend_handler_renews_live_only_witness :
  let db1 :=
    fst (DatabaseSessionStore.create_session 0 "s1" "alice@example.com"
           (Some 30) []) in
  let db :=
    fst (DatabaseSessionStore.create_session 0 "s2" "bob@example.com"
           (Some 30) db1) in
  let cu t :=
    {| CurrentUser.email := "alice@example.com";
       CurrentUser.session_id := "s1";
       CurrentUser.session_data :=
         {| DatabaseSessionStore.session_id := "s1";
            DatabaseSessionStore.user_email := "alice@example.com";
            DatabaseSessionStore.created_at := 0;
            DatabaseSessionStore.expires_at := 1800;
            DatabaseSessionStore.last_accessed := t |} |} in
  (snd (extend_session 1700 (cu 1700) db) = Return 1800
   /\ (forall t,
          db_live t "s1" (fst (extend_session 1700 (cu 1700) db))
          = (t <=? 1700 + 1800))
   /\ (forall s t,
          s <> "s1" ->
          db_live t s (fst (extend_session 1700 (cu 1700) db))
          = db_live t s db)
   /\ sids (fst (extend_session 1700 (cu 1700) db)) = sids db)
  /\ extend_session 1801 (cu 1800) db
     = (db, Raise (HTTPException 400 "Could not extend session")).
Proof.
  cbv zeta. split.
  - match goal with
    | |- snd (extend_session _ ?c ?d) = _ /\ _ =>
        assert (Hwf : db_wf d)
          by (repeat constructor; simpl; intuition discriminate);
        assert (Hne : CurrentUser.session_id c <> "") by discriminate;
        destruct (first_extend_handler_renews_live_only 1700 c d Hwf Hne)
          as [H _]
    end.
    apply H. reflexivity.
  - match goal with
    | |- extend_session _ ?c ?d = _ =>
        assert (Hwf : db_wf d)
          by (repeat constructor; simpl; intuition discriminate);
        assert (Hne : CurrentUser.session_id c <> "") by discriminate;
        destruct (first_extend_handler_renews_live_only 1801 c d Hwf Hne)
          as [_ H]
    end.
    apply H. reflexivity.
Defined.

(** X16.  The handler [extend_current_session] never renews a session:
    for every request body, caller and table it raises and leaves the
    table as it was.  The exception is [minutes_out_of_range] (status 400)
    exactly when the value under the key [minutes], 30 when the key is
    missing, is not an integer or lies outside 5..480, and the status 500
    otherwise. *)
Theorem extend_current_session_never_renews now extend_data cu db :
  let r := extend_current_session now extend_data cu db in
  let refused :=
    match as_int (get_minutes extend_data) with
    | Some m => m < 5 \/ 480 < m
    | None => True
    end in
  fst r = db
  /\ (refused -> snd r = Raise minutes_out_of_range)
  /\ (~ refused -> snd r = Raise (HTTPException 500 "Internal server error"))
  /\ (forall m, snd r <> Return m)
  /\ (find (fun kv => String.eqb (fst kv) "minutes") extend_data = None ->
      snd r = Raise (HTTPException 500 "Internal server error")).
Proof.
  cbv zeta.
  assert (Hin : forall m,
             as_int (get_minutes extend_data) = Some m -> 5 <= m <= 480 ->
             extend_current_session now extend_data cu db
             = (db, Raise (HTTPException 500 "Internal server error")))
    by (intros m; apply extend_current_session_in_range).
  pose proof (extend_current_session_rejects now extend_data cu db) as Hout.
  destruct (as_int (get_minutes extend_data)) as [m|] eqn:Em.
  - destruct (Z_lt_dec m 5) as [H5|H5];
      [|destruct (Z_lt_dec 480 m) as [H480|H480]].
    + rewrite Hout by auto.
      refine (conj eq_refl (conj (fun _ => eq_refl) (conj _ (conj _ _))));
        cbn [snd]; try (intros; discriminate).
      * intros Hn. exfalso. apply Hn. auto.
      * intros Hf. unfold get_minutes in Em. rewrite Hf in Em.
        cbn [as_int] in Em. injection Em as <-. lia.
    + rewrite Hout by auto.
      refine (conj eq_refl (conj (fun _ => eq_refl) (conj _ (conj _ _))));
        cbn [snd]; try (intros; discriminate).
      * intros Hn. exfalso. apply Hn. auto.
      * intros Hf. unfold get_minutes in Em. rewrite Hf in Em.
        cbn [as_int] in Em. injection Em as <-. lia.
    + rewrite (Hin m eq_refl) by lia.
      refine (conj eq_refl (conj _ (conj (fun _ => eq_refl) (conj _ _))));
        cbn [snd]; try (intros; discriminate); try reflexivity.
      intros [?|?]; lia.
  - rewrite Hout by exact I.
    refine (conj eq_refl (conj (fun _ => eq_refl) (conj _ (conj _ _))));
      cbn [snd]; try (intros; discriminate).
    + intros Hn. exfalso. now apply Hn.
    + intros Hf. unfold get_minutes in Em. rewrite Hf in Em.
      discriminate.
Qed.

(** ** What no call of the persistent backend undoes *)

Lemma row_kept_refl r : row_kept r r.
Proof. unfold row_kept. tauto. Qed.

Lemma row_kept_trans r1 r2 r3 :
  row_kept r1 r2 -> row_kept r2 r3 -> row_kept r1 r3.
Proof. unfold row_kept. intuition congruence. Qed.

Lemma rows_kept_refl db : Forall2 row_kept db db.
Proof. induction db; constructor; auto using row_kept_refl. Qed.

Lemma rows_kept_trans db1 :
  forall db2 db3,
    Forall2 row_kept db1 db2 -> Forall2 row_kept db2 db3 ->
    Forall2 row_kept db1 db3.
Proof.
  induction db1 as [|r db1 IH]; intros db2 db3 H12 H23.
  - inversion H12; subst. inversion H23; subst. constructor.
  - inversion H12; subst. inversion H23; subst. constructor.
    + eapply row_kept_trans; eauto.
    + eapply IH; eauto.
Qed.

Lemma rows_kept_update_all p f db :
  (forall r, row_kept r (f r)) ->
  Forall2 row_kept db (DatabaseSessionStore.update_all p f db).
Proof.
  intros Hf. unfold DatabaseSessionStore.update_all.
  induction db as [|r db IH]; cbn [map]; constructor; [|assumption].
  destruct (p r); [apply Hf|apply row_kept_refl].
Qed.

Lemma rows_kept_update_first p f db :
  (forall r, row_kept r (f r)) ->
  Forall2 row_kept db (DatabaseSessionStore.update_first p f db).
Proof.
  intros Hf.
  induction db as [|r db IH]; cbn [DatabaseSessionStore.update_first];
    [constructor|].
  destruct (p r); constructor;
    auto using row_kept_refl, rows_kept_refl.
Qed.

Lemma row_kept_deactivate r : row_kept r (Session.deactivate r).
Proof. unfold row_kept. destruct r; cbn. tauto. Qed.

Lemma row_kept_touch now r : row_kept r (Session.touch now r).
Proof. unfold row_kept. destruct r; cbn. tauto. Qed.

Lemma row_kept_extend now m r : row_kept r (Session.extend_session now m r).
Proof. unfold row_kept. destruct r; cbn. tauto. Qed.

Lemma rows_kept_delete sid db :
  Forall2 row_kept db (fst (DatabaseSessionStore.delete_session sid db)).
Proof.
  unfold DatabaseSessionStore.delete_session.
  destruct (truthy sid) as [s|]; [|apply rows_kept_refl].
  destruct (DatabaseSessionStore.query_first _ db);
    [|apply rows_kept_refl].
  cbn [fst]. apply rows_kept_update_first, row_kept_deactivate.
Qed.

Lemma rows_kept_get now sid db :
  Forall2 row_kept db (fst (DatabaseSessionStore.get_session now sid db)).
Proof.
  unfold DatabaseSessionStore.get_session.
  destruct (truthy sid) as [s|]; [|apply rows_kept_refl].
  destruct (DatabaseSessionStore.query_first _ db) as [r|];
    [|apply rows_kept_refl].
  destruct (Session.is_expired now r); cbn [fst].
  - apply rows_kept_delete.
  - apply rows_kept_update_first, row_kept_touch.
Qed.

Lemma rows_kept_get_none now sid db :
  Forall2 row_kept db
    (fst (DatabaseSessionStore.get_session_db_none now sid db)).
Proof.
  destruct (db_get_none_table now sid db) as [->| ->];
    [apply rows_kept_refl|apply rows_kept_get].
Qed.

Lemma db_step_rows_kept now o db :
  exists old new,
    fst (db_step now o db) = old ++ new /\ Forall2 row_kept db old
    /\ (List.length new <= 1)%nat.
Proof.
  destruct o as [sid email ttl|sid|sid m|sid|email|email|sid]; cbn [db_step].
  - unfold DatabaseSessionStore.create_session.
    destruct (existsb _ db); cbn [fst].
    + exists db, []. rewrite app_nil_r.
      auto using rows_kept_refl.
    + rewrite cleanup_is_update_all. unfold DatabaseSessionStore.update_all.
      rewrite map_app. eexists. eexists.
      refine (conj eq_refl (conj _ _)).
      * apply (rows_kept_update_all _ _ db). apply row_kept_deactivate.
      * cbn. auto.
  - exists (fst (DatabaseSessionStore.get_session now sid db)), [].
    rewrite app_nil_r.
    destruct (DatabaseSessionStore.get_session now sid db) eqn:E. cbn [fst].
    refine (conj eq_refl (conj _ (Nat.le_0_l _))).
    unfold DatabaseSessionStore.get_session in E.
    destruct (truthy sid) as [s|];
      [|injection E as <- _; apply rows_kept_refl].
    destruct (DatabaseSessionStore.query_first _ db) as [r|];
      [|injection E as <- _; apply rows_kept_refl].
    destruct (Session.is_expired now r); injection E as <- _.
    + apply rows_kept_delete.
    + apply rows_kept_update_first, row_kept_touch.
  - exists (fst (DatabaseSessionStore.extend_session now sid m db)), [].
    rewrite app_nil_r.
    destruct (DatabaseSessionStore.extend_session now sid m db) eqn:E.
    cbn [fst]. refine (conj eq_refl (conj _ (Nat.le_0_l _))).
    unfold DatabaseSessionStore.extend_session in E.
    destruct (truthy sid) as [s|];
      [|injection E as <- _; apply rows_kept_refl].
    destruct (DatabaseSessionStore.query_first _ db) as [r|];
      [|injection E as <- _; apply rows_kept_refl].
    destruct (negb (Session.is_expired now r)); injection E as <- _.
    + apply rows_kept_update_first, row_kept_extend.
    + apply rows_kept_refl.
  - exists (fst (DatabaseSessionStore.delete_session sid db)), [].
    rewrite app_nil_r.
    destruct (DatabaseSessionStore.delete_session sid db) eqn:E.
    cbn [fst]. refine (conj eq_refl (conj _ (Nat.le_0_l _))).
    change t with (fst (t, b)). rewrite <- E. apply rows_kept_delete.
  - exists db, []. rewrite app_nil_r. cbn [fst].
    auto using rows_kept_refl.
  - exists (DatabaseSessionStore.update_all
              (DatabaseSessionStore.active_by_email email)
              Session.deactivate db), [].
    rewrite app_nil_r.
    cbn [fst DatabaseSessionStore.delete_all_user_sessions].
    refine (conj eq_refl (conj _ (Nat.le_0_l _))).
    apply rows_kept_update_all, row_kept_deactivate.
  - exists (fst (DatabaseSessionStore.get_session_db_none now sid db)), [].
    rewrite app_nil_r.
    pose proof (rows_kept_get_none now sid db) as K.
    destruct (DatabaseSessionStore.get_session_db_none now sid db).
    cbn [fst] in *. exact (conj eq_refl (conj K (Nat.le_0_l _))).
Qed.

(** X18.  Whatever calls are made on the persistent backend, at whatever
    instants and with whatever arguments, the table only grows at its end:
    the rows it held are all still there, in their order, each with the
    identifier, the principal and the instant of creation it was stored
    with, and a row that was inactive is still inactive.  The table grows by
    at most one row per call. *)
Theorem persistent_table_is_append_only tr :
  forall db,
  exists old new,
    db_exec tr db = old ++ new /\ Forall2 row_kept db old
    /\ (List.length new <= List.length tr)%nat.
Proof.
  induction tr as [|[now o] tr IH]; intros db; cbn [db_exec].
  - exists db, []. rewrite app_nil_r.
    auto using rows_kept_refl.
  - destruct (db_step_rows_kept now o db) as (old1 & new1 & E1 & K1 & L1).
    destruct (IH (fst (db_step now o db))) as (old2 & new2 & E2 & K2 & L2).
    rewrite E1 in K2. apply Forall2_app_inv_l in K2.
    destruct K2 as (a & b & Ka & Kb & ->).
    exists a, (b ++ new2). refine (conj _ (conj _ _)).
    + now rewrite E2, app_assoc.
    + eapply rows_kept_trans; eauto.
    + rewrite length_app. apply Forall2_length in Kb.
      cbn [List.length]. lia.
Qed.

Lemma truthy_cookie_wins sid header :
  sid <> "" -> truthy (py_or (Some sid) header) = Some sid.
Proof.
  intros Hne. unfold py_or. cbn [falsy].
  destruct (String.eqb_spec sid ""); [contradiction|].
  now apply truthy_nonempty.
Qed.

(** X17.  In the persistent backend a session that has a row in the table
    and is dead (expired or revoked) stays dead: after any sequence of calls made at instants that
    do not go back in time, whatever their arguments, its identifier is
    still not live, [get_session] answers [None] for it, [extend_session]
    answers [False] and changes nothing, and the guard rejects a cookie
    that carries it, whatever the header. *)
Theorem persistent_dead_is_never_revived tr now sid db :
  db_wf db -> clock_monotone now tr = true -> issued sid db = true ->
  db_live now sid db = false ->
  let t := final_instant now tr in
  let db' := db_exec tr db in
  db_live t sid db' = false
  /\ snd (DatabaseSessionStore.get_session t (Some sid) db') = None
  /\ (forall m,
         DatabaseSessionStore.extend_session t (Some sid) m db' = (db', false))
  /\ (sid <> "" ->
      forall header,
        snd (get_current_user_session t (Some sid) header db')
        = Raise invalid_or_expired).
Proof.
  intros Hwf Hm Hi Hd t db'. subst t db'.
  pose proof (db_dead_stays_dead tr now sid db Hwf Hm Hi Hd) as H.
  refine (conj H (conj _ (conj _ _))).
  - now apply get_session_dead.
  - intros m. now apply db_extend_dead.
  - intros Hne header.
    apply (guard_rejects_dead _ (Some sid) header sid);
      [now apply truthy_cookie_wins|assumption].
Qed.

Lemma persistent_dead_is_never_revived_witness :
  let db :=
    fst (DatabaseSessionStore.create_session 0 "s1" "alice@example.com"
           (Some 30) []) in
  let tr :=
    [ (1900, Extend (Some "s1") 60);
      (2000, Create "s2" "alice@example.com" 30);
      (2100, Get (Some "s1"));
      (2100, Extend (Some "s1") 480) ] in
  db_live 2100 "s1" (db_exec tr db) = false
  /\ snd (DatabaseSessionStore.get_session 2100 (Some "s1") (db_exec tr db))
     = None
  /\ (forall m,
         DatabaseSessionStore.extend_session 2100 (Some "s1") m
           (db_exec tr db)
         = (db_exec tr db, false))
  /\ ("s1" <> "" ->
      forall header,
        snd (get_current_user_session 2100 (Some "s1") header (db_exec tr db))
        = Raise invalid_or_expired).
Proof.
  cbv zeta.
  match goal with
  | |- db_live _ _ (db_exec ?tr ?d) = _ /\ _ =>
      assert (Hwf : db_wf d)
        by (repeat constructor; simpl; intuition discriminate);
      exact (persistent_dead_is_never_revived tr 1801 "s1" d Hwf
               eq_refl eq_refl eq_refl)
  end.
Defined.

(** ** Renewing in the volatile backend *)

(** X19.  [SessionStore.extend_session]: for an identifier that is not a
    key of the store, or no identifier, it answers [False] and the store is
    unchanged.  For a key of the store and minutes for which
    [now + 60 * minutes] is an instant [datetime] can hold, it answers [True]
    whatever the record's expiry was; the record's expiry becomes [now] plus
    the minutes given (counted from the call, not from the old expiry), its
    principal
    and creation instant are kept, every other record is unchanged, and a
    lookup of a non-empty identifier at an instant [t] then returns the
    record exactly when [t] is not after [now] plus these minutes. *)
Theorem volatile_extend_sets_expiry now sid m st :
  SessionStore.extend_session now None m st = (st, false)
  /\ (SessionStore.dict_get sid (SessionStore._sessions st) = None ->
      SessionStore.extend_session now (Some sid) m st = (st, false))
  /\ (forall v,
         SessionStore.dict_get sid (SessionStore._sessions st) = Some v ->
         representable now = true -> representable (now + 60 * m) = true ->
         let r := SessionStore.extend_session now (Some sid) m st in
         let v' :=
           {| SessionStore.user_email := SessionStore.user_email v;
              SessionStore.created_at := SessionStore.created_at v;
              SessionStore.expires_at := now + 60 * m;
              SessionStore.last_accessed := now |} in
         snd r = true
         /\ SessionStore.dict_get sid (SessionStore._sessions (fst r))
            = Some v'
         /\ (forall s,
                s <> sid ->
                SessionStore.dict_get s (SessionStore._sessions (fst r))
                = SessionStore.dict_get s (SessionStore._sessions st))
         /\ (sid <> "" ->
             forall t,
               snd (SessionStore.get_session t (Some sid) (fst r))
               = if t <=? now + 60 * m
                 then Some
                        {| SessionStore.user_email :=
                             SessionStore.user_email v;
                           SessionStore.created_at :=
                             SessionStore.created_at v;
                           SessionStore.expires_at := now + 60 * m;
                           SessionStore.last_accessed := t |}
                 else None)).
Proof.
  refine (conj eq_refl (conj _ _)).
  - intros Hn. unfold SessionStore.extend_session. now rewrite Hn.
  - intros v Hv _ _ r v'. subst r v'.
    unfold SessionStore.extend_session. rewrite Hv.
    cbn [fst snd SessionStore.with_sessions SessionStore._sessions].
    unfold timedelta_minutes.
    refine (conj eq_refl (conj _ (conj _ _))).
    + apply dict_get_set_same.
    + intros s Hs. now apply dict_get_set_other.
    + intros Hne t.
      erewrite mem_get_session_held;
        [|assumption
         |cbn [SessionStore.with_sessions SessionStore._sessions];
          apply dict_get_set_same].
      reflexivity.
Qed.

Lemma volatile_extend_sets_expiry_witness :
  let st :=
    fst (SessionStore.create_session 0 "s1" "alice@example.com" 30
           (SessionStore.init 0)) in
  let r := SessionStore.extend_session 100 (Some "s1") 5 st in
  snd r = true
  /\ SessionStore.dict_get "s1" (SessionStore._sessions (fst r))
     = Some {| SessionStore.user_email := "alice@example.com";
               SessionStore.created_at := 0;
               SessionStore.expires_at := 100 + 60 * 5;
               SessionStore.last_accessed := 100 |}
  /\ (forall s,
         s <> "s1" ->
         SessionStore.dict_get s (SessionStore._sessions (fst r))
         = SessionStore.dict_get s (SessionStore._sessions st))
  /\ ("s1" <> "" ->
      forall t,
        snd (SessionStore.get_session t (Some "s1") (fst r))
        = if t <=? 100 + 60 * 5
          then Some {| SessionStore.user_email := "alice@example.com";
                       SessionStore.created_at := 0;
                       SessionStore.expires_at := 100 + 60 * 5;
                       SessionStore.last_accessed := t |}
          else None).
Proof.
  cbv zeta.
  destruct (volatile_extend_sets_expiry 100 "s1" 5
              (fst (SessionStore.create_session 0 "s1" "alice@example.com"
                      30 (SessionStore.init 0))))
    as (_ & _ & H).
  exact (H {| SessionStore.user_email := "alice@example.com";
              SessionStore.created_at := 0;
              SessionStore.expires_at := 1800;
              SessionStore.last_accessed := 0 |} eq_refl eq_refl eq_refl).
Defined.

(** ** Ending another of one's sessions *)

Lemma terminate_session_not_owned now target cu db :
  owned_live now (CurrentUser.email cu) target db = false ->
  terminate_session now target cu db = (db, Raise session_not_found).
Proof.
  intros Ho. unfold terminate_session.
  pose proof (target_in_user_sessions now (CurrentUser.email cu) target db)
    as Ht.
  rewrite find_existsb, Ho in Ht.
  destruct (find _ (DatabaseSessionStore.get_user_sessions now
                      (CurrentUser.email cu) db));
    [discriminate|reflexivity].
Qed.

Lemma terminate_session_done now target cu db :
  db_wf db -> target <> "" -> target <> CurrentUser.session_id cu ->
  owned_live now (CurrentUser.email cu) target db = true ->
  terminate_session now target cu db
  = (DatabaseSessionStore.update_all (DatabaseSessionStore.by_id target)
       Session.deactivate db,
     Return "Session terminated successfully").
Proof.
  intros Hwf Hne Hd Ho. unfold terminate_session.
  pose proof (target_in_user_sessions now (CurrentUser.email cu) target db)
    as Ht.
  rewrite find_existsb, Ho in Ht.
  destruct (find _ (DatabaseSessionStore.get_user_sessions now
                      (CurrentUser.email cu) db)); [|discriminate].
  destruct (String.eqb_spec target (CurrentUser.session_id cu));
    [contradiction|].
  unfold SecurityManager.delete_session.
  rewrite (db_delete_issued_state target db Hne Hwf
             (owned_live_issued now _ target db Ho)).
  reflexivity.
Qed.

(** X20.  After [terminate_session] has ended another live session of the
    caller: the guard rejects a cookie that carries the ended identifier, at
    every later or earlier instant and whatever the header; the ended
    session is no longer in the caller's list; asking to end it again
    raises the status 404 and changes nothing; and every other session, the
    caller's own included, is live exactly when it was before. *)
Theorem terminated_session_is_rejected now target cu db :
  db_wf db -> target <> "" -> target <> CurrentUser.session_id cu ->
  owned_live now (CurrentUser.email cu) target db = true ->
  let db' := fst (terminate_session now target cu db) in
  (forall t header,
      snd (get_current_user_session t (Some target) header db')
      = Raise invalid_or_expired)
  /\ (forall t,
         existsb (fun s => String.eqb (sum_session_id s) target)
           (DatabaseSessionStore.get_user_sessions t (CurrentUser.email cu)
              db')
         = false)
  /\ (forall t,
         terminate_session t target cu db' = (db', Raise session_not_found))
  /\ (forall t s, s <> target -> db_live t s db' = db_live t s db)
  /\ sids db' = sids db.
Proof.
  intros Hwf Hne Hd Ho db'. subst db'.
  rewrite (terminate_session_done now target cu db Hwf Hne Hd Ho).
  cbn [fst].
  assert (Hdead : forall t,
             db_live t target
               (DatabaseSessionStore.update_all
                  (DatabaseSessionStore.by_id target) Session.deactivate db)
             = false)
    by (intros t; apply db_deactivated_dead).
  refine (conj _ (conj _ (conj _ (conj _ _)))).
  - intros t header.
    apply (guard_rejects_dead _ (Some target) header target);
      [now apply truthy_cookie_wins|apply Hdead].
  - intros t. apply not_live_not_listed, Hdead.
  - intros t. apply terminate_session_not_owned.
    destruct (owned_live t (CurrentUser.email cu) target _) eqn:E;
      [|reflexivity].
    apply owned_live_is_live in E. now rewrite Hdead in E.
  - intros t s Hs. apply db_live_other_id; [assumption|now intros []].
  - apply sids_update_all. now intros [].
Qed.

Lemma terminated_session_is_rejected_witness :
  let db1 :=
    fst (DatabaseSessionStore.create_session 0 "s1" "alice@example.com"
           (Some 30) []) in
  let db :=
    fst (DatabaseSessionStore.create_session 5 "s2" "alice@example.com"
           (Some 30) db1) in
  let cu :=
    {| CurrentUser.email := "alice@example.com";
       CurrentUser.session_id := "s2";
       CurrentUser.session_data :=
         {| DatabaseSessionStore.session_id := "s2";
            DatabaseSessionStore.user_email := "alice@example.com";
            DatabaseSessionStore.created_at := 5;
            DatabaseSessionStore.expires_at := 1805;
            DatabaseSessionStore.last_accessed := 10 |} |} in
  let db' := fst (terminate_session 10 "s1" cu db) in
  (forall t header,
      snd (get_current_user_session t (Some "s1") header db')
      = Raise invalid_or_expired)
  /\ (forall t,
         existsb (fun s => String.eqb (sum_session_id s) "s1")
           (DatabaseSessionStore.get_user_sessions t "alice@example.com" db')
         = false)
  /\ (forall t,
         terminate_session t "s1" cu db' = (db', Raise session_not_found))
  /\ (forall t s, s <> "s1" -> db_live t s db' = db_live t s db)
  /\ sids db' = sids db.
Proof.
  cbv zeta.
  match goal with
  | |- (forall t header,
           snd (get_current_user_session t _ header
                  (fst (terminate_session _ _ ?c ?d))) = _) /\ _ =>
      assert (Hwf : db_wf d)
        by (repeat constructor; simpl; intuition discriminate);
      assert (H1 : "s1" <> "") by discriminate;
      assert (H2 : "s1" <> CurrentUser.session_id c) by discriminate;
      exact (terminated_session_is_rejected 10 "s1" c d Hwf H1 H2 eq_refl)
  end.
Defined.
